(** * ConnectBot native layer: PTY-backed subprocess lifecycle

    A shallow embedding of the three native sources

      - [app/src/main/jni/com_google_ase_Exec.cpp]        (module [Exec])
      - [app/src/main/cpp/org_mosh_MoshClient.cpp]        (module [MoshClient])
      - [jni/EastAsianWidth/org_connectbot_util_EastAsianWidth.c]
                                                          (module [EastAsianWidth])

    The C functions are sequences of libc and JNI calls.  Each function is
    embedded as a finite tree of calls ([prog]): a node names the call the
    source makes, the branches are the continuations of the source for each
    answer.  A model of the operating system and of the JVM ([sys]) answers
    the calls; [run] executes a program against it and records the calls
    made. *)

From stdpp Require Import gmap strings list pretty.

#[local] Open Scope Z_scope.

(** ** Values crossing the boundary *)

(** A [char*]: [None] is the null pointer. *)
Abbreviation cstr := (option string).

(** [struct winsize] of <termios.h>: four [unsigned short] fields. *)
Record winsize := Winsize {
  ws_row : Z;
  ws_col : Z;
  ws_xpixel : Z;
  ws_ypixel : Z
}.

(** Java values the native methods receive and build. *)
Inductive jobject :=
| JNull
| JFileDescriptor (descriptor : Z)
| JLong (value : Z)
| JPair (first second : jobject).

(** A [jstring] and a [jintArray]: [None] is the null reference. *)
Abbreviation jstring := (option string).
Abbreviation jintArray := (option (list Z)).

(** Conversions of C: to [unsigned short], and the two's complement [int]. *)
Definition to_ushort (v : Z) : Z := Z.land v 65535.
Definition to_int (v : Z) : Z := (v + 2147483648) `mod` 4294967296 - 2147483648.

(** Constants of <fcntl.h>, <sys/ioctl.h> and <sys/prctl.h> (Linux, bionic). *)
Definition O_RDWR : Z := 2.
Definition F_SETFD : Z := 2.
Definition FD_CLOEXEC : Z := 1.
Definition TIOCSWINSZ : Z := 21524.
Definition PR_SET_NAME : Z := 15.

(** ** The calls the sources make *)

Inductive call :=
(* libc *)
| c_open (path : string) (flags : Z)
| c_fcntl (fd cmd arg : Z)
| c_grantpt (fd : Z)
| c_unlockpt (fd : Z)
| c_ptsname (fd : Z)
| c_ptsname_r (fd buflen : Z)
| c_fork
| c_prctl (option : Z) (arg : string)
| c_setsid
| c_dup2 (oldfd newfd : Z)
| c_close (fd : Z)
| c_execl (path : cstr) (args : list cstr)
| c_mosh_client_main (argv : list cstr)
| c_waitpid (pid options : Z)
| c_ioctl (fd request : Z) (arg : winsize)
| c_setenv (name value : cstr) (overwrite : Z)
| c_kill (pid sig : Z)
| c_log (msg : string)
| c_cerr (operands : list cstr)
| c_fflush
| c_alloc (size : Z)
(* JNI *)
| j_FindClass (name : string)
| j_ThrowNew (name : string) (msg : cstr)
| j_DeleteLocalRef
| j_ExceptionOccurred
| j_ExceptionClear
| j_EnsureLocalCapacity (n : Z)
| j_GetMethodID (cls name sig : string)
| j_GetFieldID (cls name sig : string)
| j_GetStringUTFChars (s : string)
| j_ReleaseStringUTFChars
| j_String_getBytes (s : string)
| j_GetIntField (obj : jobject) (field : string)
| j_NewObject (cls : string)
| j_GetPrimitiveArrayCritical
| j_ReleasePrimitiveArrayCritical.

(** What a call hands back to the C code.  Integers are the C return value;
    [c_ptsname] gives the name or NULL; [c_ptsname_r] the return value and
    the buffer it filled; [c_waitpid] the return value and the status word
    it stored, if it stored one; allocation and lookup calls say whether the
    pointer they return is non-null. *)
Definition ret (c : call) : Type :=
  match c with
  | c_ptsname _ => option string
  | c_ptsname_r _ _ => (Z * string)%type
  | c_waitpid _ _ => (Z * option Z)%type
  | c_log _ | c_cerr _ | c_fflush => unit
  | c_alloc _ => bool
  | j_FindClass _ => bool
  | j_ThrowNew _ _ | j_DeleteLocalRef | j_ExceptionClear => unit
  | j_ExceptionOccurred => bool
  | j_GetMethodID _ _ _ | j_GetFieldID _ _ _ => unit
  | j_GetStringUTFChars _ => cstr
  | j_ReleaseStringUTFChars => unit
  | j_String_getBytes _ => cstr
  | j_NewObject _ => bool
  | j_GetPrimitiveArrayCritical => bool
  | j_ReleasePrimitiveArrayCritical => unit
  | _ => Z
  end.

(** ** Programs: trees of calls *)

Inductive prog (R : Type) : Type :=
| Ret (r : R)
| Do (c : call) (k : ret c -> prog R)
| Exit (status : Z)      (* exit(3): runs the exit handlers, then terminates *)
| UExit (status : Z).    (* _exit(2): terminates at once *)
Arguments Ret {R} r.
Arguments Do {R} c k.
Arguments Exit {R} status.
Arguments UExit {R} status.

Fixpoint bind {A B} (m : prog A) (f : A -> prog B) : prog B :=
  match m with
  | Ret r => f r
  | Do c k => Do c (fun x => bind (k x) f)
  | Exit s => Exit s
  | UExit s => UExit s
  end.

Definition perform (c : call) : prog (ret c) := Do c Ret.

#[global] Instance prog_ret : MRet prog := @Ret.
#[global] Instance prog_bind : MBind prog := fun A B f m => bind m f.

(** ** The operating system and the JVM, as seen by one process *)

Module Posix.

(** What an open descriptor refers to: the master or the slave side of
    pseudo-terminal [n], or some other file. *)
Inductive file :=
| Ptmx (n : nat)
| Pts (n : nat)
| Other (path : string).

Record fdesc := Fdesc { fd_file : file; fd_cloexec : bool }.

Record pty := Pty {
  pty_granted : bool;
  pty_unlocked : bool;
  pty_size : option winsize
}.

(** How a child process ends (or stops), and the status word [waitpid]
    stores for it. *)
Inductive termination :=
| Exits (code : Z)
| Killed (sig : Z) (core : bool)
| Stopped (sig : Z).

Definition wstatus (t : termination) : Z :=
  match t with
  | Exits code => Z.shiftl (Z.land code 255) 8
  | Killed sig core => Z.lor (Z.land sig 127) (if core then 128 else 0)
  | Stopped sig => Z.lor (Z.shiftl (Z.land sig 255) 8) 127
  end.

Record child := Child { ch_pgid : Z; ch_end : termination }.

(** The answers that do not follow from the state: whether a resource is
    available when the call is made, and on which side of [fork] the
    execution continues. *)
Inductive fork_side := fork_fails | fork_in_parent | fork_in_child.

Record plan := Plan {
  ptmx_opens : bool;          (* open("/dev/ptmx") succeeds *)
  grantpt_works : bool;
  unlockpt_works : bool;
  ptsname_works : bool;
  fork_goes : fork_side;
  file_opens : bool;          (* open of any other path succeeds *)
  image_loads : bool;         (* execl finds and loads the image *)
  main_returns : option Z;    (* mosh_client_main returns this, or does not return *)
  child_ends : termination;   (* how a child forked now will end *)
  setenv_works : bool;        (* setenv finds memory *)
  heap_gives : bool;          (* malloc / new(nothrow) return non-null *)
  class_found : string -> bool;
  object_made : string -> bool;
  critical_given : bool;      (* GetPrimitiveArrayCritical returns non-null *)
  utf_given : bool;           (* GetStringUTFChars / getBytes return non-null *)
  local_capacity : bool       (* EnsureLocalCapacity succeeds *)
}.

Record kernel := Kernel {
  k_pid : Z;
  k_pgid : Z;
  k_sid : Z;
  k_ctty : option nat;                 (* controlling terminal *)
  k_comm : string;                     (* thread name, PR_SET_NAME *)
  k_fds : gmap Z fdesc;                (* descriptor table *)
  k_ptys : list pty;                   (* pseudo-terminals, by number *)
  k_pids : list Z;                     (* process ids in use *)
  k_children : list (Z * child);       (* unreaped children, oldest first *)
  k_environ : gmap string string;      (* the process-wide environment *)
  k_pending : option string;           (* pending Java exception *)
  k_plan : plan
}.

(** The lowest descriptor number not in use, as POSIX [open] returns it. *)
Fixpoint lowest_from (fds : gmap Z fdesc) (fuel : nat) (fd : Z) : Z :=
  match fuel with
  | O => fd
  | S fuel' =>
      match fds !! fd with
      | None => fd
      | Some _ => lowest_from fds fuel' (fd + 1)
      end
  end.

Definition lowest_free (fds : gmap Z fdesc) : Z := lowest_from fds (size fds) 0.

(** A process id no process, group or session uses. *)
Definition next_pid (pid pgid sid : Z) (pids : list Z) : Z :=
  1 + foldr Z.max (Z.max 0 (Z.max pid (Z.max pgid sid))) pids.

Definition fresh_pid (k : kernel) : Z :=
  next_pid (k_pid k) (k_pgid k) (k_sid k) (k_pids k).

Definition pts_name (n : nat) : string := "/dev/pts/" +:+ pretty n.

Definition pts_index (path : string) (ptys : list pty) : option nat :=
  snd <$> list_find (fun n => pts_name n = path) (seq 0 (length ptys)).

(** Field updates. *)
Definition with_ids (pid pgid sid : Z) (ctty : option nat) (k : kernel) : kernel :=
  Kernel pid pgid sid ctty (k_comm k) (k_fds k) (k_ptys k) (k_pids k)
         (k_children k) (k_environ k) (k_pending k) (k_plan k).
Definition with_comm (comm : string) (k : kernel) : kernel :=
  Kernel (k_pid k) (k_pgid k) (k_sid k) (k_ctty k) comm (k_fds k) (k_ptys k)
         (k_pids k) (k_children k) (k_environ k) (k_pending k) (k_plan k).
Definition with_fds (fds : gmap Z fdesc) (k : kernel) : kernel :=
  Kernel (k_pid k) (k_pgid k) (k_sid k) (k_ctty k) (k_comm k) fds (k_ptys k)
         (k_pids k) (k_children k) (k_environ k) (k_pending k) (k_plan k).
Definition with_ptys (ptys : list pty) (k : kernel) : kernel :=
  Kernel (k_pid k) (k_pgid k) (k_sid k) (k_ctty k) (k_comm k) (k_fds k) ptys
         (k_pids k) (k_children k) (k_environ k) (k_pending k) (k_plan k).
Definition with_procs (pids : list Z) (children : list (Z * child)) (k : kernel) : kernel :=
  Kernel (k_pid k) (k_pgid k) (k_sid k) (k_ctty k) (k_comm k) (k_fds k) (k_ptys k)
         pids children (k_environ k) (k_pending k) (k_plan k).
Definition with_environ (env : gmap string string) (k : kernel) : kernel :=
  Kernel (k_pid k) (k_pgid k) (k_sid k) (k_ctty k) (k_comm k) (k_fds k) (k_ptys k)
         (k_pids k) (k_children k) env (k_pending k) (k_plan k).
Definition with_pending (exc : option string) (k : kernel) : kernel :=
  Kernel (k_pid k) (k_pgid k) (k_sid k) (k_ctty k) (k_comm k) (k_fds k) (k_ptys k)
         (k_pids k) (k_children k) (k_environ k) exc (k_plan k).

(** A call either answers, or the process does not come back from it. *)
Inductive fate :=
| image_replaced (path : string) (argv : list string) (env : gmap string string)
| never_returned
| crashed.

Inductive reply (X : Type) : Type :=
| Answer (x : X)
| Stop (f : fate).
Arguments Answer {X} x.
Arguments Stop {X} f.

(** The argument vector of a variadic [execl]: up to the first NULL. *)
Fixpoint argv_of (args : list cstr) : list string :=
  match args with
  | Some a :: rest => a :: argv_of rest
  | _ => []
  end.

(** The master side behind a descriptor, if it is one. *)
Definition master_of (k : kernel) (fd : Z) : option nat :=
  match k_fds k !! fd with
  | Some (Fdesc (Ptmx n) _) => Some n
  | _ => None
  end.

Definition terminal_of (k : kernel) (fd : Z) : option nat :=
  match k_fds k !! fd with
  | Some (Fdesc (Ptmx n) _) | Some (Fdesc (Pts n) _) => Some n
  | _ => None
  end.

Definition pty_ready (k : kernel) (n : nat) : bool :=
  match k_ptys k !! n with
  | Some p => pty_unlocked p
  | None => false
  end.

Definition alter_pty (f : pty -> pty) (n : nat) (k : kernel) : kernel :=
  with_ptys (alter f n (k_ptys k)) k.

(** Which children a [waitpid(pid, ...)] is about. *)
Definition waited (k : kernel) (pid : Z) (pc : Z * child) : bool :=
  if decide (0 < pid) then bool_decide (pc.1 = pid)
  else if decide (pid = -1) then true
  else if decide (pid = 0) then bool_decide (ch_pgid pc.2 = k_pgid k)
  else bool_decide (ch_pgid pc.2 = - pid).

(** The first child a [waitpid(pid, ...)] is about, with its place in the
    list; none: the caller has no such child. *)
Definition reported (k : kernel) (pid : Z) : option (nat * (Z * child)) :=
  list_find (fun pc => waited k pid pc = true) (k_children k).

(** <sys/wait.h>: the options of [waitpid]. *)
Definition WNOHANG : Z := 1.
Definition WUNTRACED : Z := 2.

(** Whether a [waitpid] with these options reports a child that ends or
    stops this way: an exit or a death by signal always, a stop only under
    [WUNTRACED]. *)
Definition reportable (options : Z) (t : termination) : bool :=
  match t with
  | Stopped _ => Z.testbit options 1
  | _ => true
  end.

(** The child a [waitpid(pid, ..., options)] reports: the first one it is
    about that it may report. *)
Definition ready (k : kernel) (pid options : Z) : option (nat * (Z * child)) :=
  list_find (fun pc => waited k pid pc && reportable options (ch_end pc.2) = true)
            (k_children k).

(** <signal.h>: [kill] accepts the numbers 0 (no signal is sent, only the
    checks are made) to 64. *)
Definition valid_signal (sig : Z) : bool := bool_decide (0 ≤ sig ≤ 64).

(** The signals that do nothing to a process that kept the default
    dispositions, as these sources do: none, SIGCHLD, SIGCONT, SIGURG and
    SIGWINCH.  Every other signal terminates or stops the process. *)
Definition ignored (sig : Z) : bool := bool_decide (sig ∈ [0; 17; 18; 23; 28]).

(** The processes a [kill(pid, ...)] addresses: the process [pid]; for 0
    the process group of the caller; for -1 every process but the caller
    and init; otherwise the process group [-pid].  The model knows the
    group of the caller and of its children only, and takes the caller to
    be allowed to signal the processes it addresses. *)
Definition addressed (k : kernel) (pid : Z) : list Z :=
  if decide (0 < pid) then
    if bool_decide (pid = k_pid k ∨ pid ∈ k_pids k) then [pid] else []
  else if decide (pid = -1) then
    filter (fun p => p ≠ 1 ∧ p ≠ k_pid k) (k_pids k)
  else
    let pgid := if decide (pid = 0) then k_pgid k else - pid in
    (if decide (k_pgid k = pgid) then [k_pid k] else []) ++
    (filter (fun pc => ch_pgid pc.2 = pgid) (k_children k)).*1.

Definition install (fd : Z) (f : file) (k : kernel) : kernel :=
  with_fds (<[fd := Fdesc f false]> (k_fds k)) k.

(** [dup2(oldfd, newfd)] on the descriptor table, and what it returns:
    [newfd] comes to refer to the file of [oldfd], without close-on-exec;
    nothing changes when [oldfd] is not open, [newfd] is negative, or the
    two are equal. *)
Definition dup2_fds (oldfd newfd : Z) (fds : gmap Z fdesc) : gmap Z fdesc :=
  match fds !! oldfd with
  | Some d =>
      if decide (newfd < 0) then fds
      else if decide (oldfd = newfd) then fds
      else <[newfd := Fdesc (fd_file d) false]> fds
  | None => fds
  end.

Definition dup2_ret (oldfd newfd : Z) (fds : gmap Z fdesc) : Z :=
  match fds !! oldfd with
  | Some _ => if decide (newfd < 0) then -1 else newfd
  | None => -1
  end.

Definition valid_name (name : string) : bool :=
  negb (bool_decide (name = EmptyString)) &&
  match String.index 0 "=" name with None => true | Some _ => false end.

(** [sys c k]: the answer of the system to call [c] in state [k], and the
    state after it. *)
Definition sys (c : call) (k : kernel) : reply (ret c) * kernel :=
  match c return reply (ret c) * kernel with
  | c_open path flags =>
      let fd := lowest_free (k_fds k) in
      if decide (path = "/dev/ptmx") then
        if ptmx_opens (k_plan k) then
          (Answer fd,
           install fd (Ptmx (length (k_ptys k)))
                   (with_ptys (k_ptys k ++ [Pty false false None]) k))
        else (Answer (-1), k)
      else
        match pts_index path (k_ptys k) with
        | Some n =>
            if file_opens (k_plan k) && pty_ready k n then
              (* a session leader without a controlling terminal acquires
                 the terminal it opens (no O_NOCTTY) *)
              let ctty :=
                match k_ctty k with
                | None => if decide (k_sid k = k_pid k) then Some n else None
                | Some t => Some t
                end in
              (Answer fd,
               install fd (Pts n) (with_ids (k_pid k) (k_pgid k) (k_sid k) ctty k))
            else (Answer (-1), k)
        | None =>
            if file_opens (k_plan k) then (Answer fd, install fd (Other path) k)
            else (Answer (-1), k)
        end
  | c_fcntl fd cmd arg =>
      match k_fds k !! fd with
      | Some d =>
          if decide (cmd = F_SETFD) then
            (Answer 0,
             with_fds (<[fd := Fdesc (fd_file d) (Z.testbit arg 0)]> (k_fds k)) k)
          else (Answer (-1), k)
      | None => (Answer (-1), k)
      end
  | c_grantpt fd =>
      match master_of k fd with
      | Some n =>
          if grantpt_works (k_plan k) then
            (Answer 0,
             alter_pty (fun p => Pty true (pty_unlocked p) (pty_size p)) n k)
          else (Answer (-1), k)
      | None => (Answer (-1), k)
      end
  | c_unlockpt fd =>
      match master_of k fd with
      | Some n =>
          if unlockpt_works (k_plan k) then
            (Answer 0,
             alter_pty (fun p => Pty (pty_granted p) true (pty_size p)) n k)
          else (Answer (-1), k)
      | None => (Answer (-1), k)
      end
  | c_ptsname fd =>
      match master_of k fd with
      | Some n =>
          if ptsname_works (k_plan k) then (Answer (Some (pts_name n)), k)
          else (Answer None, k)
      | None => (Answer None, k)
      end
  | c_ptsname_r fd buflen =>
      match master_of k fd with
      | Some n =>
          if ptsname_works (k_plan k) then
            if decide (Z.of_nat (String.length (pts_name n)) < buflen)
            then (Answer (0, pts_name n), k)
            else (Answer (34, EmptyString), k)                       (* ERANGE *)
          else (Answer (25, EmptyString), k)                         (* ENOTTY *)
      | None => (Answer (25, EmptyString), k)
      end
  | c_fork =>
      let pid := fresh_pid k in
      match fork_goes (k_plan k) with
      | fork_fails => (Answer (-1), k)
      | fork_in_parent =>
          (Answer pid,
           with_procs (pid :: k_pids k)
                      (k_children k ++ [(pid, Child (k_pgid k) (child_ends (k_plan k)))]) k)
      | fork_in_child =>
          (Answer 0,
           with_ids pid (k_pgid k) (k_sid k) (k_ctty k)
                    (with_procs (pid :: k_pids k) [] k))
      end
  | c_prctl option arg =>
      if decide (option = PR_SET_NAME) then (Answer 0, with_comm arg k)
      else (Answer (-1), k)
  | c_setsid =>
      if decide (k_pid k = k_pgid k) then (Answer (-1), k)
      else (Answer (k_pid k), with_ids (k_pid k) (k_pid k) (k_pid k) None k)
  | c_dup2 oldfd newfd =>
      (Answer (dup2_ret oldfd newfd (k_fds k)),
       with_fds (dup2_fds oldfd newfd (k_fds k)) k)
  | c_close fd =>
      (Answer (if k_fds k !! fd is Some _ then 0 else -1),
       with_fds (delete fd (k_fds k)) k)
  | c_execl path args =>
      match path with
      | Some p =>
          if image_loads (k_plan k) then
            (Stop (image_replaced p (argv_of args) (k_environ k)),
             with_fds (filter (fun e => fd_cloexec e.2 = false) (k_fds k)) k)
          else (Answer (-1), k)
      | None => (Answer (-1), k)
      end
  | c_mosh_client_main argv =>
      match main_returns (k_plan k) with
      | Some rc => (Answer rc, k)
      | None => (Stop never_returned, k)
      end
  | c_waitpid pid options =>
      match reported k pid with
      | Some _ =>
          match ready k pid options with
          | Some (i, (p, ch)) =>
              (Answer (p, Some (wstatus (ch_end ch))),
               match ch_end ch with
               | Stopped _ => k
               | _ => with_procs (k_pids k) (delete i (k_children k)) k
               end)
          | None =>
              (* children, but none to report: 0 at once under WNOHANG,
                 and otherwise the call waits *)
              if Z.testbit options 0 then (Answer (0, None), k)
              else (Stop never_returned, k)
          end
      | None => (Answer (-1, None), k)                      (* ECHILD *)
      end
  | c_ioctl fd request arg =>
      match terminal_of k fd with
      | Some n =>
          if decide (request = TIOCSWINSZ) then
            (Answer 0,
             alter_pty (fun p => Pty (pty_granted p) (pty_unlocked p) (Some arg)) n k)
          else (Answer (-1), k)
      | None => (Answer (-1), k)                            (* EBADF, ENOTTY *)
      end
  | c_setenv name value overwrite =>
      match name with
      | Some n =>
          if valid_name n then
            match value with
            | Some v =>
                match k_environ k !! n with
                | Some _ =>
                    if decide (overwrite = 0) then (Answer 0, k)
                    else if setenv_works (k_plan k)
                    then (Answer 0, with_environ (<[n := v]> (k_environ k)) k)
                    else (Answer (-1), k)
                | None =>
                    if setenv_works (k_plan k)
                    then (Answer 0, with_environ (<[n := v]> (k_environ k)) k)
                    else (Answer (-1), k)
                end
            | None => (Stop crashed, k)                     (* strlen(NULL) *)
            end
          else (Answer (-1), k)                             (* EINVAL *)
      | None => (Answer (-1), k)                            (* EINVAL *)
      end
  | c_kill pid sig =>
      if valid_signal sig then
        if bool_decide (addressed k pid = []) then (Answer (-1), k)   (* ESRCH *)
        else if bool_decide (k_pid k ∈ addressed k pid) && negb (ignored sig)
        then (Stop never_returned, k)       (* the caller is terminated or stopped *)
        else (Answer 0, k)
      else (Answer (-1), k)                                           (* EINVAL *)
  | c_log _ => (Answer (), k)
  | c_cerr _ => (Answer (), k)
  | c_fflush => (Answer (), k)
  | c_alloc _ => (Answer (heap_gives (k_plan k)), k)
  | j_FindClass name =>
      if class_found (k_plan k) name then (Answer true, k)
      else (Answer false, with_pending (Some "java/lang/NoClassDefFoundError") k)
  | j_ThrowNew name _ => (Answer (), with_pending (Some name) k)
  | j_DeleteLocalRef => (Answer (), k)
  | j_ExceptionOccurred =>
      (Answer (if k_pending k is Some _ then true else false), k)
  | j_ExceptionClear => (Answer (), with_pending None k)
  | j_EnsureLocalCapacity _ =>
      if local_capacity (k_plan k) then (Answer 0, k)
      else (Answer (-1), with_pending (Some "java/lang/OutOfMemoryError") k)
  (* JNI defines the lookups and [NewObject] for a class that was found,
     and [GetIntField] for an object that has the field.  Outside of that
     the answers below are an assumption: the lookups answer, [NewObject]
     follows the plan, and [GetIntField] answers 0 with an exception
     pending. *)
  | j_GetMethodID _ _ _ => (Answer (), k)
  | j_GetFieldID _ _ _ => (Answer (), k)
  | j_GetStringUTFChars s =>
      if utf_given (k_plan k) then (Answer (Some s), k)
      else (Answer None, with_pending (Some "java/lang/OutOfMemoryError") k)
  | j_ReleaseStringUTFChars => (Answer (), k)
  | j_String_getBytes s =>
      if utf_given (k_plan k) then (Answer (Some s), k)
      else (Answer None, with_pending (Some "java/lang/OutOfMemoryError") k)
  | j_GetIntField obj _ =>
      match obj with
      | JFileDescriptor d => (Answer d, k)
      | _ => (Answer 0, with_pending (Some "java/lang/NullPointerException") k)
      end
  | j_NewObject cls =>
      if object_made (k_plan k) cls then (Answer true, k)
      else (Answer false, with_pending (Some "java/lang/OutOfMemoryError") k)
  | j_GetPrimitiveArrayCritical =>
      (Answer (critical_given (k_plan k)), k)
  | j_ReleasePrimitiveArrayCritical => (Answer (), k)
  end.

(** ** Running a program *)

(** How the execution of a C function ends for the process that runs it. *)
Inductive outcome (R : Type) : Type :=
| Returned (r : R)                 (* the function returns to its caller *)
| Exited (status : Z)              (* exit(status) or _exit(status) *)
| Gone (f : fate).                 (* new image, no return, or a crash *)
Arguments Returned {R} r.
Arguments Exited {R} status.
Arguments Gone {R} f.

Record result (R : Type) : Type := Result {
  res_out : outcome R;
  res_sys : kernel;
  res_calls : list call
}.
Arguments Result {R} _ _ _.
Arguments res_out {R} _.
Arguments res_sys {R} _.
Arguments res_calls {R} _.

(** [called c r]: the execution [r], after the call [c]. *)
Definition called {R} (c : call) (r : result R) : result R :=
  Result (res_out r) (res_sys r) (c :: res_calls r).

Fixpoint run {R} (m : prog R) (k : kernel) : result R :=
  match m with
  | Ret r => Result (Returned r) k []
  | Exit s => Result (Exited s) k []
  | UExit s => Result (Exited s) k []
  | Do c cont =>
      match sys c k with
      | (Answer x, k') => called c (run (cont x) k')
      | (Stop f, k') => Result (Gone f) k' [c]
      end
  end.

(** Sequencing of two executions: the second starts where the first
    returned. *)
Definition and_then {A B} (r : result A) (f : A -> kernel -> result B) : result B :=
  match res_out r with
  | Returned a =>
      let r' := f a (res_sys r) in
      Result (res_out r') (res_sys r') (res_calls r ++ res_calls r')
  | Exited s => Result (Exited s) (res_sys r) (res_calls r)
  | Gone g => Result (Gone g) (res_sys r) (res_calls r)
  end.

(** The state a call leaves behind. *)
Definition after (c : call) (k : kernel) : kernel := (sys c k).2.

(** The state once [/dev/ptmx] has been opened on the lowest free
    descriptor and marked close-on-exec, with the new slave granted and
    unlocked as said. *)
Definition opened (granted unlocked : bool) (k : kernel) : kernel :=
  with_fds (<[lowest_free (k_fds k) := Fdesc (Ptmx (length (k_ptys k))) true]> (k_fds k))
           (with_ptys (k_ptys k ++ [Pty granted unlocked None]) k).

(** The descriptor table after the slave [pts] has been duplicated onto 0, 1
    and 2 and the master [ptm] closed. *)
Definition attached (pts ptm : Z) (fds : gmap Z fdesc) : gmap Z fdesc :=
  delete ptm (dup2_fds pts 2 (dup2_fds pts 1 (dup2_fds pts 0 fds))).

(** A process with the three standard streams open and nothing else. *)
Definition stdio : gmap Z fdesc :=
  <[0 := Fdesc (Other "/dev/null") false]>
  (<[1 := Fdesc (Other "/dev/null") false]>
  (<[2 := Fdesc (Other "/dev/null") false]> ∅)).

Definition boot (p : plan) : kernel :=
  Kernel 100 100 100 None "app" stdio [] [1; 100] [] ∅ None p.

(** The steps of the allocation of a pseudo-terminal all work: for [Exec],
    which grants the slave and asks for its name with [ptsname], and for
    [MoshClient], which does not grant and asks with [ptsname_r] for a
    name of less than 32 bytes. *)
Definition Exec_ready (p : plan) : bool :=
  ptmx_opens p && grantpt_works p && unlockpt_works p && ptsname_works p.

Definition Mosh_ready (k : kernel) : bool :=
  ptmx_opens (k_plan k) && unlockpt_works (k_plan k) && ptsname_works (k_plan k) &&
  bool_decide (Z.of_nat (String.length (pts_name (length (k_ptys k)))) < 32).

(** Plans: everything works, on either side of [fork]; and plans in which
    the steps of the allocation work as said. *)
Definition fair (side : fork_side) : plan :=
  Plan true true true true side true true (Some 0) (Exits 0) true true
       (fun _ => true) (fun _ => true) true true true.

Definition failing (ptmx grant unlock name : bool) (side : fork_side) : plan :=
  Plan ptmx grant unlock name side true true (Some 0) (Exits 0) true true
       (fun _ => true) (fun _ => true) true true true.

(** In the parent, every step works and the child forked will end as said. *)
Definition ending (t : termination) : plan :=
  Plan true true true true fork_in_parent true true (Some 0) t true true
       (fun _ => true) (fun _ => true) true true true.

(** A sentinel failure value: a handle or process id below zero. *)
Definition sentinel (v : Z) : Prop := v < 0.

(** Between [k] and [k'] exactly one descriptor was added, [ptm], and it is
    the master of a pseudo-terminal, marked close-on-exec. *)
Definition new_handle (k k' : kernel) (ptm : Z) : Prop :=
  0 ≤ ptm ∧ k_fds k !! ptm = None ∧
  ∃ n, k_fds k' = <[ptm := Fdesc (Ptmx n) true]> (k_fds k).

(** Between [k] and [k'] exactly one process was created, [pid], a child of
    the caller. *)
Definition new_process (k k' : kernel) (pid : Z) : Prop :=
  0 < pid ∧ (pid ∉ k_pids k) ∧ k_pids k' = pid :: k_pids k ∧
  ∃ ch, k_children k' = k_children k ++ [(pid, ch)].

Definition no_new_process (k k' : kernel) : Prop :=
  k_pids k' = k_pids k ∧ k_children k' = k_children k.

End Posix.

Import Posix.

(** ** com_google_ase_Exec.cpp *)

Module Exec.

(** [LOG(...)]: the message goes to the Android log; the text of
    [strerror(errno)] is left out. *)
Definition LOG (msg : string) : prog unit := perform (c_log msg).

Definition JNU_ThrowByName (name : string) (msg : cstr) : prog unit :=
  clazz ← perform (j_FindClass name);
  (if clazz : bool then perform (j_ThrowNew name msg) else mret ());;
  perform j_DeleteLocalRef.

Definition JNU_GetStringNativeChars (jstr : jstring) : prog cstr :=
  match jstr with
  | None => mret None
  | Some chars =>
      cap ← perform (j_EnsureLocalCapacity 2);
      if decide (cap < 0) then mret None
      else
        perform (j_FindClass "java/lang/String");;
        perform (j_GetMethodID "java/lang/String" "getBytes" "()[B");;
        bytes ← perform (j_String_getBytes chars);
        exc ← perform j_ExceptionOccurred;
        if exc : bool then
          perform j_DeleteLocalRef;;
          perform j_DeleteLocalRef;;
          mret None
        else
          let len := Z.of_nat (String.length (default EmptyString bytes)) in
          result ← perform (c_alloc (len + 1));
          if result : bool then
            perform j_DeleteLocalRef;;
            mret bytes
          else
            JNU_ThrowByName "java/lang/OutOfMemoryError" None;;
            perform j_DeleteLocalRef;;
            mret None
  end.

Definition jniGetFDFromFileDescriptor (fileDescriptor : jobject) : prog Z :=
  perform (j_FindClass "java/io/FileDescriptor");;
  perform (j_GetFieldID "java/io/FileDescriptor" "descriptor" "I");;
  perform (j_GetIntField fileDescriptor "descriptor").

(** Lines 86-97 of [create_subprocess]: the allocation of the
    pseudo-terminal.  [None] stands for the two [return -1]; otherwise the
    master descriptor [ptm] and [devname]. *)
Definition open_pty : prog (option (Z * string)) :=
  ptm ← perform (c_open "/dev/ptmx" O_RDWR);
  if decide (ptm < 0) then
    LOG "[ cannot open /dev/ptmx ]";;
    mret None
  else
    perform (c_fcntl ptm F_SETFD FD_CLOEXEC);;
    g ← perform (c_grantpt ptm);
    if decide (g ≠ 0) then LOG "[ trouble with /dev/ptmx ]";; mret None
    else
      u ← perform (c_unlockpt ptm);
      if decide (u ≠ 0) then LOG "[ trouble with /dev/ptmx ]";; mret None
      else
        devname ← perform (c_ptsname ptm);
        match devname with
        | None => LOG "[ trouble with /dev/ptmx ]";; mret None
        | Some devname => mret (Some (ptm, devname))
        end.

(** [create_subprocess cmd arg0 arg1 pProcessId]: the result is the value
    returned and the content of [*pProcessId] afterwards; the argument
    [pProcessId] is the content of that slot before the call. *)
Definition create_subprocess (cmd arg0 arg1 : cstr) (pProcessId : Z) : prog (Z * Z) :=
  pty ← open_pty;
  match pty with
  | None => mret (-1, pProcessId)
  | Some (ptm, devname) =>
      pid ← perform c_fork;
      if decide (pid < 0) then
        LOG "- fork failed -";;
        mret (-1, pProcessId)
      else if decide (pid = 0) then
        perform c_setsid;;
        pts ← perform (c_open devname O_RDWR);
        if decide (pts < 0) then Exit (-1)
        else
          perform (c_dup2 pts 0);;
          perform (c_dup2 pts 1);;
          perform (c_dup2 pts 2);;
          perform (c_close ptm);;
          perform (c_execl cmd [cmd; arg0; arg1]);;
          Exit (-1)
      else
        mret (ptm, pid)
  end.

(** [Java_com_google_ase_Exec_createSubprocess].  The local [procId] is
    not initialised: [procId] is what its stack slot holds on entry.  The
    result is the object returned and the array [processIdArray]
    afterwards. *)
Definition createSubprocess (cmd arg0 arg1 : jstring) (processIdArray : jintArray)
    (procId : Z) : prog (jobject * jintArray) :=
  cmd_8 ← JNU_GetStringNativeChars cmd;
  arg0_8 ← JNU_GetStringNativeChars arg0;
  arg1_8 ← JNU_GetStringNativeChars arg1;
  '(ptm, procId) ← create_subprocess cmd_8 arg0_8 arg1_8 procId;
  processIdArray ←
    match processIdArray with
    | Some elems =>
        if decide (0 < Z.of_nat (length elems)) then
          pProcId ← perform j_GetPrimitiveArrayCritical;
          if pProcId : bool then
            perform j_ReleasePrimitiveArrayCritical;;
            mret (Some (<[0%nat := procId]> elems))
          else mret (Some elems)
        else mret (Some elems)
    | None => mret None
    end;
  perform (j_FindClass "java/io/FileDescriptor");;
  perform (j_GetMethodID "java/io/FileDescriptor" "<init>" "()V");;
  result ← perform (j_NewObject "java/io/FileDescriptor");
  if result : bool then
    perform (j_GetFieldID "java/io/FileDescriptor" "descriptor" "I");;
    mret (JFileDescriptor ptm, processIdArray)
  else
    LOG "Couldn't create a FileDescriptor.";;
    mret (JNull, processIdArray).

Definition setPtyWindowSize (fileDescriptor : jobject) (row col xpixel ypixel : Z)
    : prog unit :=
  fd ← jniGetFDFromFileDescriptor fileDescriptor;
  exc ← perform j_ExceptionOccurred;
  if exc : bool then mret ()
  else
    let sz := Winsize (to_ushort row) (to_ushort col)
                      (to_ushort xpixel) (to_ushort ypixel) in
    perform (c_ioctl fd TIOCSWINSZ sz);;
    mret ().

(** <sys/wait.h> (bionic). *)
Definition WTERMSIG (s : Z) : Z := Z.land s 127.
Definition WIFEXITED (s : Z) : bool := bool_decide (WTERMSIG s = 0).
Definition WEXITSTATUS (s : Z) : Z := Z.shiftr (Z.land s 65280) 8.

(** [Java_com_google_ase_Exec_waitFor].  The local [status] is not
    initialised: [status] is what its stack slot holds on entry, and what
    it still holds when [waitpid] stores nothing. *)
Definition waitFor (procId : Z) (status : Z) : prog Z :=
  '(_, stored) ← perform (c_waitpid procId 0);
  let status := default status stored in
  let result := 0 in
  let result := if WIFEXITED status then WEXITSTATUS status else result in
  mret result.

End Exec.

(** ** org_mosh_MoshClient.cpp *)

Module MoshClient.

Definition LOG_E (msg : string) : prog unit := perform (c_log msg).
Definition LOG_I (msg : string) : prog unit := perform (c_log msg).

(** [std::cerr << a << b << ... << std::endl]: one statement, as the
    operands it inserts, in order.  A [char*] operand may be NULL; what
    the stream writes then is not defined by C++ and is not followed
    here, only that the insertion is made. *)
Definition cerr (operands : list cstr) : prog unit := perform (c_cerr operands).

Definition jniThrowByName (name : string) (msg : cstr) : prog unit :=
  clazz ← perform (j_FindClass name);
  (if clazz : bool then perform (j_ThrowNew name msg) else mret ());;
  perform j_DeleteLocalRef.

Definition jniGetStringNativeChars (jstr : jstring) : prog cstr :=
  match jstr with
  | None => mret None
  | Some chars =>
      nativeString ← perform (j_GetStringUTFChars chars);
      match nativeString with
      | None =>
          perform j_ExceptionClear;;
          mret None
      | Some nativeString =>
          let len := Z.of_nat (String.length nativeString) in
          result ← perform (c_alloc (len + 1));
          (if result : bool then mret ()
           else jniThrowByName "java/lang/OutOfMemoryError"
                  (Some "Failed to allocate memory for native string"));;
          perform j_ReleaseStringUTFChars;;
          mret (if result : bool then Some nativeString else None)
      end
  end.

Definition jniGetFDFromFileDescriptor (fileDescriptor : jobject) : prog Z :=
  perform (j_FindClass "java/io/FileDescriptor");;
  perform (j_GetFieldID "java/io/FileDescriptor" "descriptor" "I");;
  perform (j_GetIntField fileDescriptor "descriptor").

Definition setenv (name value : jstring) : prog Z :=
  name_8 ← jniGetStringNativeChars name;
  value_8 ← jniGetStringNativeChars value;
  perform (c_setenv name_8 value_8 1).

Definition setPtyWindowSize (fileDescriptor : jobject) (row col xpixel ypixel : Z)
    : prog unit :=
  fd ← jniGetFDFromFileDescriptor fileDescriptor;
  exc ← perform j_ExceptionOccurred;
  if exc : bool then mret ()
  else
    let sz := Winsize (to_ushort row) (to_ushort col)
                      (to_ushort xpixel) (to_ushort ypixel) in
    perform (c_ioctl fd TIOCSWINSZ sz);;
    mret ().

(** <sys/wait.h> (bionic). *)
Definition WTERMSIG (s : Z) : Z := Z.land s 127.
Definition WIFEXITED (s : Z) : bool := bool_decide (WTERMSIG s = 0).
Definition WEXITSTATUS (s : Z) : Z := Z.shiftr (Z.land s 65280) 8.

(** [Java_org_mosh_MoshClient_waitFor].  The local [status] is not
    initialised: [status] is what its stack slot holds on entry, and what
    it still holds when [waitpid] stores nothing. *)
Definition waitFor (procId : Z) (status : Z) : prog Z :=
  '(_, stored) ← perform (c_waitpid procId 0);
  let status := default status stored in
  let result := 0 in
  let result := if WIFEXITED status then WEXITSTATUS status else result in
  mret result.

Definition kill (pid signal : Z) : prog Z := perform (c_kill pid signal).

(** Lines 142-154 of [create_mosh_client]: the allocation of the
    pseudo-terminal.  [None] stands for the two [return]; otherwise the
    master descriptor [ptm] and the name in [devname] (a buffer of 32
    bytes). *)
Definition open_pty : prog (option (Z * string)) :=
  ptm ← perform (c_open "/dev/ptmx" O_RDWR);
  if decide (ptm < 0) then
    LOG_E "[ cannot open /dev/ptmx ]";;
    mret None
  else
    perform (c_fcntl ptm F_SETFD FD_CLOEXEC);;
    u ← perform (c_unlockpt ptm);
    if decide (u ≠ 0) then LOG_E "[ trouble with /dev/ptmx ]";; mret None
    else
      '(n, devname) ← perform (c_ptsname_r ptm 32);
      if decide (n ≠ 0) then LOG_E "[ trouble with /dev/ptmx ]";; mret None
      else mret (Some (ptm, devname)).

(** [create_mosh_client ip port pPtm pProcessId]: the result is the content
    of [*pPtm] and of [*pProcessId] afterwards; the arguments [pPtm] and
    [pProcessId] are the contents of the two slots before the call. *)
Definition create_mosh_client (ip port : cstr) (pPtm pProcessId : Z) : prog (Z * Z) :=
  let pPtm := -1 in
  pty ← open_pty;
  match pty with
  | None => mret (pPtm, pProcessId)
  | Some (ptm, devname) =>
      pid ← perform c_fork;
      if decide (pid < 0) then
        LOG_E "- fork failed -";;
        mret (pPtm, pProcessId)
      else if decide (pid = 0) then
        perform (c_prctl PR_SET_NAME "MoshClient");;
        perform c_setsid;;
        pts ← perform (c_open devname O_RDWR);
        if decide (pts < 0) then Exit (-1)
        else
          perform (c_dup2 pts 0);;
          perform (c_dup2 pts 1);;
          perform (c_dup2 pts 2);;
          perform (c_close ptm);;
          let argv := [Some "mosh-client"; ip; port] in
          cerr [Some "[ MoshClient.forkExec("; ip; Some ", "; port; Some ")@main ]"];;
          perform (c_mosh_client_main argv);;
          cerr [Some "[ MoshClient.forkExec("; ip; Some ", "; port; Some ")@exit ]"];;
          cerr [];;
          perform c_fflush;;
          perform c_fflush;;
          UExit 1
      else
        mret (ptm, pid)
  end.

(** [Java_org_mosh_MoshClient_forkExec].  The locals [procId] and [ptm] are
    not initialised: the arguments are what their stack slots hold on
    entry.  [create_mosh_client] runs on a thread of its own that is joined
    at once. *)
Definition forkExec (arg0 arg1 : jstring) (procId ptm : Z) : prog jobject :=
  LOG_I "[ MoshClient.forkExec ]";;
  arg_ip ← jniGetStringNativeChars arg0;
  arg_port ← jniGetStringNativeChars arg1;
  '(ptm, procId) ← create_mosh_client arg_ip arg_port ptm procId;
  Class_java_io_FileDescriptor ← perform (j_FindClass "java/io/FileDescriptor");
  if negb Class_java_io_FileDescriptor then
    jniThrowByName "java/lang/Exception" (Some "Couldn't find java.io.FileDescriptor");;
    mret JNull
  else
    perform (j_GetMethodID "java/io/FileDescriptor" "<init>" "()V");;
    fd ← perform (j_NewObject "java/io/FileDescriptor");
    if negb fd then
      jniThrowByName "java/lang/Exception" (Some "Couldn't create a FileDescriptor");;
      mret JNull
    else
      perform (j_GetFieldID "java/io/FileDescriptor" "descriptor" "I");;
      let fd := JFileDescriptor ptm in
      let pidValue := procId in
      perform (j_FindClass "java/lang/Long");;
      perform (j_GetMethodID "java/lang/Long" "<init>" "(J)V");;
      pid ← perform (j_NewObject "java/lang/Long");
      if negb pid then
        jniThrowByName "java/lang/Exception" (Some "Couldn't create a Long");;
        mret JNull
      else
        let pid := JLong pidValue in
        Class_android_util_Pair ← perform (j_FindClass "android/util/Pair");
        if negb Class_android_util_Pair then
          jniThrowByName "java/lang/Exception" (Some "Couldn't find android.util.Pair");;
          mret JNull
        else
          perform (j_GetMethodID "android/util/Pair" "<init>"
                     "(Ljava/lang/Object;Ljava/lang/Object;)V");;
          pair ← perform (j_NewObject "android/util/Pair");
          if negb pair then
            jniThrowByName "java/lang/Exception" (Some "Couldn't create an android.util.Pair");;
            mret JNull
          else mret (JPair fd pid).

End MoshClient.

(** ** org_connectbot_util_EastAsianWidth.c *)

Module EastAsianWidth.

(** ICU, <unicode/utypes.h> and <unicode/uchar.h>. *)
Definition U_ZERO_ERROR : Z := 0.
Definition U_ILLEGAL_ARGUMENT_ERROR : Z := 1.
Definition UCHAR_EAST_ASIAN_WIDTH : Z := 4100.
Definition U_EA_NEUTRAL : Z := 0.
Definition U_EA_AMBIGUOUS : Z := 1.
Definition U_EA_HALFWIDTH : Z := 2.
Definition U_EA_FULLWIDTH : Z := 3.
Definition U_EA_NARROW : Z := 4.
Definition U_EA_WIDE : Z := 5.

(** The macros of ICU's <unicode/utf16.h>.  [icu_U16_NEXT s i length] reads
    the code point that starts at [s[i]] and gives the index after it and
    the code point. *)
Definition U16_IS_LEAD (c : Z) : bool := bool_decide (Z.land c 4294966272 = 55296).
Definition U16_IS_TRAIL (c : Z) : bool := bool_decide (Z.land c 4294966272 = 56320).
Definition U16_SURROGATE_OFFSET : Z := Z.shiftl 55296 10 + 56320 - 65536.
Definition U16_GET_SUPPLEMENTARY (lead trail : Z) : Z :=
  Z.shiftl lead 10 + trail - U16_SURROGATE_OFFSET.

Definition icu_U16_NEXT (s : Z -> Z) (i length : Z) : Z * Z :=
  let c := s i in
  let i := i + 1 in
  if U16_IS_LEAD c then
    if bool_decide (i ≠ length) && U16_IS_TRAIL (s i) then
      (i + 1, U16_GET_SUPPLEMENTARY c (s i))
    else (i, c)
  else (i, c).

Section measure.

(** The two library entry points the function is compiled against. *)
Variable U16_NEXT : (Z -> Z) -> Z -> Z -> Z * Z.
Variable u_getIntPropertyValue : Z -> Z -> Z.

(** The [switch] of the loop body: the byte stored for a code point. *)
Definition width_of (c : Z) (eastAsian : bool) : Z :=
  let ea := u_getIntPropertyValue c UCHAR_EAST_ASIAN_WIDTH in
  if decide (ea = U_EA_FULLWIDTH ∨ ea = U_EA_WIDE) then 1
  else if decide (ea = U_EA_HALFWIDTH ∨ ea = U_EA_NARROW) then 0
  else if eastAsian then 1 else 0.

(** The [while (i < end)] loop, as the sequence of stores
    [uAttributes[index] = value] it performs, in order.  [None]: the
    iterations allowed by [fuel] did not reach [end]. *)
Fixpoint measure_loop (fuel : nat) (uBuffer : Z -> Z) (i end_ : Z)
    (eastAsian : bool) : option (list (Z * Z)) :=
  if decide (i < end_) then
    match fuel with
    | O => None
    | S fuel' =>
        let '(i, c) := U16_NEXT uBuffer i end_ in
        stores ← measure_loop fuel' uBuffer i end_ eastAsian;
        Some ((i, width_of c eastAsian) :: stores)
    end
  else Some [].

(** The code points the loop reads, each with the index it starts at and
    the index after it (where [U16_NEXT] leaves [i]). *)
Fixpoint code_points (fuel : nat) (uBuffer : Z -> Z) (i end_ : Z)
    : list (Z * Z * Z) :=
  if decide (i < end_) then
    match fuel with
    | O => []
    | S fuel' =>
        let '(next, c) := U16_NEXT uBuffer i end_ in
        (i, next, c) :: code_points fuel' uBuffer next end_
    end
  else [].

(** The memory a [jchar*] obtained for [buffer] points to: the elements
    of the array; what lies outside it is not the array's. *)
Definition chars_of (buffer : list Z) (i : Z) : Z :=
  if decide (0 ≤ i) then default 0 (buffer !! Z.to_nat i) else 0.

(** [Java_org_connectbot_util_EastAsianWidth_measure].  The result is the
    error code returned and the stores made through [uAttributes].  The
    [goto exit] of the first failure jumps over the initialisation of
    the pointer [uAttributes]: the argument [uAttributes] says whether
    its slot is non-null on entry. *)
Definition measure (buffer : list Z) (start len : Z) (eastAsian : bool)
    (uAttributes : bool) : prog (Z * option (list (Z * Z))) :=
  let errorCode := U_ZERO_ERROR in
  let end_ := to_int (start + len) in
  let i := start in
  uBuffer ← perform j_GetPrimitiveArrayCritical;
  if negb uBuffer then
    perform (c_log "Could not obtain source buffer");;
    (if uAttributes then perform j_ReleasePrimitiveArrayCritical else mret ());;
    mret (U_ILLEGAL_ARGUMENT_ERROR, Some [])
  else
    uAttributes ← perform j_GetPrimitiveArrayCritical;
    if negb uAttributes then
      perform (c_log "Could not obtain attribute array");;
      perform j_ReleasePrimitiveArrayCritical;;
      mret (U_ILLEGAL_ARGUMENT_ERROR, Some [])
    else
      let stores :=
        measure_loop (Z.to_nat (end_ - i)) (chars_of buffer) i end_ eastAsian in
      perform j_ReleasePrimitiveArrayCritical;;
      perform j_ReleasePrimitiveArrayCritical;;
      mret (errorCode, stores).

End measure.

(** The array [attributes] after the stores, when [uAttributes] points to
    the elements of the array themselves: a store inside the array changes
    the element; a store outside it does not land in the array. *)
Definition store (attributes : list Z) (iv : Z * Z) : list Z :=
  if decide (0 ≤ iv.1) then <[Z.to_nat iv.1 := iv.2]> attributes else attributes.

Definition array_after (attributes : list Z) (stores : list (Z * Z)) : list Z :=
  foldl store attributes stores.

(** A property table for examples: the CJK ideograph U+4E2D and the
    emoji U+1F600 are wide, everything else is narrow. *)
Definition sample_property (c which : Z) : Z :=
  if decide (c = 20013 ∨ c = 128512) then U_EA_WIDE else U_EA_NARROW.

(** "A", U+1F600 as a surrogate pair, U+4E2D. *)
Definition sample_buffer : list Z := [65; 55357; 56832; 20013].

End EastAsianWidth.

(** ** Scenarios *)

(** The same state, with the execution followed on the given side of the
    next [fork]. *)
Definition on_side (side : fork_side) (k : kernel) : kernel :=
  let p := k_plan k in
  Kernel (k_pid k) (k_pgid k) (k_sid k) (k_ctty k) (k_comm k) (k_fds k) (k_ptys k)
         (k_pids k) (k_children k) (k_environ k) (k_pending k)
         (Plan (ptmx_opens p) (grantpt_works p) (unlockpt_works p) (ptsname_works p)
               side (file_opens p) (image_loads p) (main_returns p) (child_ends p)
               (setenv_works p) (heap_gives p) (class_found p) (object_made p)
               (critical_given p) (utf_given p) (local_capacity p)).

(** The JVM and the heap give the wrappers what they ask for. *)
Definition jvm_works (p : plan) : Prop :=
  heap_gives p = true ∧ utf_given p = true ∧ local_capacity p = true ∧
  critical_given p = true ∧
  (∀ name, class_found p name = true) ∧ (∀ cls, object_made p cls = true).

(** The array of process ids after [pid] was stored in its first element;
    a null or empty array has no first element. *)
Definition delivered_to (arr : jintArray) (pid : Z) : jintArray :=
  match arr with
  | Some (_ :: rest) => Some (pid :: rest)
  | _ => arr
  end.

(** Indices that go strictly up. *)
Fixpoint ascending (l : list Z) : Prop :=
  match l with
  | [] => True
  | x :: l' => Forall (λ y, x < y) l' ∧ ascending l'
  end.

(** * Properties *)

(** ** The system model *)

#[local] Arguments called : simpl never.
#[local] Arguments lowest_free : simpl never.
#[local] Arguments pts_name : simpl never.
#[local] Arguments pts_index : simpl never.
#[local] Arguments next_pid : simpl never.
#[local] Arguments dup2_fds : simpl never.
#[local] Arguments dup2_ret : simpl never.
#[local] Arguments fresh_pid !k /.
#[local] Arguments with_ids _ _ _ _ !k /.
#[local] Arguments with_comm _ !k /.
#[local] Arguments with_fds _ !k /.
#[local] Arguments with_ptys _ !k /.
#[local] Arguments with_procs _ _ !k /.
#[local] Arguments with_environ _ !k /.
#[local] Arguments with_pending _ !k /.

Section system.

Implicit Types (k : kernel) (fds : gmap Z fdesc) (c : call).

Lemma run_bind {A B} (m : prog A) (f : A → prog B) k :
  run (m ≫= f) k = and_then (run m k) (λ a, run (f a)).
Proof.
  revert k. induction m as [r|c cont IH|s|s]; intros k; try reflexivity.
  - unfold and_then. simpl. by destruct (run (f r) k).
  - change (run (Do c cont ≫= f) k)
      with (run (Do c (λ x, cont x ≫= f)) k).
    simpl. destruct (sys c k) as [[x|g] k']; [|reflexivity].
    rewrite IH. unfold and_then, called. simpl.
    by destruct (res_out (run (cont x) k')).
Qed.

Lemma run_perform c k :
  run (perform c) k =
    match sys c k with
    | (Answer x, k') => Result (Returned x) k' [c]
    | (Stop g, k') => Result (Gone g) k' [c]
    end.
Proof. unfold perform. simpl. by destruct (sys c k) as [[x|g] k']. Qed.

End system.
Lemma lowest_from_spec (fds : gmap Z fdesc) n a :
  a ≤ lowest_from fds n a ≤ a + Z.of_nat n ∧
  (∀ j, a ≤ j < lowest_from fds n a → is_Some (fds !! j)) ∧
  (lowest_from fds n a < a + Z.of_nat n → fds !! lowest_from fds n a = None).
Proof.
  revert a. induction n as [|n IH]; intros a; simpl.
  - split; [lia|]. split; intros; lia.
  - destruct (fds !! a) eqn:E.
    + destruct (IH (a + 1)) as (Hr & Hall & Hfree).
      split; [lia|]. split.
      * intros j Hj. destruct (decide (j = a)) as [->|]; [by rewrite E|].
        apply Hall. lia.
      * intros. apply Hfree. lia.
    + split; [lia|]. split; [intros; lia|done].
Qed.

Lemma lowest_free_fresh (fds : gmap Z fdesc) : fds !! lowest_free fds = None.
Proof.
  unfold lowest_free.
  destruct (lowest_from_spec fds (size fds) 0) as (Hr & Hall & Hfree).
  destruct (decide (lowest_from fds (size fds) 0 < 0 + Z.of_nat (size fds))) as [|Hge];
    [by apply Hfree|].
  assert (lowest_from fds (size fds) 0 = Z.of_nat (size fds)) as Heq by lia.
  rewrite Heq in *.
  destruct (fds !! Z.of_nat (size fds)) eqn:E; [|done]. exfalso.
  assert (list_to_set (C := gset Z) (seqZ 0 (Z.of_nat (size fds) + 1)) ⊆ dom fds) as Hsub.
  { intros j Hj. apply elem_of_list_to_set, elem_of_seqZ in Hj.
    apply elem_of_dom. destruct (decide (j = Z.of_nat (size fds))) as [->|]; [by rewrite E|].
    apply Hall. lia. }
  apply subseteq_size in Hsub.
  rewrite size_list_to_set, length_seqZ, size_dom in Hsub by apply NoDup_seqZ.
  lia.
Qed.

Lemma lowest_free_nonneg (fds : gmap Z fdesc) : 0 ≤ lowest_free fds.
Proof. unfold lowest_free. pose proof (lowest_from_spec fds (size fds) 0). lia. Qed.

(** ** Symbolic execution *)

Lemma alter_last {A} (f : A → A) (l : list A) (x : A) :
  alter f (length l) (l ++ [x]) = l ++ [f x].
Proof. induction l as [|a l IH]; simpl; [done|]. by rewrite <- IH. Qed.

Lemma lookup_last {A} (l : list A) (x : A) : (l ++ [x]) !! length l = Some x.
Proof. by rewrite lookup_app_r, Nat.sub_diag by lia. Qed.

Lemma pts_name_not_ptmx n : pts_name n ≠ "/dev/ptmx".
Proof. unfold pts_name. discriminate. Qed.

Lemma pts_name_inj n m : pts_name n = pts_name m → n = m.
Proof.
  unfold pts_name. intros H. apply (inj pretty).
  by simplify_eq/=.
Qed.

Lemma pts_index_name (ptys : list pty) n :
  (n < length ptys)%nat → pts_index (pts_name n) ptys = Some n.
Proof.
  intros Hn. unfold pts_index.
  destruct (list_find _ _) as [[i m]|] eqn:E; simpl.
  - apply list_find_Some in E as (Hi & Hm & _). f_equal. by apply pts_name_inj.
  - apply list_find_None in E. rewrite Forall_forall in E.
    destruct (E n); [|done]. apply elem_of_seq. lia.
Qed.

Ltac open_kernel k :=
  let p := fresh "p" in
  destruct k as [?pid ?pgid ?sid ?ctty ?comm ?fds ?ptys ?pids ?children
                 ?env ?pending p];
  destruct p as [?p_ptmx ?p_grant ?p_unlock ?p_name ?p_fork ?p_file ?p_image
                 ?p_main ?p_child ?p_setenv ?p_heap ?p_class ?p_object
                 ?p_critical ?p_utf ?p_capacity];
  cbn in *.

Ltac crank :=
  repeat (cbn;
          first [ rewrite lookup_insert_eq
                | rewrite alter_last
                | rewrite lookup_last
                | rewrite insert_insert_eq
                | rewrite length_app
                | rewrite pts_index_name by (rewrite ?length_app; simpl; lia)
                | progress unfold master_of, terminal_of, pty_ready, alter_pty, install
                | case_decide;
                  [exfalso;
                   first [ lia
                         | match goal with
                           | H : pts_name _ = _ |- _ =>
                               by apply pts_name_not_ptmx in H
                           end ]|]
                | case_decide; [|exfalso; (lia || done)] ]);
  cbn.

Lemma Exec_open_pty_run k :
  let p := k_plan k in
  let ptm := lowest_free (k_fds k) in
  let opening := [c_open "/dev/ptmx" O_RDWR] in
  let trouble := c_log "[ trouble with /dev/ptmx ]" in
  run Exec.open_pty k =
    if ptmx_opens p then
      if grantpt_works p then
        if unlockpt_works p then
          if ptsname_works p then
            Result (Returned (Some (ptm, pts_name (length (k_ptys k)))))
                   (opened true true k)
                   (opening ++ [c_fcntl ptm F_SETFD FD_CLOEXEC; c_grantpt ptm;
                                c_unlockpt ptm; c_ptsname ptm])
          else
            Result (Returned None) (opened true true k)
                   (opening ++ [c_fcntl ptm F_SETFD FD_CLOEXEC; c_grantpt ptm;
                                c_unlockpt ptm; c_ptsname ptm; trouble])
        else
          Result (Returned None) (opened true false k)
                 (opening ++ [c_fcntl ptm F_SETFD FD_CLOEXEC; c_grantpt ptm;
                              c_unlockpt ptm; trouble])
      else
        Result (Returned None) (opened false false k)
               (opening ++ [c_fcntl ptm F_SETFD FD_CLOEXEC; c_grantpt ptm; trouble])
    else
      Result (Returned None) k (opening ++ [c_log "[ cannot open /dev/ptmx ]"]).
Proof.
  intros p ptm opening trouble. subst p ptm opening trouble.
  pose proof (lowest_free_nonneg (k_fds k)) as Hfd.
  open_kernel k. unfold Exec.open_pty, opened.
  destruct p_ptmx; crank; [|done].
  destruct p_grant; crank; [|done].
  destruct p_unlock; crank; [|done].
  destruct p_name; crank; done.
Qed.

Lemma Mosh_open_pty_run k :
  let p := k_plan k in
  let ptm := lowest_free (k_fds k) in
  let devname := pts_name (length (k_ptys k)) in
  let opening := [c_open "/dev/ptmx" O_RDWR] in
  let trouble := c_log "[ trouble with /dev/ptmx ]" in
  run MoshClient.open_pty k =
    if ptmx_opens p then
      if unlockpt_works p then
        if ptsname_works p && bool_decide (Z.of_nat (String.length devname) < 32) then
          Result (Returned (Some (ptm, devname))) (opened false true k)
                 (opening ++ [c_fcntl ptm F_SETFD FD_CLOEXEC; c_unlockpt ptm;
                              c_ptsname_r ptm 32])
        else
          Result (Returned None) (opened false true k)
                 (opening ++ [c_fcntl ptm F_SETFD FD_CLOEXEC; c_unlockpt ptm;
                              c_ptsname_r ptm 32; trouble])
      else
        Result (Returned None) (opened false false k)
               (opening ++ [c_fcntl ptm F_SETFD FD_CLOEXEC; c_unlockpt ptm; trouble])
    else
      Result (Returned None) k (opening ++ [c_log "[ cannot open /dev/ptmx ]"]).
Proof.
  intros p ptm devname opening trouble. subst p ptm devname opening trouble.
  pose proof (lowest_free_nonneg (k_fds k)) as Hfd.
  open_kernel k. unfold MoshClient.open_pty, opened.
  destruct p_ptmx; crank; [|done].
  destruct p_unlock; crank; [|done].
  destruct p_name; crank; [|done].
  case_bool_decide; case_decide; try done; try lia; crank; done.
Qed.

Lemma fresh_pid_bounds k :
  0 < fresh_pid k ∧ k_pid k < fresh_pid k ∧ k_pgid k < fresh_pid k ∧
  k_sid k < fresh_pid k ∧ ∀ p, p ∈ k_pids k → p < fresh_pid k.
Proof.
  unfold fresh_pid, next_pid.
  assert (∀ (b : Z) (l : list Z), b ≤ foldr Z.max b l ∧ ∀ p, p ∈ l → p ≤ foldr Z.max b l)
    as Hmax.
  { intros b l. induction l as [|a l [IH1 IH2]]; simpl.
    - split; [lia|]. intros p Hp. by apply elem_of_nil in Hp.
    - split; [lia|]. intros p [->|Hp]%elem_of_cons; [lia|].
      specialize (IH2 p Hp). lia. }
  destruct (Hmax (Z.max 0 (Z.max (k_pid k) (Z.max (k_pgid k) (k_sid k)))) (k_pids k))
    as [H1 H2].
  repeat split; try lia. intros p Hp. specialize (H2 p Hp). lia.
Qed.

Lemma Exec_create_subprocess_parent k cmd arg0 arg1 slot :
  Exec_ready (k_plan k) = true → fork_goes (k_plan k) = fork_in_parent →
  let ptm := lowest_free (k_fds k) in
  let pid := fresh_pid k in
  run (Exec.create_subprocess cmd arg0 arg1 slot) k =
    Result (Returned (ptm, pid))
           (with_procs (pid :: k_pids k)
                       (k_children k ++ [(pid, Child (k_pgid k) (child_ends (k_plan k)))])
                       (opened true true k))
           [c_open "/dev/ptmx" O_RDWR; c_fcntl ptm F_SETFD FD_CLOEXEC;
            c_grantpt ptm; c_unlockpt ptm; c_ptsname ptm; c_fork].
Proof.
  intros Hr Hf ptm pid. subst ptm pid. unfold Exec.create_subprocess.
  rewrite run_bind, Exec_open_pty_run. unfold Exec_ready in Hr.
  pose proof (fresh_pid_bounds k) as Hpid.
  open_kernel k. subst.
  destruct p_ptmx, p_grant, p_unlock, p_name; try done.
  unfold and_then, opened. crank. done.
Qed.

Ltac absent :=
  intros;
  lazymatch goal with
  | |- _ ∉ _ =>
      let H := fresh in
      intros H;
      repeat (apply elem_of_cons in H as [H|H]; [discriminate H|]);
      by apply elem_of_nil in H
  end.

Lemma Exec_create_subprocess_failed k cmd arg0 arg1 slot :
  Exec_ready (k_plan k) = false ∨ fork_goes (k_plan k) = fork_fails →
  let r := run (Exec.create_subprocess cmd arg0 arg1 slot) k in
  res_out r = Returned (-1, slot) ∧
  k_pids (res_sys r) = k_pids k ∧ k_children (res_sys r) = k_children k ∧
  k_fds (res_sys r) =
    (if ptmx_opens (k_plan k)
     then <[lowest_free (k_fds k) := Fdesc (Ptmx (length (k_ptys k))) true]> (k_fds k)
     else k_fds k) ∧
  ∀ fd, c_close fd ∉ res_calls r.
Proof.
  intros Hfail r. subst r. unfold Exec.create_subprocess.
  rewrite run_bind, Exec_open_pty_run. unfold Exec_ready in Hfail.
  pose proof (fresh_pid_bounds k) as Hpid.
  open_kernel k.
  destruct p_ptmx, p_grant, p_unlock, p_name; unfold and_then, opened; crank;
    try (repeat split; [done..|]; absent).
  destruct Hfail as [ | -> ]; [done|]. crank.
  repeat split; [done..|]. absent.
Qed.

(** The child side of [Exec.create_subprocess]. *)
Lemma Exec_create_subprocess_child k cmd arg0 arg1 slot :
  Exec_ready (k_plan k) = true → fork_goes (k_plan k) = fork_in_child →
  let ptm := lowest_free (k_fds k) in
  let devname := pts_name (length (k_ptys k)) in
  let pts := lowest_free (k_fds (opened true true k)) in
  let r := run (Exec.create_subprocess cmd arg0 arg1 slot) k in
  let before := [c_open "/dev/ptmx" O_RDWR; c_fcntl ptm F_SETFD FD_CLOEXEC;
                 c_grantpt ptm; c_unlockpt ptm; c_ptsname ptm; c_fork] in
  let table := attached pts ptm (<[pts := Fdesc (Pts (length (k_ptys k))) false]>
                                   (k_fds (opened true true k))) in
  k_pid (res_sys r) = fresh_pid k ∧ k_sid (res_sys r) = fresh_pid k ∧
  k_pgid (res_sys r) = fresh_pid k ∧ k_environ (res_sys r) = k_environ k ∧
  if file_opens (k_plan k) then
    k_ctty (res_sys r) = Some (length (k_ptys k)) ∧
    res_calls r = before ++ [c_setsid; c_open devname O_RDWR; c_dup2 pts 0;
                             c_dup2 pts 1; c_dup2 pts 2; c_close ptm;
                             c_execl cmd [cmd; arg0; arg1]] ∧
    res_out r =
      match cmd with
      | Some path =>
          if image_loads (k_plan k)
          then Gone (image_replaced path (argv_of [cmd; arg0; arg1]) (k_environ k))
          else Exited (-1)
      | None => Exited (-1)
      end ∧
    k_fds (res_sys r) =
      match cmd with
      | Some _ =>
          if image_loads (k_plan k)
          then filter (λ e, fd_cloexec e.2 = false) table else table
      | None => table
      end
  else
    res_calls r = before ++ [c_setsid; c_open devname O_RDWR] ∧
    res_out r = Exited (-1).
Proof.
  intros Hr Hf ptm devname pts r before table.
  subst ptm devname pts r before table.
  unfold Exec.create_subprocess.
  rewrite run_bind, Exec_open_pty_run. unfold Exec_ready in Hr.
  pose proof (fresh_pid_bounds k) as Hpid.
  pose proof (lowest_free_nonneg (k_fds (opened true true k))) as Hpts.
  open_kernel k. subst.
  destruct p_ptmx, p_grant, p_unlock, p_name; try done.
  unfold and_then, opened, attached. crank.
  destruct p_file; crank; [|done].
  destruct cmd as [path|]; [destruct p_image|]; crank; done.
Qed.

Lemma Mosh_create_mosh_client_parent k ip port pPtm pProcessId :
  Mosh_ready k = true → fork_goes (k_plan k) = fork_in_parent →
  let ptm := lowest_free (k_fds k) in
  let pid := fresh_pid k in
  run (MoshClient.create_mosh_client ip port pPtm pProcessId) k =
    Result (Returned (ptm, pid))
           (with_procs (pid :: k_pids k)
                       (k_children k ++ [(pid, Child (k_pgid k) (child_ends (k_plan k)))])
                       (opened false true k))
           [c_open "/dev/ptmx" O_RDWR; c_fcntl ptm F_SETFD FD_CLOEXEC;
            c_unlockpt ptm; c_ptsname_r ptm 32; c_fork].
Proof.
  intros Hr Hf ptm pid. subst ptm pid. unfold MoshClient.create_mosh_client.
  rewrite run_bind, Mosh_open_pty_run. unfold Mosh_ready in Hr.
  pose proof (fresh_pid_bounds k) as Hpid.
  open_kernel k. subst.
  destruct p_ptmx, p_unlock, p_name; try done. cbn in Hr. rewrite Hr.
  unfold and_then, opened. crank. done.
Qed.

Lemma Mosh_create_mosh_client_failed k ip port pPtm pProcessId :
  Mosh_ready k = false ∨ fork_goes (k_plan k) = fork_fails →
  let r := run (MoshClient.create_mosh_client ip port pPtm pProcessId) k in
  res_out r = Returned (-1, pProcessId) ∧
  k_pids (res_sys r) = k_pids k ∧ k_children (res_sys r) = k_children k ∧
  k_fds (res_sys r) =
    (if ptmx_opens (k_plan k)
     then <[lowest_free (k_fds k) := Fdesc (Ptmx (length (k_ptys k))) true]> (k_fds k)
     else k_fds k) ∧
  ∀ fd, c_close fd ∉ res_calls r.
Proof.
  intros Hfail r. subst r. unfold MoshClient.create_mosh_client.
  rewrite run_bind, Mosh_open_pty_run. unfold Mosh_ready in Hfail.
  pose proof (fresh_pid_bounds k) as Hpid.
  open_kernel k.
  destruct (bool_decide (Z.of_nat (String.length (pts_name (length ptys))) < 32))
    eqn:Hlen;
    [apply bool_decide_eq_true in Hlen|apply bool_decide_eq_false in Hlen];
    destruct p_ptmx, p_unlock, p_name; cbn in Hfail;
    unfold and_then, opened; crank;
    try (repeat split; [done..|]; absent).
  destruct Hfail as [ | -> ]; [done|]. crank.
  repeat split; [done..|]. absent.
Qed.

(** The child side of [MoshClient.create_mosh_client]. *)
Lemma Mosh_create_mosh_client_child k ip port pPtm pProcessId :
  Mosh_ready k = true → fork_goes (k_plan k) = fork_in_child →
  let ptm := lowest_free (k_fds k) in
  let devname := pts_name (length (k_ptys k)) in
  let pts := lowest_free (k_fds (opened false true k)) in
  let r := run (MoshClient.create_mosh_client ip port pPtm pProcessId) k in
  let before := [c_open "/dev/ptmx" O_RDWR; c_fcntl ptm F_SETFD FD_CLOEXEC;
                 c_unlockpt ptm; c_ptsname_r ptm 32; c_fork] in
  let at_main := [Some "[ MoshClient.forkExec("; ip; Some ", "; port; Some ")@main ]"] in
  let at_exit := [Some "[ MoshClient.forkExec("; ip; Some ", "; port; Some ")@exit ]"] in
  let attach := [c_prctl PR_SET_NAME "MoshClient"; c_setsid;
                 c_open devname O_RDWR; c_dup2 pts 0; c_dup2 pts 1; c_dup2 pts 2;
                 c_close ptm; c_cerr at_main;
                 c_mosh_client_main [Some "mosh-client"; ip; port]] in
  let table := attached pts ptm (<[pts := Fdesc (Pts (length (k_ptys k))) false]>
                                   (k_fds (opened false true k))) in
  k_pid (res_sys r) = fresh_pid k ∧ k_sid (res_sys r) = fresh_pid k ∧
  k_pgid (res_sys r) = fresh_pid k ∧ k_environ (res_sys r) = k_environ k ∧
  if file_opens (k_plan k) then
    k_ctty (res_sys r) = Some (length (k_ptys k)) ∧
    k_fds (res_sys r) = table ∧
    match main_returns (k_plan k) with
    | Some _ =>
        res_calls r = before ++ attach ++
                        [c_cerr at_exit; c_cerr []; c_fflush; c_fflush] ∧
        res_out r = Exited 1
    | None =>
        res_calls r = before ++ attach ∧ res_out r = Gone never_returned
    end
  else
    res_calls r = before ++ [c_prctl PR_SET_NAME "MoshClient"; c_setsid;
                             c_open devname O_RDWR] ∧
    res_out r = Exited (-1).
Proof.
  intros Hr Hf ptm devname pts r before at_main at_exit attach table.
  subst ptm devname pts r before at_main at_exit attach table.
  unfold MoshClient.create_mosh_client, MoshClient.cerr.
  rewrite run_bind, Mosh_open_pty_run. unfold Mosh_ready in Hr.
  pose proof (fresh_pid_bounds k) as Hpid.
  pose proof (lowest_free_nonneg (k_fds (opened false true k))) as Hpts.
  open_kernel k. subst.
  destruct p_ptmx, p_unlock, p_name; try done. cbn in Hr. rewrite Hr.
  unfold and_then, opened, attached. crank.
  destruct p_file; crank; [|done].
  destruct p_main as [rc|]; crank; done.
Qed.
Ltac branch :=
  repeat (crank;
          match goal with
          | |- context [if ?b then _ else _] => destruct b eqn:?
          | |- context [match ?o with Some _ => _ | None => _ end] => destruct o eqn:?
          end);
  crank.

Lemma Exec_marshal k jstr :
  ∃ chars e calls,
    run (Exec.JNU_GetStringNativeChars jstr) k =
      Result (Returned chars) (with_pending e k) calls.
Proof.
  open_kernel k. destruct jstr as [s|]; [|eexists _, _, _; reflexivity].
  unfold Exec.JNU_GetStringNativeChars, Exec.JNU_ThrowByName.
  branch; eexists _, _, _; reflexivity.
Qed.

Lemma Mosh_marshal k jstr :
  ∃ chars e calls,
    run (MoshClient.jniGetStringNativeChars jstr) k =
      Result (Returned chars) (with_pending e k) calls.
Proof.
  open_kernel k. destruct jstr as [s|]; [|eexists _, _, _; reflexivity].
  unfold MoshClient.jniGetStringNativeChars, MoshClient.jniThrowByName.
  branch; eexists _, _, _; reflexivity.
Qed.

(** The wrappers deliver what the spawn function produced. *)
(** The calls made, collected from the innermost outwards. *)
Ltac settle :=
  repeat match goal with
         | |- context [called ?c (Result ?o ?s ?l)] =>
             change (called c (Result o s l)) with (Result o s (c :: l))
         end.

Lemma sys_plan c k : k_plan (sys c k).2 = k_plan k.
Proof.
  destruct k as [pid pgid sid ctty comm fds ptys pids children env pending p].
  destruct c; cbn -[addressed ready reported valid_signal ignored pts_index
                    terminal_of master_of lowest_free dup2_fds dup2_ret];
    repeat (case_match; cbn -[addressed ready reported valid_signal ignored pts_index
                              terminal_of master_of lowest_free dup2_fds dup2_ret]);
    try done.
Qed.

Lemma run_plan {R} (m : prog R) k : k_plan (res_sys (run m k)) = k_plan k.
Proof.
  revert k. induction m as [r|c cont IH|s|s]; intros k; try reflexivity.
  cbn [run]. pose proof (sys_plan c k) as Hsys.
  destruct (sys c k) as [[x|g] k']; cbn in Hsys; unfold called; cbn [res_sys];
    [by rewrite IH|done].
Qed.

Lemma with_pending_same k : with_pending (k_pending k) k = k.
Proof. by destruct k. Qed.

(** What [createSubprocess] does after [create_subprocess] has returned
    [ptm] and [pid]. *)
Lemma Exec_createSubprocess_tail s e0 ptm pid arr :
  ∃ e calls,
    run (processIdArray ←
           match arr with
           | Some elems =>
               if decide (0 < Z.of_nat (length elems)) then
                 pProcId ← perform j_GetPrimitiveArrayCritical;
                 if pProcId : bool then
                   perform j_ReleasePrimitiveArrayCritical;;
                   mret (Some (<[0%nat := pid]> elems))
                 else mret (Some elems)
               else mret (Some elems)
           | None => mret None
           end;
         perform (j_FindClass "java/io/FileDescriptor");;
         perform (j_GetMethodID "java/io/FileDescriptor" "<init>" "()V");;
         result ← perform (j_NewObject "java/io/FileDescriptor");
         if result : bool then
           perform (j_GetFieldID "java/io/FileDescriptor" "descriptor" "I");;
           mret (JFileDescriptor ptm, processIdArray)
         else
           Exec.LOG "Couldn't create a FileDescriptor.";;
           mret (JNull, processIdArray)) (with_pending e0 s) =
    Result (Returned (if object_made (k_plan s) "java/io/FileDescriptor"
                      then JFileDescriptor ptm else JNull,
                      if critical_given (k_plan s) then delivered_to arr pid else arr))
           (with_pending e s) calls.
Proof.
  open_kernel s.
  destruct arr as [[|a elems]|]; branch; settle; eexists _, _; reflexivity.
Qed.

(** What [forkExec] does after [create_mosh_client] has returned [ptm]
    and [pid]. *)
Lemma Mosh_forkExec_tail s e0 ptm pid :
  let p := k_plan s in
  let built :=
    class_found p "java/io/FileDescriptor" && object_made p "java/io/FileDescriptor" &&
    object_made p "java/lang/Long" &&
    class_found p "android/util/Pair" && object_made p "android/util/Pair" in
  ∃ e calls,
    run (Class_java_io_FileDescriptor ← perform (j_FindClass "java/io/FileDescriptor");
         if negb Class_java_io_FileDescriptor then
           MoshClient.jniThrowByName "java/lang/Exception"
             (Some "Couldn't find java.io.FileDescriptor");;
           mret JNull
         else
           perform (j_GetMethodID "java/io/FileDescriptor" "<init>" "()V");;
           fd ← perform (j_NewObject "java/io/FileDescriptor");
           if negb fd then
             MoshClient.jniThrowByName "java/lang/Exception"
               (Some "Couldn't create a FileDescriptor");;
             mret JNull
           else
             perform (j_GetFieldID "java/io/FileDescriptor" "descriptor" "I");;
             perform (j_FindClass "java/lang/Long");;
             perform (j_GetMethodID "java/lang/Long" "<init>" "(J)V");;
             pidobj ← perform (j_NewObject "java/lang/Long");
             if negb pidobj then
               MoshClient.jniThrowByName "java/lang/Exception"
                 (Some "Couldn't create a Long");;
               mret JNull
             else
               Class_android_util_Pair ← perform (j_FindClass "android/util/Pair");
               if negb Class_android_util_Pair then
                 MoshClient.jniThrowByName "java/lang/Exception"
                   (Some "Couldn't find android.util.Pair");;
                 mret JNull
               else
                 perform (j_GetMethodID "android/util/Pair" "<init>"
                            "(Ljava/lang/Object;Ljava/lang/Object;)V");;
                 pair ← perform (j_NewObject "android/util/Pair");
                 if negb pair then
                   MoshClient.jniThrowByName "java/lang/Exception"
                     (Some "Couldn't create an android.util.Pair");;
                   mret JNull
                 else mret (JPair (JFileDescriptor ptm) (JLong pid)))
        (with_pending e0 s) =
      Result (Returned (if built then JPair (JFileDescriptor ptm) (JLong pid) else JNull))
             (with_pending e s) calls ∧
    (built = false → is_Some e).
Proof.
  intros p built. subst p built. open_kernel s.
  unfold MoshClient.jniThrowByName.
  destruct (p_class "java/io/FileDescriptor") eqn:Hc1; crank;
    [|branch; settle; eexists _, _; (split; [reflexivity|]); by eauto].
  destruct (p_object "java/io/FileDescriptor") eqn:Ho1; crank;
    [|branch; settle; eexists _, _; (split; [reflexivity|]); by eauto].
  destruct (p_class "java/lang/Long") eqn:Hc3; crank;
    (destruct (p_object "java/lang/Long") eqn:Ho2; crank;
     [|branch; settle; eexists _, _; (split; [reflexivity|]); by eauto]);
    (destruct (p_class "android/util/Pair") eqn:Hc2; crank;
     [|branch; settle; eexists _, _; (split; [reflexivity|]); by eauto]);
    (destruct (p_object "android/util/Pair") eqn:Ho3; crank;
     [|branch; settle; eexists _, _; (split; [reflexivity|]); by eauto]);
    settle; eexists _, _; (split; [reflexivity|]); by eauto.
Qed.

(** What the wrappers return, from what the spawn function returns. *)
Lemma Exec_createSubprocess_value k cmd arg0 arg1 arr procId ptm pid :
  (∀ e c0 c1 c2,
     res_out (run (Exec.create_subprocess c0 c1 c2 procId) (with_pending e k))
       = Returned (ptm, pid)) →
  res_out (run (Exec.createSubprocess cmd arg0 arg1 arr procId) k) =
    Returned (if object_made (k_plan k) "java/io/FileDescriptor"
              then JFileDescriptor ptm else JNull,
              if critical_given (k_plan k) then delivered_to arr pid else arr).
Proof.
  intros Hcore. unfold Exec.createSubprocess.
  destruct (Exec_marshal k cmd) as (c0 & e0 & l0 & E0).
  destruct (Exec_marshal (with_pending e0 k) arg0) as (c1 & e1 & l1 & E1).
  destruct (Exec_marshal (with_pending e1 (with_pending e0 k)) arg1)
    as (c2 & e2 & l2 & E2).
  specialize (Hcore e2 c0 c1 c2).
  pose proof (run_plan (Exec.create_subprocess c0 c1 c2 procId) (with_pending e2 k))
    as Hplan.
  destruct (run (Exec.create_subprocess c0 c1 c2 procId) (with_pending e2 k))
    as [o s l3] eqn:E3.
  cbn [res_out res_sys] in Hcore, Hplan. subst o.
  replace (k_plan (with_pending e2 k)) with (k_plan k) in Hplan by (by destruct k).
  destruct (Exec_createSubprocess_tail s (k_pending s) ptm pid arr) as (e & l4 & E4).
  rewrite with_pending_same, Hplan in E4.
  rewrite run_bind, E0. unfold and_then. cbn [res_out res_sys res_calls].
  rewrite run_bind, E1. unfold and_then. cbn [res_out res_sys res_calls].
  rewrite run_bind, E2. unfold and_then. cbn [res_out res_sys res_calls].
  rewrite run_bind.
  change (with_pending e2 (with_pending e1 (with_pending e0 k)))
    with (with_pending e2 k).
  rewrite E3. unfold and_then. cbn [res_out res_sys res_calls].
  by rewrite E4.
Qed.

Lemma Mosh_forkExec_value k arg0 arg1 procId ptm0 ptm pid :
  (∀ e ip port,
     res_out (run (MoshClient.create_mosh_client ip port ptm0 procId) (with_pending e k))
       = Returned (ptm, pid)) →
  let p := k_plan k in
  let built :=
    class_found p "java/io/FileDescriptor" && object_made p "java/io/FileDescriptor" &&
    object_made p "java/lang/Long" &&
    class_found p "android/util/Pair" && object_made p "android/util/Pair" in
  res_out (run (MoshClient.forkExec arg0 arg1 procId ptm0) k) =
    Returned (if built then JPair (JFileDescriptor ptm) (JLong pid) else JNull).
Proof.
  intros Hcore p built. subst p built.
  unfold MoshClient.forkExec, MoshClient.LOG_I.
  destruct (Mosh_marshal k arg0) as (c0 & e0 & l0 & E0).
  destruct (Mosh_marshal (with_pending e0 k) arg1) as (c1 & e1 & l1 & E1).
  specialize (Hcore e1 c0 c1).
  pose proof (run_plan (MoshClient.create_mosh_client c0 c1 ptm0 procId)
                (with_pending e1 k)) as Hplan.
  destruct (run (MoshClient.create_mosh_client c0 c1 ptm0 procId) (with_pending e1 k))
    as [o s l2] eqn:E2.
  cbn [res_out res_sys] in Hcore, Hplan. subst o.
  replace (k_plan (with_pending e1 k)) with (k_plan k) in Hplan by (by destruct k).
  destruct (Mosh_forkExec_tail s (k_pending s) ptm pid) as (e & l3 & E3 & _).
  rewrite with_pending_same, Hplan in E3.
  rewrite run_bind.
  change (run (perform (c_log "[ MoshClient.forkExec ]")) k)
    with (Result (Returned ()) k [c_log "[ MoshClient.forkExec ]"]).
  unfold and_then. cbn [res_out res_sys res_calls].
  rewrite run_bind, E0. unfold and_then. cbn [res_out res_sys res_calls].
  rewrite run_bind, E1. unfold and_then. cbn [res_out res_sys res_calls].
  rewrite run_bind.
  change (with_pending e1 (with_pending e0 k)) with (with_pending e1 k).
  rewrite E2. unfold and_then. cbn [res_out res_sys res_calls].
  by rewrite E3.
Qed.

(** ** Spawn: what the caller receives *)

(** C1 (as stated) fails: when [/dev/ptmx] cannot be opened the handle
    delivered is -1, but the process id delivered is whatever the slot held
    (here 4242), which is no sentinel; the wrappers hand this value on, in
    element 0 of the array and in the [Long] of the pair. *)
Lemma failed_spawn_pid_is_no_sentinel :
  let k := boot (failing false true true true fork_in_parent) in
  res_out (run (Exec.create_subprocess (Some "/system/bin/sh") (Some "-") None 4242) k)
    = Returned (-1, 4242) ∧
  res_out (run (Exec.createSubprocess (Some "/system/bin/sh") (Some "-") None
                  (Some [0]) 4242) k)
    = Returned (JFileDescriptor (-1), Some [4242]) ∧
  res_out (run (MoshClient.create_mosh_client (Some "10.0.0.1") (Some "60001") 0 4242) k)
    = Returned (-1, 4242) ∧
  res_out (run (MoshClient.forkExec (Some "10.0.0.1") (Some "60001") 4242 0) k)
    = Returned (JPair (JFileDescriptor (-1)) (JLong 4242)) ∧
  ¬ sentinel 4242.
Proof. repeat split; try (vm_compute; reflexivity). unfold sentinel. lia. Qed.

(** C1 (amended).  If the spawn fails at any stage (the allocation of the
    pseudo-terminal or [fork]), the handle delivered is the sentinel -1, the
    process-id slot is left as it was, neither written nor set to a
    sentinel, and no process was created.  If all stages work, the
    parent receives exactly one new handle, the master just opened, paired
    with exactly one new process id, the child just forked.  In both cases
    the wrappers deliver that pair when the Java objects can be had:
    [createSubprocess] returns a [FileDescriptor] with the handle when the
    object can be made, and null otherwise, and stores the process id in
    the first element of the array when the array can be pinned;
    [forkExec] returns the [Pair] of handle and process id when both
    classes are found and the three objects can be made, and null
    otherwise. *)
Theorem spawn_delivers k cmd arg0 arg1 arr procId ptm0 :
  let p := k_plan k in
  let exec := run (Exec.create_subprocess cmd arg0 arg1 procId) k in
  let mosh := run (MoshClient.create_mosh_client arg0 arg1 ptm0 procId) k in
  let jexec := run (Exec.createSubprocess cmd arg0 arg1 arr procId) k in
  let jmosh := run (MoshClient.forkExec arg0 arg1 procId ptm0) k in
  let built :=
    class_found p "java/io/FileDescriptor" && object_made p "java/io/FileDescriptor" &&
    object_made p "java/lang/Long" &&
    class_found p "android/util/Pair" && object_made p "android/util/Pair" in
  let delivered (ptm pid : Z) :=
    res_out jexec =
      Returned (if object_made p "java/io/FileDescriptor"
                then JFileDescriptor ptm else JNull,
                if critical_given p then delivered_to arr pid else arr) in
  let jdelivered (ptm pid : Z) :=
    res_out jmosh =
      Returned (if built then JPair (JFileDescriptor ptm) (JLong pid) else JNull) in
  (Exec_ready p = false ∨ fork_goes p = fork_fails →
     res_out exec = Returned (-1, procId) ∧ sentinel (-1) ∧
     no_new_process k (res_sys exec) ∧ delivered (-1) procId) ∧
  (Mosh_ready k = false ∨ fork_goes p = fork_fails →
     res_out mosh = Returned (-1, procId) ∧
     no_new_process k (res_sys mosh) ∧ jdelivered (-1) procId) ∧
  (Exec_ready p = true → fork_goes p = fork_in_parent →
     ∃ ptm pid,
       res_out exec = Returned (ptm, pid) ∧
       new_handle k (res_sys exec) ptm ∧ new_process k (res_sys exec) pid ∧
       delivered ptm pid) ∧
  (Mosh_ready k = true → fork_goes p = fork_in_parent →
     ∃ ptm pid,
       res_out mosh = Returned (ptm, pid) ∧
       new_handle k (res_sys mosh) ptm ∧ new_process k (res_sys mosh) pid ∧
       jdelivered ptm pid).
Proof.
  intros p exec mosh jexec jmosh built delivered jdelivered.
  assert (new_handle_opened : ∀ g u l c,
            new_handle k (with_procs l c (opened g u k)) (lowest_free (k_fds k))).
  { intros. split; [apply lowest_free_nonneg|]. split; [apply lowest_free_fresh|].
    by eexists. }
  assert (new_process_forked : ∀ g u ch,
            new_process k (with_procs (fresh_pid k :: k_pids k)
                                      (k_children k ++ [(fresh_pid k, ch)])
                                      (opened g u k)) (fresh_pid k)).
  { intros. destruct (fresh_pid_bounds k) as (? & _ & _ & _ & Hfresh).
    split; [done|]. split; [|split; [done|by eexists]].
    intros Hin. apply Hfresh in Hin. lia. }
  split; [|split; [|split]].
  - intros Hfail.
    destruct (Exec_create_subprocess_failed k cmd arg0 arg1 procId Hfail)
      as (Hout & Hpids & Hch & _).
    split; [done|]. split; [unfold sentinel; lia|]. split; [done|].
    apply Exec_createSubprocess_value. intros e c0 c1 c2.
    by apply Exec_create_subprocess_failed.
  - intros Hfail.
    destruct (Mosh_create_mosh_client_failed k arg0 arg1 ptm0 procId Hfail)
      as (Hout & Hpids & Hch & _).
    split; [done|]. split; [done|].
    apply Mosh_forkExec_value. intros e ip port.
    by apply Mosh_create_mosh_client_failed.
  - intros Hr Hf. exists (lowest_free (k_fds k)), (fresh_pid k). subst exec.
    rewrite Exec_create_subprocess_parent by done.
    split; [done|]. split; [apply new_handle_opened|].
    split; [apply new_process_forked|].
    apply Exec_createSubprocess_value. intros e c0 c1 c2.
    by rewrite Exec_create_subprocess_parent.
  - intros Hr Hf. exists (lowest_free (k_fds k)), (fresh_pid k). subst mosh.
    rewrite Mosh_create_mosh_client_parent by done.
    split; [done|]. split; [apply new_handle_opened|].
    split; [apply new_process_forked|].
    apply Mosh_forkExec_value. intros e ip port.
    by rewrite Mosh_create_mosh_client_parent.
Qed.

Lemma spawn_delivers_witness :
  let sh := Some "/system/bin/sh" in
  let stuck := boot (failing true true false true fork_in_parent) in
  let well := boot (fair fork_in_parent) in
  res_out (run (Exec.create_subprocess sh (Some "-") None 7) stuck) = Returned (-1, 7) ∧
  res_out (run (MoshClient.create_mosh_client (Some "-") None 0 7) stuck)
    = Returned (-1, 7) ∧
  res_out (run (Exec.createSubprocess sh (Some "-") None (Some [0]) 7) stuck)
    = Returned (JFileDescriptor (-1), Some [7]) ∧
  (∃ ptm pid,
     res_out (run (Exec.create_subprocess sh (Some "-") None 7) well)
       = Returned (ptm, pid) ∧
     new_handle well (res_sys (run (Exec.create_subprocess sh (Some "-") None 7) well)) ptm ∧
     res_out (run (Exec.createSubprocess sh (Some "-") None (Some [0]) 7) well)
       = Returned (JFileDescriptor ptm, Some [pid])) ∧
  (∃ ptm pid,
     res_out (run (MoshClient.create_mosh_client (Some "-") None 0 7) well)
       = Returned (ptm, pid) ∧
     new_process well
       (res_sys (run (MoshClient.create_mosh_client (Some "-") None 0 7) well)) pid ∧
     res_out (run (MoshClient.forkExec (Some "-") None 7 0) well)
       = Returned (JPair (JFileDescriptor ptm) (JLong pid))).
Proof.
  intros sh stuck well.
  pose proof (spawn_delivers stuck sh (Some "-") None (Some [0]) 7 0) as (He & Hm & _).
  pose proof (spawn_delivers well sh (Some "-") None (Some [0]) 7 0) as (_ & _ & Se & Sm).
  split; [apply He; left; reflexivity|].
  split; [apply Hm; left; reflexivity|].
  split; [apply He; left; reflexivity|].
  split.
  - destruct (Se eq_refl eq_refl) as (ptm & pid & Hout & Hnew & _ & Hdel).
    exists ptm, pid. split; [exact Hout|]. split; [exact Hnew|]. exact Hdel.
  - destruct (Sm eq_refl eq_refl) as (ptm & pid & Hout & _ & Hnew & Hdel).
    exists ptm, pid. split; [exact Hout|]. split; [exact Hnew|]. exact Hdel.
Defined.

(** ** waitFor *)

Lemma WEXITSTATUS_exit n :
  0 ≤ n ≤ 255 →
  Exec.WIFEXITED (wstatus (Exits n)) = true ∧ Exec.WEXITSTATUS (wstatus (Exits n)) = n.
Proof.
  intros Hn.
  assert (Forall (λ n, Exec.WIFEXITED (wstatus (Exits n)) = true ∧
                       Exec.WEXITSTATUS (wstatus (Exits n)) = n) (seqZ 0 256)) as Hall.
  { apply (bool_decide_unpack _). by vm_compute. }
  rewrite Forall_forall in Hall. apply Hall, elem_of_seqZ. lia.
Qed.

Lemma WIFEXITED_killed sig core :
  0 < sig < 128 → Exec.WIFEXITED (wstatus (Killed sig core)) = false.
Proof.
  intros Hs.
  assert (Forall (λ s, ∀ c, Exec.WIFEXITED (wstatus (Killed s c)) = false)
                 (seqZ 1 127)) as Hall.
  { apply (bool_decide_unpack _). by vm_compute. }
  rewrite Forall_forall in Hall. apply Hall, elem_of_seqZ. lia.
Qed.

Lemma WIFEXITED_stopped sig : Exec.WIFEXITED (wstatus (Stopped sig)) = false.
Proof.
  unfold Exec.WIFEXITED, Exec.WTERMSIG, wstatus. apply bool_decide_eq_false.
  intros H. apply (f_equal (λ z, Z.testbit z 0)) in H.
  rewrite Z.land_spec, Z.lor_spec in H. simpl in H.
  by rewrite orb_true_r in H.
Qed.

Lemma ready_reported k pid options i pc :
  ready k pid options = Some (i, pc) →
  k_children k !! i = Some pc ∧ waited k pid pc = true ∧
  reportable options (ch_end pc.2) = true ∧ is_Some (reported k pid).
Proof.
  intros Hready. apply list_find_Some in Hready as (Hi & Hp & _).
  apply andb_true_iff in Hp as [Hw Hr]. split; [done|]. split; [done|]. split; [done|].
  destruct (reported k pid) eqn:Hrep; [done|].
  apply list_find_None in Hrep. rewrite Forall_forall in Hrep.
  destruct (Hrep pc); [|done]. by eapply list_elem_of_lookup_2.
Qed.

Lemma ready_of_reported k pid options i pc :
  reported k pid = Some (i, pc) → reportable options (ch_end pc.2) = true →
  ready k pid options = Some (i, pc).
Proof.
  intros Hrep Hr. apply list_find_Some in Hrep as (Hi & Hw & Hfirst).
  apply list_find_Some. split; [done|]. split; [by rewrite Hw, Hr|].
  intros j y Hj Hlt Hy. apply andb_true_iff in Hy as [Hy _]. by eapply Hfirst.
Qed.

Lemma waitFor_run k procId status :
  run (Exec.waitFor procId status) k =
    match reported k procId with
    | Some _ =>
        match ready k procId 0 with
        | Some (i, (p, ch)) =>
            let s := wstatus (ch_end ch) in
            Result (Returned (if Exec.WIFEXITED s then Exec.WEXITSTATUS s else 0))
                   (match ch_end ch with
                    | Stopped _ => k
                    | _ => with_procs (k_pids k) (delete i (k_children k)) k
                    end)
                   [c_waitpid procId 0]
        | None => Result (Gone never_returned) k [c_waitpid procId 0]
        end
    | None =>
        Result (Returned (if Exec.WIFEXITED status then Exec.WEXITSTATUS status else 0))
               k [c_waitpid procId 0]
    end.
Proof.
  unfold Exec.waitFor. cbn. destruct (reported k procId) as [r|]; [|done].
  by destruct (ready k procId 0) as [[i [p ch]]|].
Qed.

(** C2 (as stated) fails for a stopped child.  [waitFor] calls [waitpid]
    with the options 0, without [WUNTRACED], so a stop is not reported: for
    a child that is stopped [waitFor] does not return 0, it does not return
    at all while the child stays stopped. *)
Lemma stopped_child_is_not_reported :
  let spawned := res_sys (run (Exec.create_subprocess (Some "/system/bin/sh") (Some "-c")
                                 (Some "kill -STOP $$") 0) (boot (ending (Stopped 19)))) in
  reported spawned 101 = Some (0%nat, (101, Child 100 (Stopped 19))) ∧
  run (Exec.waitFor 101 0) spawned =
    Result (Gone never_returned) spawned [c_waitpid 101 0] ∧
  run (MoshClient.waitFor 101 0) spawned =
    Result (Gone never_returned) spawned [c_waitpid 101 0] ∧
  res_out (run (Exec.waitFor 101 0) spawned) ≠ Returned 0.
Proof. repeat split; try (by vm_compute). Qed.

(** C2 (amended).  [waitFor] waits with [waitpid(procId, &status, 0)].
    When [waitpid] has a child to report under these options, the child has
    terminated: [waitFor] returns the exit status N of a child that exited
    with N in [0,255] and 0 for a child killed by a signal, and the child is
    reaped.  When the caller has such children but all of them are only
    stopped, [waitFor] does not return.  A stop status would be decoded to
    0, but it is never delivered. *)
Theorem waitFor_returns_exit_status k procId status :
  let exec := run (Exec.waitFor procId status) k in
  let mosh := run (MoshClient.waitFor procId status) k in
  (∀ i p ch,
     ready k procId 0 = Some (i, (p, ch)) →
     match ch_end ch with
     | Exits n => 0 ≤ n ≤ 255
     | Killed sig _ => 0 < sig < 128
     | Stopped _ => True
     end →
     let expected := match ch_end ch with Exits n => n | _ => 0 end in
     (∀ sig, ch_end ch ≠ Stopped sig) ∧
     res_out exec = Returned expected ∧ res_calls exec = [c_waitpid procId 0] ∧
     res_out mosh = Returned expected ∧ res_calls mosh = [c_waitpid procId 0] ∧
     res_sys mosh = res_sys exec ∧
     k_children (res_sys exec) = delete i (k_children k)) ∧
  (is_Some (reported k procId) → ready k procId 0 = None →
     exec = Result (Gone never_returned) k [c_waitpid procId 0] ∧ mosh = exec ∧
     ∀ pc, pc ∈ k_children k → waited k procId pc = true →
           ∃ sig, ch_end pc.2 = Stopped sig) ∧
  (∀ sig, (if Exec.WIFEXITED (wstatus (Stopped sig))
           then Exec.WEXITSTATUS (wstatus (Stopped sig)) else 0) = 0).
Proof.
  intros exec mosh. subst exec mosh.
  change (MoshClient.waitFor procId status) with (Exec.waitFor procId status).
  rewrite waitFor_run. split; [|split].
  - intros i p ch Hready Hwf.
    destruct (ready_reported _ _ _ _ _ Hready) as (_ & _ & Hrep & [r ->]).
    rewrite Hready. cbn [res_out res_sys res_calls]. cbn in Hrep.
    destruct (ch_end ch) as [n|sig core|sig]; [| |done].
    + destruct (WEXITSTATUS_exit n Hwf) as [-> ->]. by destruct k.
    + rewrite (WIFEXITED_killed sig core Hwf). by destruct k.
  - intros [r ->] Hnone. rewrite Hnone. split; [done|]. split; [done|].
    intros pc Hin Hw. apply list_find_None in Hnone. rewrite Forall_forall in Hnone.
    specialize (Hnone pc Hin). rewrite Hw in Hnone. cbn in Hnone.
    destruct (ch_end pc.2) as [n|sig core|sig]; [by destruct Hnone..|by exists sig].
  - intros sig. by rewrite WIFEXITED_stopped.
Qed.

Lemma waitFor_returns_exit_status_witness :
  let spawned := res_sys (run (Exec.create_subprocess (Some "/system/bin/sh") (Some "-c")
                                 (Some "exit 3") 0) (boot (ending (Exits 3)))) in
  let killed := res_sys (run (MoshClient.create_mosh_client (Some "10.0.0.1")
                                (Some "60001") 0 0) (boot (ending (Killed 9 false)))) in
  res_out (run (Exec.waitFor 101 0) spawned) = Returned 3 ∧
  res_out (run (MoshClient.waitFor 101 0) killed) = Returned 0.
Proof.
  intros spawned killed. split.
  - destruct (waitFor_returns_exit_status spawned 101 0) as (Hends & _).
    apply (Hends 0%nat 101 (Child 100 (Exits 3))); [reflexivity|simpl; lia].
  - destruct (waitFor_returns_exit_status killed 101 0) as (Hends & _).
    apply (Hends 0%nat 101 (Child 100 (Killed 9 false))); [reflexivity|simpl; lia].
Defined.

(** C9.  [waitFor] never looks at what [waitpid] returns.  When [waitpid]
    fails (no child to report) it stores no status, and the value returned
    is decoded from whatever the uninitialised [status] held: it is fixed by
    that indeterminate word alone, and any value in [0,255] can come out,
    so it is neither an error value nor always 0. *)
Theorem waitFor_ignores_waitpid_failure k procId :
  reported k procId = None →
  (∀ status,
     let decoded := if Exec.WIFEXITED status then Exec.WEXITSTATUS status else 0 in
     run (Exec.waitFor procId status) k =
       Result (Returned decoded) k [c_waitpid procId 0] ∧
     run (MoshClient.waitFor procId status) k =
       Result (Returned decoded) k [c_waitpid procId 0]) ∧
  (∀ v, 0 ≤ v ≤ 255 →
     ∃ status,
       res_out (run (Exec.waitFor procId status) k) = Returned v ∧
       res_out (run (MoshClient.waitFor procId status) k) = Returned v).
Proof.
  intros Hrep.
  assert (∀ status,
     let decoded := if Exec.WIFEXITED status then Exec.WEXITSTATUS status else 0 in
     run (Exec.waitFor procId status) k =
       Result (Returned decoded) k [c_waitpid procId 0] ∧
     run (MoshClient.waitFor procId status) k =
       Result (Returned decoded) k [c_waitpid procId 0]) as Hrun.
  { intros status decoded. subst decoded.
    unfold Exec.waitFor, MoshClient.waitFor. cbn. rewrite Hrep. cbn.
    change MoshClient.WIFEXITED with Exec.WIFEXITED.
    change MoshClient.WEXITSTATUS with Exec.WEXITSTATUS.
    by destruct (Exec.WIFEXITED status). }
  split; [done|]. intros v Hv. exists (wstatus (Exits v)).
  destruct (Hrun (wstatus (Exits v))) as [-> ->]. cbn [res_out].
  by destruct (WEXITSTATUS_exit v Hv) as [-> ->].
Qed.

Lemma waitFor_ignores_waitpid_failure_witness :
  run (Exec.waitFor 4711 768) (boot (fair fork_in_parent)) =
    Result (Returned 3) (boot (fair fork_in_parent)) [c_waitpid 4711 0] ∧
  run (MoshClient.waitFor 4711 9) (boot (fair fork_in_parent)) =
    Result (Returned 0) (boot (fair fork_in_parent)) [c_waitpid 4711 0].
Proof.
  pose proof (waitFor_ignores_waitpid_failure (boot (fair fork_in_parent)) 4711 eq_refl)
    as [Hrun _].
  split; [apply (Hrun 768)|apply (Hrun 9)].
Defined.

(** ** The child side of spawn *)
Lemma lowest_free_above (fds : gmap Z fdesc) :
  is_Some (fds !! 0) → is_Some (fds !! 1) → is_Some (fds !! 2) → 3 ≤ lowest_free fds.
Proof.
  intros [? H0] [? H1] [? H2].
  pose proof (lowest_free_nonneg fds). pose proof (lowest_free_fresh fds) as Hfresh.
  destruct (decide (lowest_free fds = 0)) as [E|]; [by rewrite E, H0 in Hfresh|].
  destruct (decide (lowest_free fds = 1)) as [E|]; [by rewrite E, H1 in Hfresh|].
  destruct (decide (lowest_free fds = 2)) as [E|]; [by rewrite E, H2 in Hfresh|].
  lia.
Qed.

(** With the three standard streams open in the parent, a table to which
    the slave was attached has the slave on 0, 1 and 2 and no master. *)
Lemma attached_lookup (fds : gmap Z fdesc) pts ptm f c :
  3 ≤ pts → 3 ≤ ptm → pts ≠ ptm → fds !! pts = Some (Fdesc f c) →
  attached pts ptm fds !! 0 = Some (Fdesc f false) ∧
  attached pts ptm fds !! 1 = Some (Fdesc f false) ∧
  attached pts ptm fds !! 2 = Some (Fdesc f false) ∧
  attached pts ptm fds !! ptm = None.
Proof.
  intros Hpts Hptm Hne Hfd. unfold attached.
  assert (∀ new m, 0 ≤ new < 3 → m !! pts = Some (Fdesc f c) →
            dup2_fds pts new m = <[new := Fdesc f false]> m) as Hdup.
  { intros new m Hnew Hm. unfold dup2_fds. rewrite Hm. simpl.
    destruct (decide (new < 0)); [lia|]. destruct (decide (pts = new)); [lia|done]. }
  rewrite (Hdup 0 fds) by (done || lia).
  rewrite (Hdup 1) by (rewrite ?lookup_insert_ne by lia; done || lia).
  rewrite (Hdup 2) by (rewrite ?lookup_insert_ne by lia; done || lia).
  rewrite lookup_delete_eq, !lookup_delete_ne by lia.
  repeat split; by simplify_map_eq.
Qed.

Lemma Exec_child_descriptors k cmd arg0 arg1 slot :
  Exec_ready (k_plan k) = true → fork_goes (k_plan k) = fork_in_child →
  file_opens (k_plan k) = true →
  is_Some (k_fds k !! 0) → is_Some (k_fds k !! 1) → is_Some (k_fds k !! 2) →
  let r := run (Exec.create_subprocess cmd arg0 arg1 slot) k in
  let slave := Some (Fdesc (Pts (length (k_ptys k))) false) in
  k_fds (res_sys r) !! 0 = slave ∧ k_fds (res_sys r) !! 1 = slave ∧
  k_fds (res_sys r) !! 2 = slave ∧ k_fds (res_sys r) !! lowest_free (k_fds k) = None.
Proof.
  intros Hr Hf Ho H0 H1 H2 r slave. subst r slave.
  destruct (Exec_create_subprocess_child k cmd arg0 arg1 slot Hr Hf)
    as (_ & _ & _ & _ & Hrun).
  rewrite Ho in Hrun. destruct Hrun as (_ & _ & _ & ->).
  pose proof (lowest_free_above (k_fds k) H0 H1 H2) as Hptm.
  assert (3 ≤ lowest_free (k_fds (opened true true k))) as Hpts.
  { apply lowest_free_above; unfold opened; destruct k; cbn in *;
      rewrite lookup_insert_ne by lia; done. }
  assert (lowest_free (k_fds (opened true true k)) ≠ lowest_free (k_fds k)) as Hne.
  { intros Heq. pose proof (lowest_free_fresh (k_fds (opened true true k))) as Hfresh.
    rewrite Heq in Hfresh. unfold opened in Hfresh. destruct k; cbn in *.
    by rewrite lookup_insert_eq in Hfresh. }
  pose proof (attached_lookup
                (<[lowest_free (k_fds (opened true true k))
                   := Fdesc (Pts (length (k_ptys k))) false]>
                   (k_fds (opened true true k)))
                (lowest_free (k_fds (opened true true k))) (lowest_free (k_fds k))
                (Pts (length (k_ptys k))) false Hpts Hptm Hne
                (lookup_insert_eq _ _ _)) as (T0 & T1 & T2 & Tm).
  destruct cmd as [path|]; [destruct (image_loads (k_plan k))|]; try done.
  repeat split; try (by apply map_lookup_filter_Some).
  apply map_lookup_filter_None. by left.
Qed.

Lemma Mosh_child_descriptors k ip port pPtm pProcessId :
  Mosh_ready k = true → fork_goes (k_plan k) = fork_in_child →
  file_opens (k_plan k) = true →
  is_Some (k_fds k !! 0) → is_Some (k_fds k !! 1) → is_Some (k_fds k !! 2) →
  let r := run (MoshClient.create_mosh_client ip port pPtm pProcessId) k in
  let slave := Some (Fdesc (Pts (length (k_ptys k))) false) in
  k_fds (res_sys r) !! 0 = slave ∧ k_fds (res_sys r) !! 1 = slave ∧
  k_fds (res_sys r) !! 2 = slave ∧ k_fds (res_sys r) !! lowest_free (k_fds k) = None.
Proof.
  intros Hr Hf Ho H0 H1 H2 r slave. subst r slave.
  destruct (Mosh_create_mosh_client_child k ip port pPtm pProcessId Hr Hf)
    as (_ & _ & _ & _ & Hrun).
  rewrite Ho in Hrun. destruct Hrun as (_ & -> & _).
  pose proof (lowest_free_above (k_fds k) H0 H1 H2) as Hptm.
  assert (3 ≤ lowest_free (k_fds (opened false true k))) as Hpts.
  { apply lowest_free_above; unfold opened; destruct k; cbn in *;
      rewrite lookup_insert_ne by lia; done. }
  assert (lowest_free (k_fds (opened false true k)) ≠ lowest_free (k_fds k)) as Hne.
  { intros Heq. pose proof (lowest_free_fresh (k_fds (opened false true k))) as Hfresh.
    rewrite Heq in Hfresh. unfold opened in Hfresh. destruct k; cbn in *.
    by rewrite lookup_insert_eq in Hfresh. }
  apply (attached_lookup _ _ _ (Pts (length (k_ptys k))) false Hpts Hptm Hne).
  apply lookup_insert_eq.
Qed.

(** C3.  Once [fork] has answered 0, the spawn function never returns to
    its caller: the child ends in a process exit or in the new image.  If
    the slave cannot be opened the child exits with status -1 right after
    that [open]; if [execl] comes back the child exits with status -1
    right after it; in [MoshClient], where [mosh_client_main] runs in the
    child itself, the child exits with status 1 when it comes back.  The
    parent reads these from [waitFor] as 255 and 1. *)
Theorem child_failure_is_terminal k cmd arg0 arg1 ptm0 procId :
  fork_goes (k_plan k) = fork_in_child →
  let p := k_plan k in
  let exec := run (Exec.create_subprocess cmd arg0 arg1 procId) k in
  let mosh := run (MoshClient.create_mosh_client arg0 arg1 ptm0 procId) k in
  let devname := pts_name (length (k_ptys k)) in
  (Exec_ready p = true →
     (∀ r, res_out exec ≠ Returned r) ∧
     (file_opens p = false →
        res_out exec = Exited (-1) ∧
        last (res_calls exec) = Some (c_open devname O_RDWR)) ∧
     (file_opens p = true → image_loads p = false ∨ cmd = None →
        res_out exec = Exited (-1) ∧
        last (res_calls exec) = Some (c_execl cmd [cmd; arg0; arg1]))) ∧
  (Mosh_ready k = true →
     (∀ r, res_out mosh ≠ Returned r) ∧
     (file_opens p = false →
        res_out mosh = Exited (-1) ∧
        last (res_calls mosh) = Some (c_open devname O_RDWR)) ∧
     (file_opens p = true → is_Some (main_returns p) →
        res_out mosh = Exited 1 ∧ last (res_calls mosh) = Some c_fflush)) ∧
  Exec.WEXITSTATUS (wstatus (Exits (-1))) = 255 ∧
  Exec.WEXITSTATUS (wstatus (Exits 1)) = 1.
Proof.
  intros Hf p exec mosh devname. subst p exec mosh devname.
  split; [|split; [|done]].
  - intros Hr.
    destruct (Exec_create_subprocess_child k cmd arg0 arg1 procId Hr Hf)
      as (_ & _ & _ & _ & Hrun).
    destruct (file_opens (k_plan k)).
    + destruct Hrun as (_ & Hcalls & Hout & _). rewrite Hout, Hcalls.
      split; [|split; [done|]].
      * intros r. destruct cmd; [destruct (image_loads (k_plan k))|]; done.
      * intros _ Hwhy. split; [|done].
        destruct cmd; [|done]. by destruct Hwhy as [->|?].
    + destruct Hrun as (Hcalls & Hout). rewrite Hout, Hcalls.
      split; [done|]. split; [done|]. intros; done.
  - intros Hr.
    destruct (Mosh_create_mosh_client_child k arg0 arg1 ptm0 procId Hr Hf)
      as (_ & _ & _ & _ & Hrun).
    destruct (file_opens (k_plan k)).
    + destruct Hrun as (_ & _ & Hrun).
      destruct (main_returns (k_plan k)) as [rc|];
        destruct Hrun as (Hcalls & Hout); rewrite Hout, Hcalls.
      * split; [done|]. split; [done|]. done.
      * split; [done|]. split; [done|]. by intros _ [? ?].
    + destruct Hrun as (Hcalls & Hout). rewrite Hout, Hcalls.
      split; [done|]. split; [done|]. intros; done.
Qed.

Lemma child_failure_is_terminal_witness :
  let sh := Some "/system/bin/sh" in
  let no_image := Plan true true true true fork_in_child true false (Some 0) (Exits 0)
                       true true (λ _, true) (λ _, true) true true true in
  res_out (run (Exec.create_subprocess sh (Some "-") None 0) (boot no_image)) = Exited (-1) ∧
  res_out (run (MoshClient.create_mosh_client (Some "10.0.0.1") (Some "60001") 0 0)
             (boot no_image)) = Exited 1.
Proof.
  intros sh no_image.
  pose proof (child_failure_is_terminal (boot no_image) sh (Some "-") None 0 0 eq_refl)
    as (He & _ & _).
  pose proof (child_failure_is_terminal (boot no_image) (Some "10.0.0.1") (Some "10.0.0.1")
                (Some "60001") 0 0 eq_refl) as (_ & Hm & _).
  split.
  - apply He; [reflexivity|reflexivity|by left].
  - apply Hm; [reflexivity|reflexivity|by eexists].
Defined.

(** C5 (as stated) fails for [MoshClient]: its child, with every step
    working, never replaces its process image.  It names its thread, makes
    the session and attaches the slave, then calls [mosh_client_main] in
    the forked process and leaves with [_exit(1)]; no [execl] occurs. *)
Lemma mosh_child_never_execs :
  let r := run (MoshClient.create_mosh_client (Some "10.0.0.1") (Some "60001") 0 0)
               (boot (fair fork_in_child)) in
  res_calls r =
    [c_open "/dev/ptmx" O_RDWR; c_fcntl 3 F_SETFD FD_CLOEXEC; c_unlockpt 3;
     c_ptsname_r 3 32; c_fork;
     c_prctl PR_SET_NAME "MoshClient"; c_setsid; c_open "/dev/pts/0" O_RDWR;
     c_dup2 4 0; c_dup2 4 1; c_dup2 4 2; c_close 3;
     c_cerr [Some "[ MoshClient.forkExec("; Some "10.0.0.1"; Some ", "; Some "60001";
             Some ")@main ]"];
     c_mosh_client_main [Some "mosh-client"; Some "10.0.0.1"; Some "60001"];
     c_cerr [Some "[ MoshClient.forkExec("; Some "10.0.0.1"; Some ", "; Some "60001";
             Some ")@exit ]"];
     c_cerr []; c_fflush; c_fflush] ∧
  res_out r = Exited 1 ∧
  ∀ path args, c_execl path args ∉ res_calls r.
Proof.
  split; [by vm_compute|]. split; [by vm_compute|].
  intros path. vm_compute res_calls. absent.
Qed.

(** C5 (amended).  In the child of a spawn whose steps all work, the calls
    after [fork] are, in this order: [setsid] (in [MoshClient] preceded by
    [prctl(PR_SET_NAME)]), the [open] of the slave by its name, [dup2] of it
    onto 0, 1 and 2, [close] of the master; then [Exec] replaces the process
    image with [execl(cmd, cmd, arg0, arg1, NULL)], while [MoshClient] calls
    [mosh_client_main] with ["mosh-client", ip, port] in the child itself
    and leaves with [_exit(1)] when it returns.  The statements that stream
    to [std::cerr] before and after that call are listed by the operands
    they insert, a null [ip] or [port] included, not by the text that
    comes out.  At the end the child is a new process that leads its own
    session and has the slave as its controlling terminal; when the parent
    had 0, 1 and 2 open, the child has the slave on all three and no longer
    has the master. *)
Theorem child_steps_in_order k cmd arg0 arg1 ptm0 procId :
  fork_goes (k_plan k) = fork_in_child → file_opens (k_plan k) = true →
  let p := k_plan k in
  let exec := run (Exec.create_subprocess cmd arg0 arg1 procId) k in
  let mosh := run (MoshClient.create_mosh_client arg0 arg1 ptm0 procId) k in
  let ptm := lowest_free (k_fds k) in
  let devname := pts_name (length (k_ptys k)) in
  let leads (k' : kernel) :=
    k_pid k' = fresh_pid k ∧ k_pid k' ≠ k_pid k ∧ k_sid k' = k_pid k' ∧
    k_pgid k' = k_pid k' ∧ k_ctty k' = Some (length (k_ptys k)) in
  let attached (k' : kernel) :=
    is_Some (k_fds k !! 0) → is_Some (k_fds k !! 1) → is_Some (k_fds k !! 2) →
    k_fds k' !! 0 = Some (Fdesc (Pts (length (k_ptys k))) false) ∧
    k_fds k' !! 1 = Some (Fdesc (Pts (length (k_ptys k))) false) ∧
    k_fds k' !! 2 = Some (Fdesc (Pts (length (k_ptys k))) false) ∧
    k_fds k' !! ptm = None in
  (Exec_ready p = true →
     let pts := lowest_free (k_fds (opened true true k)) in
     res_calls exec =
       [c_open "/dev/ptmx" O_RDWR; c_fcntl ptm F_SETFD FD_CLOEXEC;
        c_grantpt ptm; c_unlockpt ptm; c_ptsname ptm; c_fork] ++
       [c_setsid; c_open devname O_RDWR; c_dup2 pts 0; c_dup2 pts 1; c_dup2 pts 2;
        c_close ptm; c_execl cmd [cmd; arg0; arg1]] ∧
     leads (res_sys exec) ∧ attached (res_sys exec) ∧
     (∀ path, cmd = Some path → image_loads p = true →
        res_out exec =
          Gone (image_replaced path (argv_of [cmd; arg0; arg1]) (k_environ k)))) ∧
  (Mosh_ready k = true →
     let pts := lowest_free (k_fds (opened false true k)) in
     let at_main :=
       [Some "[ MoshClient.forkExec("; arg0; Some ", "; arg1; Some ")@main ]"] in
     let at_exit :=
       [Some "[ MoshClient.forkExec("; arg0; Some ", "; arg1; Some ")@exit ]"] in
     res_calls mosh =
       [c_open "/dev/ptmx" O_RDWR; c_fcntl ptm F_SETFD FD_CLOEXEC;
        c_unlockpt ptm; c_ptsname_r ptm 32; c_fork] ++
       [c_prctl PR_SET_NAME "MoshClient"; c_setsid; c_open devname O_RDWR;
        c_dup2 pts 0; c_dup2 pts 1; c_dup2 pts 2; c_close ptm; c_cerr at_main;
        c_mosh_client_main [Some "mosh-client"; arg0; arg1]] ++
       (if main_returns p is Some _
        then [c_cerr at_exit; c_cerr []; c_fflush; c_fflush] else []) ∧
     leads (res_sys mosh) ∧ attached (res_sys mosh) ∧
     res_out mosh = (if main_returns p is Some _ then Exited 1 else Gone never_returned)).
Proof.
  intros Hf Ho p exec mosh ptm devname leads attached.
  subst p exec mosh ptm devname leads attached.
  destruct (fresh_pid_bounds k) as (_ & Hpid & _).
  split.
  - intros Hr pts. subst pts.
    destruct (Exec_create_subprocess_child k cmd arg0 arg1 procId Hr Hf)
      as (Hp & Hs & Hg & _ & Hrun).
    rewrite Ho in Hrun. destruct Hrun as (Hc & Hcalls & Hout & _).
    split; [done|]. split.
    { rewrite Hp, Hs, Hg. repeat split; [lia|done]. }
    split; [by apply Exec_child_descriptors|].
    intros path -> Hi. by rewrite Hout, Hi.
  - intros Hr pts at_main at_exit. subst pts at_main at_exit.
    destruct (Mosh_create_mosh_client_child k arg0 arg1 ptm0 procId Hr Hf)
      as (Hp & Hs & Hg & _ & Hrun).
    rewrite Ho in Hrun. destruct Hrun as (Hc & _ & Hrun).
    assert (k_pid (res_sys (run (MoshClient.create_mosh_client arg0 arg1 ptm0 procId) k))
            ≠ k_pid k) by lia.
    pose proof (Mosh_child_descriptors k arg0 arg1 ptm0 procId Hr Hf Ho) as Hfds.
    destruct (main_returns (k_plan k)); destruct Hrun as [Hcalls Hout];
      rewrite Hcalls, Hout, Hp, Hs, Hg; rewrite Hp in *;
      (split; [done|]); (split; [done|]); (split; [exact Hfds|done]).
Qed.

Lemma child_steps_in_order_witness :
  res_out (run (Exec.create_subprocess (Some "/system/bin/sh") (Some "-") None 0)
             (boot (fair fork_in_child)))
    = Gone (image_replaced "/system/bin/sh" ["/system/bin/sh"; "-"] ∅) ∧
  res_out (run (MoshClient.create_mosh_client (Some "10.0.0.1") (Some "60001") 0 0)
             (boot (fair fork_in_child)))
    = Exited 1.
Proof.
  pose proof (child_steps_in_order (boot (fair fork_in_child)) (Some "/system/bin/sh")
                (Some "-") None 0 0 eq_refl eq_refl) as (He & _).
  pose proof (child_steps_in_order (boot (fair fork_in_child)) (Some "10.0.0.1")
                (Some "10.0.0.1") (Some "60001") 0 0 eq_refl eq_refl) as (_ & Hm).
  split.
  - destruct (He eq_refl) as (_ & _ & _ & Hout). by apply Hout.
  - destruct (Hm eq_refl) as (_ & _ & _ & Hout). apply Hout.
Defined.

(** ** Allocation of the pseudo-terminal *)

Lemma opened_master g u k :
  let ptm := lowest_free (k_fds k) in
  let n := length (k_ptys k) in
  0 ≤ ptm ∧ k_fds k !! ptm = None ∧
  k_fds (opened g u k) !! ptm = Some (Fdesc (Ptmx n) true) ∧
  k_ptys (opened g u k) !! n = Some (Pty g u None) ∧
  size (k_fds (opened g u k)) = S (size (k_fds k)).
Proof.
  intros ptm n. subst ptm n. pose proof (lowest_free_fresh (k_fds k)) as Hfresh.
  split; [apply lowest_free_nonneg|]. split; [done|].
  destruct k; cbn in *. rewrite lookup_insert_eq, lookup_last.
  split; [done|]. split; [done|]. by apply map_size_insert_None.
Qed.

(** C6 (as stated) fails.  In [Exec] the allocation also reports failure
    when the device was opened and unlocked but the name of the slave
    cannot be had: the slave is left granted and unlocked, and the result
    is the failure value.  In [MoshClient] an allocation that works never
    grants the slave: there is no [grantpt] among its calls. *)
Lemma allocation_fails_without_name_and_mosh_grants_nothing :
  let nameless := boot (failing true true true false fork_in_parent) in
  let r := run Exec.open_pty nameless in
  let m := run MoshClient.open_pty (boot (fair fork_in_parent)) in
  res_out r = Returned None ∧
  res_calls r = [c_open "/dev/ptmx" O_RDWR; c_fcntl 3 F_SETFD FD_CLOEXEC; c_grantpt 3;
                 c_unlockpt 3; c_ptsname 3; c_log "[ trouble with /dev/ptmx ]"] ∧
  k_fds (res_sys r) !! 3 = Some (Fdesc (Ptmx 0) true) ∧
  k_ptys (res_sys r) = [Pty true true None] ∧
  res_out m = Returned (Some (3, "/dev/pts/0")) ∧
  res_calls m = [c_open "/dev/ptmx" O_RDWR; c_fcntl 3 F_SETFD FD_CLOEXEC;
                 c_unlockpt 3; c_ptsname_r 3 32] ∧
  k_ptys (res_sys m) = [Pty false true None].
Proof. repeat split; by vm_compute. Qed.

(** C6 (amended).  The allocation opens [/dev/ptmx], marks the master
    close-on-exec, unlocks the slave ([Exec] grants it first, [MoshClient]
    does not grant) and asks for the name of the slave; it yields the
    master descriptor with that name.  It reports failure exactly when the
    open, the grant ([Exec] only), the unlock or the name lookup fails
    (in [MoshClient] also when the name does not fit the 32 bytes of
    [devname]). *)
Theorem open_pty_allocates k :
  let p := k_plan k in
  let ptm := lowest_free (k_fds k) in
  let n := length (k_ptys k) in
  let exec := run Exec.open_pty k in
  let mosh := run MoshClient.open_pty k in
  (Exec_ready p = true →
     exec = Result (Returned (Some (ptm, pts_name n))) (opened true true k)
                   [c_open "/dev/ptmx" O_RDWR; c_fcntl ptm F_SETFD FD_CLOEXEC;
                    c_grantpt ptm; c_unlockpt ptm; c_ptsname ptm] ∧
     k_fds (res_sys exec) !! ptm = Some (Fdesc (Ptmx n) true) ∧
     k_ptys (res_sys exec) !! n = Some (Pty true true None)) ∧
  (Exec_ready p = false → res_out exec = Returned None) ∧
  (Mosh_ready k = true →
     mosh = Result (Returned (Some (ptm, pts_name n))) (opened false true k)
                   [c_open "/dev/ptmx" O_RDWR; c_fcntl ptm F_SETFD FD_CLOEXEC;
                    c_unlockpt ptm; c_ptsname_r ptm 32] ∧
     k_fds (res_sys mosh) !! ptm = Some (Fdesc (Ptmx n) true) ∧
     k_ptys (res_sys mosh) !! n = Some (Pty false true None)) ∧
  (Mosh_ready k = false → res_out mosh = Returned None).
Proof.
  intros p ptm n exec mosh. subst p ptm n exec mosh.
  rewrite Exec_open_pty_run, Mosh_open_pty_run. unfold Exec_ready, Mosh_ready.
  destruct (ptmx_opens (k_plan k)), (grantpt_works (k_plan k)),
    (unlockpt_works (k_plan k)), (ptsname_works (k_plan k));
    cbn [andb];
    try destruct (bool_decide (Z.of_nat (String.length (pts_name (length (k_ptys k)))) < 32));
    repeat split; intros; try done;
    cbn [res_sys]; apply opened_master.
Qed.

Lemma open_pty_allocates_witness :
  res_out (run Exec.open_pty (boot (fair fork_in_parent)))
    = Returned (Some (3, "/dev/pts/0")) ∧
  res_out (run Exec.open_pty (boot (failing true false true true fork_in_parent)))
    = Returned None ∧
  res_out (run MoshClient.open_pty (boot (fair fork_in_parent)))
    = Returned (Some (3, "/dev/pts/0")) ∧
  res_out (run MoshClient.open_pty (boot (failing true true false true fork_in_parent)))
    = Returned None.
Proof.
  pose proof (open_pty_allocates (boot (fair fork_in_parent))) as (He & _ & Hm & _).
  pose proof (open_pty_allocates (boot (failing true false true true fork_in_parent)))
    as (_ & Fe & _).
  pose proof (open_pty_allocates (boot (failing true true false true fork_in_parent)))
    as (_ & _ & _ & Fm).
  split; [|split; [|split]].
  - destruct (He eq_refl) as (Hrun & _). rewrite Hrun. reflexivity.
  - apply Fe. reflexivity.
  - destruct (Hm eq_refl) as (Hrun & _). rewrite Hrun. reflexivity.
  - apply Fm. reflexivity.
Defined.

(** C10.  A spawn that fails after [/dev/ptmx] was opened (at the grant,
    the unlock, the name lookup, or at [fork]) reports the failure value
    and never closes the master: the descriptor table of the caller has
    grown by exactly that one descriptor, which the caller was not told. *)
Theorem failed_spawn_leaves_master_open k cmd arg0 arg1 ptm0 procId :
  ptmx_opens (k_plan k) = true →
  let p := k_plan k in
  let ptm := lowest_free (k_fds k) in
  let exec := run (Exec.create_subprocess cmd arg0 arg1 procId) k in
  let mosh := run (MoshClient.create_mosh_client arg0 arg1 ptm0 procId) k in
  let leaked (k' : kernel) :=
    k_fds k !! ptm = None ∧
    k_fds k' = <[ptm := Fdesc (Ptmx (length (k_ptys k))) true]> (k_fds k) ∧
    size (k_fds k') = S (size (k_fds k)) in
  (Exec_ready p = false ∨ fork_goes p = fork_fails →
     res_out exec = Returned (-1, procId) ∧ leaked (res_sys exec) ∧
     ∀ fd, c_close fd ∉ res_calls exec) ∧
  (Mosh_ready k = false ∨ fork_goes p = fork_fails →
     res_out mosh = Returned (-1, procId) ∧ leaked (res_sys mosh) ∧
     ∀ fd, c_close fd ∉ res_calls mosh).
Proof.
  intros Ho p ptm exec mosh leaked. subst p ptm exec mosh leaked.
  pose proof (lowest_free_fresh (k_fds k)) as Hfresh.
  split; intros Hfail.
  - destruct (Exec_create_subprocess_failed k cmd arg0 arg1 procId Hfail)
      as (Hout & _ & _ & Hfds & Hcalls).
    rewrite Ho in Hfds. rewrite Hfds. repeat split; try done.
    by apply map_size_insert_None.
  - destruct (Mosh_create_mosh_client_failed k arg0 arg1 ptm0 procId Hfail)
      as (Hout & _ & _ & Hfds & Hcalls).
    rewrite Ho in Hfds. rewrite Hfds. repeat split; try done.
    by apply map_size_insert_None.
Qed.

Lemma failed_spawn_leaves_master_open_witness :
  let stuck := boot (failing true true false true fork_in_parent) in
  k_fds (res_sys (run (Exec.create_subprocess (Some "/system/bin/sh") (Some "-") None 0)
                    stuck)) !! 3 = Some (Fdesc (Ptmx 0) true) ∧
  k_fds (res_sys (run (MoshClient.create_mosh_client (Some "10.0.0.1") (Some "60001") 0 0)
                    stuck)) !! 3 = Some (Fdesc (Ptmx 0) true).
Proof.
  intros stuck.
  pose proof (failed_spawn_leaves_master_open stuck (Some "/system/bin/sh") (Some "-")
                None 0 0 eq_refl) as (He & _).
  pose proof (failed_spawn_leaves_master_open stuck (Some "10.0.0.1") (Some "10.0.0.1")
                (Some "60001") 0 0 eq_refl) as (_ & Hm).
  split.
  - destruct He as (_ & (_ & Hfds & _) & _); [by left|]. rewrite Hfds. reflexivity.
  - destruct Hm as (_ & (_ & Hfds & _) & _); [by left|]. rewrite Hfds. reflexivity.
Defined.

(** ** The environment *)

(** C7.  For name and value strings that reach the native side,
    [setenv] calls [setenv(name, value, 1)] and returns its indicator: 0
    with the process-wide table changed to hold the override, or -1 with
    the table untouched (empty name, a name with '=', or no memory).  An
    override that returned 0 is in the environment of a child spawned
    afterwards: the image [Exec] loads receives it, and it is in the
    environment in which [MoshClient] runs [mosh_client_main]. *)
Theorem setenv_reaches_child k name value cmd arg0 arg1 ptm0 procId :
  utf_given (k_plan k) = true → heap_gives (k_plan k) = true →
  let p := k_plan k in
  let r := run (MoshClient.setenv (Some name) (Some value)) k in
  let exec := run (Exec.create_subprocess cmd arg0 arg1 procId) (res_sys r) in
  let mosh := run (MoshClient.create_mosh_client arg0 arg1 ptm0 procId) (res_sys r) in
  last (res_calls r) = Some (c_setenv (Some name) (Some value) 1) ∧
  (if valid_name name && setenv_works p
   then res_out r = Returned 0 ∧
        res_sys r = with_environ (<[name := value]> (k_environ k)) k
   else res_out r = Returned (-1) ∧ res_sys r = k) ∧
  (res_out r = Returned 0 → fork_goes p = fork_in_child → file_opens p = true →
     (Exec_ready p = true → image_loads p = true → ∀ path, cmd = Some path →
        ∃ env, res_out exec = Gone (image_replaced path (argv_of [cmd; arg0; arg1]) env) ∧
               env !! name = Some value) ∧
     (Mosh_ready k = true →
        c_mosh_client_main [Some "mosh-client"; arg0; arg1] ∈ res_calls mosh ∧
        k_environ (res_sys mosh) !! name = Some value)).
Proof.
  intros Hu Hh p r exec mosh. subst p r exec mosh.
  assert (run (MoshClient.setenv (Some name) (Some value)) k =
          match sys (c_setenv (Some name) (Some value) 1) k with
          | (Answer x, k') =>
              Result (Returned x) k'
                [j_GetStringUTFChars name; c_alloc (Z.of_nat (String.length name) + 1);
                 j_ReleaseStringUTFChars;
                 j_GetStringUTFChars value; c_alloc (Z.of_nat (String.length value) + 1);
                 j_ReleaseStringUTFChars; c_setenv (Some name) (Some value) 1]
          | (Stop g, k') => Result (Gone g) k' []
          end) as Hrun.
  { unfold MoshClient.setenv, MoshClient.jniGetStringNativeChars.
    open_kernel k. subst. cbn.
    destruct (decide (1 = 0)) as [?|_]; [lia|].
    destruct (valid_name name); [|done].
    destruct (env !! name); destruct p_setenv; done. }
  rewrite Hrun. clear Hrun. cbn [sys].
  destruct (decide (1 = 0)) as [?|_]; [lia|].
  destruct (valid_name name) eqn:Hv; cbn [andb].
  2: { split; [done|]. split; [done|]. intros; done. }
  assert (∀ k', k_plan k' = k_plan k → k_ptys k' = k_ptys k →
            k_environ k' !! name = Some value →
    fork_goes (k_plan k) = fork_in_child → file_opens (k_plan k) = true →
     (Exec_ready (k_plan k) = true → image_loads (k_plan k) = true →
      ∀ path, cmd = Some path →
        ∃ env, res_out (run (Exec.create_subprocess cmd arg0 arg1 procId) k')
                 = Gone (image_replaced path (argv_of [cmd; arg0; arg1]) env) ∧
               env !! name = Some value) ∧
     (Mosh_ready k = true →
        c_mosh_client_main [Some "mosh-client"; arg0; arg1]
          ∈ res_calls (run (MoshClient.create_mosh_client arg0 arg1 ptm0 procId) k') ∧
        k_environ (res_sys (run (MoshClient.create_mosh_client arg0 arg1 ptm0 procId) k'))
          !! name = Some value)) as Hchild.
  { intros k' Hp Hpt Henv Hf Ho. split.
    - intros Hr Hi path ->. rewrite <- Hp in Hr, Hf, Ho, Hi.
      destruct (Exec_create_subprocess_child k' (Some path) arg0 arg1 procId Hr Hf)
        as (_ & _ & _ & _ & Hrun).
      rewrite Ho, Hi in Hrun. destruct Hrun as (_ & _ & -> & _). by eexists.
    - intros Hr. rewrite <- Hp in Hf, Ho.
      assert (Mosh_ready k' = true) as Hr'.
      { unfold Mosh_ready in *. by rewrite Hp, Hpt. }
      destruct (Mosh_create_mosh_client_child k' arg0 arg1 ptm0 procId Hr' Hf)
        as (_ & _ & _ & -> & Hrun).
      split; [|done]. rewrite Ho in Hrun. destruct Hrun as (_ & _ & Hrun).
      destruct (main_returns (k_plan k')); destruct Hrun as [-> _];
        rewrite !elem_of_app, !elem_of_cons; naive_solver. }
  destruct (k_environ k !! name) eqn:Hold; cbn;
    destruct (setenv_works (k_plan k)) eqn:Hs; cbn.
  all: split; [done|]; split; [done|]; try (intros; done).
  all: intros _; apply Hchild; [by destruct k..|].
  all: destruct k; cbn; by rewrite lookup_insert_eq.
Qed.

Lemma setenv_reaches_child_witness :
  let k := boot (fair fork_in_child) in
  res_out (run (MoshClient.setenv (Some "LANG") (Some "C")) k) = Returned 0 ∧
  (∃ env,
     res_out (run (Exec.create_subprocess (Some "/system/bin/env") None None 0)
                (res_sys (run (MoshClient.setenv (Some "LANG") (Some "C")) k)))
       = Gone (image_replaced "/system/bin/env" ["/system/bin/env"] env) ∧
     env !! "LANG" = Some "C").
Proof.
  intros k.
  pose proof (setenv_reaches_child k "LANG" "C" (Some "/system/bin/env") None None 0 0
                eq_refl eq_refl) as (_ & Hret & Hchild).
  split; [apply Hret|].
  destruct Hchild as (He & _); [apply Hret|reflexivity|reflexivity|].
  apply (He eq_refl eq_refl "/system/bin/env" eq_refl).
Defined.

(** ** Resize *)

(** C4 (as stated) fails: the resize functions return [void].  On a
    descriptor that is not open the [ioctl] answers -1, on the master of a
    pseudo-terminal it answers 0, and the caller receives the same (empty)
    result in both cases: there is no failure indicator. *)
Lemma resize_gives_no_failure_indicator :
  let k := res_sys (run Exec.open_pty (boot (fair fork_in_parent))) in
  let sz := Winsize 24 80 0 0 in
  (sys (c_ioctl 9 TIOCSWINSZ sz) k).1 = Answer (-1) ∧
  (sys (c_ioctl 3 TIOCSWINSZ sz) k).1 = Answer 0 ∧
  res_out (run (Exec.setPtyWindowSize (JFileDescriptor 9) 24 80 0 0) k) = Returned () ∧
  res_out (run (Exec.setPtyWindowSize (JFileDescriptor 3) 24 80 0 0) k) = Returned () ∧
  res_out (run (MoshClient.setPtyWindowSize (JFileDescriptor 9) 24 80 0 0) k) = Returned () ∧
  res_out (run (MoshClient.setPtyWindowSize (JFileDescriptor 3) 24 80 0 0) k) = Returned () ∧
  ¬ ∃ failed : outcome () → bool,
      failed (res_out (run (Exec.setPtyWindowSize (JFileDescriptor 9) 24 80 0 0) k)) = true ∧
      failed (res_out (run (Exec.setPtyWindowSize (JFileDescriptor 3) 24 80 0 0) k)) = false.
Proof.
  repeat split; try by vm_compute.
  intros (failed & Hbad & Hgood).
  assert (res_out (run (Exec.setPtyWindowSize (JFileDescriptor 9) 24 80 0 0)
                     (res_sys (run Exec.open_pty (boot (fair fork_in_parent)))))
          = res_out (run (Exec.setPtyWindowSize (JFileDescriptor 3) 24 80 0 0)
                     (res_sys (run Exec.open_pty (boot (fair fork_in_parent))))))
    as Hsame by (by vm_compute).
  cbv zeta in Hbad, Hgood. rewrite Hsame in Hbad. congruence.
Qed.

(** C4 (amended).  A resize returns nothing, for every handle and in
    every state: it never ends the process and never throws.  On a handle
    whose descriptor is closed, or is no terminal, the [ioctl] is issued
    with the four values cut to 16 bits, answers -1, and that answer is
    dropped: the state is what it was, and no exception is pending. *)
Theorem resize_is_silent k fileDescriptor row col xpixel ypixel :
  let exec := run (Exec.setPtyWindowSize fileDescriptor row col xpixel ypixel) k in
  let mosh := run (MoshClient.setPtyWindowSize fileDescriptor row col xpixel ypixel) k in
  let sz := Winsize (to_ushort row) (to_ushort col) (to_ushort xpixel) (to_ushort ypixel) in
  res_out exec = Returned () ∧ mosh = exec ∧
  (∀ name msg, j_ThrowNew name msg ∉ res_calls exec) ∧
  (∀ fd, fileDescriptor = JFileDescriptor fd → terminal_of k fd = None →
     k_pending k = None → class_found (k_plan k) "java/io/FileDescriptor" = true →
     (sys (c_ioctl fd TIOCSWINSZ sz) k).1 = Answer (-1) ∧
     exec = Result (Returned ()) k
              [j_FindClass "java/io/FileDescriptor";
               j_GetFieldID "java/io/FileDescriptor" "descriptor" "I";
               j_GetIntField fileDescriptor "descriptor";
               j_ExceptionOccurred; c_ioctl fd TIOCSWINSZ sz]).
Proof.
  intros exec mosh sz. subst exec mosh sz.
  split; [|split; [reflexivity|split]].
  - unfold Exec.setPtyWindowSize, Exec.jniGetFDFromFileDescriptor.
    open_kernel k. destruct fileDescriptor; branch; done.
  - unfold Exec.setPtyWindowSize, Exec.jniGetFDFromFileDescriptor.
    open_kernel k. destruct fileDescriptor; branch; absent.
  - intros fd -> Hterm Hpend Hclass.
    unfold Exec.setPtyWindowSize, Exec.jniGetFDFromFileDescriptor.
    open_kernel k. subst. cbn. rewrite Hclass. cbn. rewrite Hterm. done.
Qed.

Lemma resize_is_silent_witness :
  let k := boot (fair fork_in_parent) in
  run (Exec.setPtyWindowSize (JFileDescriptor 9) 24 80 0 0) k =
    Result (Returned ()) k
      [j_FindClass "java/io/FileDescriptor";
       j_GetFieldID "java/io/FileDescriptor" "descriptor" "I";
       j_GetIntField (JFileDescriptor 9) "descriptor";
       j_ExceptionOccurred; c_ioctl 9 TIOCSWINSZ (Winsize 24 80 0 0)].
Proof.
  intros k.
  pose proof (resize_is_silent k (JFileDescriptor 9) 24 80 0 0) as (_ & _ & _ & H).
  apply (H 9 eq_refl eq_refl eq_refl eq_refl).
Defined.

(** ** EastAsianWidth.measure *)

Import EastAsianWidth.

Lemma icu_U16_NEXT_advances s i length :
  i < length → i < (icu_U16_NEXT s i length).1 ≤ length.
Proof.
  intros Hi. unfold icu_U16_NEXT.
  destruct (U16_IS_LEAD (s i)); [|simpl; lia].
  destruct (bool_decide (i + 1 ≠ length)) eqn:Hend; simpl; [|lia].
  apply bool_decide_eq_true in Hend.
  destruct (U16_IS_TRAIL (s (i + 1))); simpl; lia.
Qed.

Section measure_facts.

Variable U16_NEXT : (Z → Z) → Z → Z → Z * Z.
Variable u_getIntPropertyValue : Z → Z → Z.
Hypothesis U16_NEXT_advances :
  ∀ s i length, i < length → i < (U16_NEXT s i length).1 ≤ length.

Lemma measure_loop_stores (fuel : nat) s i end_ eastAsian :
  end_ - i ≤ Z.of_nat fuel →
  ∃ stores,
    measure_loop U16_NEXT u_getIntPropertyValue fuel s i end_ eastAsian = Some stores ∧
    stores = (λ cp, (cp.1.2, width_of u_getIntPropertyValue cp.2 eastAsian))
               <$> code_points U16_NEXT fuel s i end_ ∧
    Forall (λ cp, cp.1.1 < cp.1.2) (code_points U16_NEXT fuel s i end_) ∧
    Forall (λ iv, i < iv.1 ≤ end_) stores ∧
    (i < end_ → last stores.*1 = Some end_).
Proof.
  revert i. induction fuel as [|fuel IH]; intros i Hfuel; simpl.
  - destruct (decide (i < end_)); [lia|]. exists []. repeat split; done.
  - destruct (decide (i < end_)) as [Hi|Hi];
      [|exists []; repeat split; done].
    pose proof (U16_NEXT_advances s i end_ Hi) as Hadv.
    destruct (U16_NEXT s i end_) as [next c] eqn:Hnext. simpl in Hadv.
    destruct (IH next) as (rest & -> & Hmap & Hcp & Hin & Hlast); [lia|].
    eexists. split; [reflexivity|].
    split; [by rewrite Hmap|]. split; [constructor; [simpl; lia|done]|]. split.
    + constructor; [simpl; lia|].
      eapply Forall_impl; [exact Hin|]. simpl. intros; lia.
    + intros _. destruct (decide (next < end_)) as [Hn|Hn].
      * specialize (Hlast Hn). destruct rest as [|r rest']; [done|].
        simpl in *. done.
      * assert (next = end_) as -> by lia.
        assert (rest = []) as ->; [|done].
        destruct fuel; simpl in Hmap;
          destruct (decide (end_ < end_)); try lia; by subst.
Qed.

End measure_facts.

Lemma to_int_id v : -2147483648 ≤ v ≤ 2147483647 → to_int v = v.
Proof. intros Hv. unfold to_int. rewrite Z.mod_small; lia. Qed.

Lemma array_after_untouched (stores : list (Z * Z)) (attributes : list Z) j :
  0 ≤ j → Forall (λ iv, j < iv.1) stores →
  array_after attributes stores !! Z.to_nat j = attributes !! Z.to_nat j.
Proof.
  intros Hj. revert attributes. unfold array_after.
  induction stores as [|[i v] stores IH]; intros attributes Hall; [done|].
  apply Forall_cons in Hall as [Hi Hall]. simpl in *.
  rewrite IH by done. unfold store. simpl.
  destruct (decide (0 ≤ i)); [|done].
  apply list_lookup_insert_ne. lia.
Qed.

(** C8.  [measure] stores the width of each code point it decodes at the
    index where [U16_NEXT] left [i], the index after the code point, not at
    the index where the code point starts.  So over the region
    [start, start+len) every store lands in (start, start+len]: the
    attribute at [start] is never written, and the width of the last code
    point is written at [start+len], one past the region. *)
Theorem measure_stores_after_code_point
    (U16_NEXT : (Z → Z) → Z → Z → Z * Z) (u_getIntPropertyValue : Z → Z → Z)
    k buffer start len eastAsian uAttributes :
  (∀ s i length, i < length → i < (U16_NEXT s i length).1 ≤ length) →
  critical_given (k_plan k) = true →
  0 < len → -2147483648 ≤ start → start + len ≤ 2147483647 →
  let cps := code_points U16_NEXT (Z.to_nat len) (chars_of buffer) start (start + len) in
  let stores := (λ cp, (cp.1.2, width_of u_getIntPropertyValue cp.2 eastAsian)) <$> cps in
  res_out (run (measure U16_NEXT u_getIntPropertyValue buffer start len eastAsian
                  uAttributes) k)
    = Returned (U_ZERO_ERROR, Some stores) ∧
  (∃ next c rest, cps = (start, next, c) :: rest) ∧
  Forall (λ cp, cp.1.1 < cp.1.2) cps ∧
  Forall (λ iv, start < iv.1 ≤ start + len) stores ∧
  (start ∉ stores.*1) ∧
  last stores.*1 = Some (start + len) ∧
  ∀ attributes, 0 ≤ start →
    array_after attributes stores !! Z.to_nat start = attributes !! Z.to_nat start.
Proof.
  intros Hadv Hcrit Hlen Hlo Hhi cps stores.
  destruct (measure_loop_stores U16_NEXT u_getIntPropertyValue Hadv (Z.to_nat len)
              (chars_of buffer) start (start + len) eastAsian)
    as (stores' & Hloop & Hmap & Hcps & Hin & Hlast); [lia|].
  fold cps in Hmap, Hcps. fold stores in Hmap. subst stores'.
  split; [|split; [|split; [done|split; [done|split; [|split]]]]].
  - unfold measure. rewrite to_int_id by lia.
    replace (start + len - start) with len by lia. rewrite Hloop.
    open_kernel k. subst. done.
  - subst cps. destruct (Z.to_nat len) as [|fuel] eqn:Hfuel; [lia|]. simpl.
    destruct (decide (start < start + len)); [|lia].
    destruct (U16_NEXT (chars_of buffer) start (start + len)) as [next c]. by eexists _, _, _.
  - intros Hmem. apply list_elem_of_fmap in Hmem as (iv & -> & Hiv).
    rewrite Forall_forall in Hin. specialize (Hin iv Hiv). lia.
  - apply Hlast. lia.
  - intros attributes Hstart. apply array_after_untouched; [done|].
    eapply Forall_impl; [exact Hin|]. simpl. intros; lia.
Qed.

Lemma measure_stores_after_code_point_witness :
  res_out (run (measure icu_U16_NEXT sample_property sample_buffer 0 4 false false)
             (boot (fair fork_in_parent)))
    = Returned (U_ZERO_ERROR, Some [(1, 0); (3, 1); (4, 1)]) ∧
  array_after [7; 7; 7; 7] [(1, 0); (3, 1); (4, 1)] = [7; 0; 7; 1].
Proof.
  pose proof (measure_stores_after_code_point icu_U16_NEXT sample_property
                (boot (fair fork_in_parent)) sample_buffer 0 4 false false
                icu_U16_NEXT_advances eq_refl) as (Hrun & _); [lia..|].
  split; [exact Hrun|reflexivity].
Defined.

(** * Further properties *)

(** ** Spawns in sequence, and the two sides of one spawn *)

Lemma lowest_free_zero (fds : gmap Z fdesc) : fds !! 0 = None → lowest_free fds = 0.
Proof.
  intros H. unfold lowest_free. destruct (size fds); simpl; [done|]. by rewrite H.
Qed.

(** X1.  Two spawns in a row whose steps all work give the parent two
    different handles and two different process ids; both masters are open
    afterwards, on different pseudo-terminals, and both children are there
    to be waited for. *)
Theorem spawns_in_sequence_are_distinct k cmd arg0 arg1 cmd' arg0' arg1' slot slot' ptm0 :
  fork_goes (k_plan k) = fork_in_parent →
  let first := run (Exec.create_subprocess cmd arg0 arg1 slot) k in
  let second := run (Exec.create_subprocess cmd' arg0' arg1' slot') (res_sys first) in
  let mfirst := run (MoshClient.create_mosh_client arg0 arg1 ptm0 slot) k in
  let msecond :=
    run (MoshClient.create_mosh_client arg0' arg1' ptm0 slot') (res_sys mfirst) in
  let distinct (first second : result (Z * Z)) :=
    ∃ ptm1 pid1 ptm2 pid2 end1 end2,
      res_out first = Returned (ptm1, pid1) ∧ res_out second = Returned (ptm2, pid2) ∧
      ptm1 ≠ ptm2 ∧ pid1 ≠ pid2 ∧
      master_of (res_sys second) ptm1 = Some (length (k_ptys k)) ∧
      master_of (res_sys second) ptm2 = Some (S (length (k_ptys k))) ∧
      k_children (res_sys second) = k_children k ++ [(pid1, end1); (pid2, end2)] in
  (Exec_ready (k_plan k) = true → distinct first second) ∧
  (Mosh_ready k = true → Mosh_ready (res_sys mfirst) = true → distinct mfirst msecond).
Proof.
  intros Hf first second mfirst msecond distinct.
  subst first second mfirst msecond distinct.
  assert (∀ g u, 
    let k1 := with_procs (fresh_pid k :: k_pids k)
                (k_children k ++ [(fresh_pid k, Child (k_pgid k) (child_ends (k_plan k)))])
                (opened g u k) in
    lowest_free (k_fds k) ≠ lowest_free (k_fds k1) ∧ fresh_pid k ≠ fresh_pid k1 ∧
    master_of (with_procs (fresh_pid k1 :: k_pids k1)
                 (k_children k1 ++ [(fresh_pid k1, Child (k_pgid k1) (child_ends (k_plan k1)))])
                 (opened g u k1)) (lowest_free (k_fds k)) = Some (length (k_ptys k)) ∧
    master_of (with_procs (fresh_pid k1 :: k_pids k1)
                 (k_children k1 ++ [(fresh_pid k1, Child (k_pgid k1) (child_ends (k_plan k1)))])
                 (opened g u k1)) (lowest_free (k_fds k1)) = Some (S (length (k_ptys k)))) as Hfacts.
  { intros g u k1.
    pose proof (lowest_free_fresh (k_fds k1)) as Hfresh.
    destruct (fresh_pid_bounds k1) as (_ & _ & _ & _ & Hpids).
    assert (lowest_free (k_fds k) ≠ lowest_free (k_fds k1)) as Hne.
    { intros Heq. rewrite <- Heq in Hfresh. subst k1. destruct k; cbn in *.
      by rewrite lookup_insert_eq in Hfresh. }
    split; [done|]. split.
    { specialize (Hpids (fresh_pid k)). subst k1. destruct k; cbn in *.
      intros Heq. rewrite <- Heq in Hpids.
      enough (∀ x : Z, x < x → False) as Hirr
        by (eapply Hirr, Hpids, elem_of_cons; by left).
      intros; lia. }
    subst k1. destruct k; cbn in *. unfold master_of. cbn.
    rewrite lookup_insert_eq, lookup_insert_ne, lookup_insert_eq by done.
    rewrite length_app. simpl. split; [done|]. do 2 f_equal. lia. }
  split.
  - intros Hr. rewrite Exec_create_subprocess_parent by (by destruct k). cbn [res_sys res_out].
    rewrite Exec_create_subprocess_parent by (by destruct k). cbn [res_sys res_out].
    destruct (Hfacts true true) as (H1 & H2 & H3 & H4).
    eexists _, _, _, _, (Child (k_pgid k) (child_ends (k_plan k))),
      (Child (k_pgid k) (child_ends (k_plan k))).
    split; [reflexivity|]. split; [reflexivity|].
    split; [exact H1|]. split; [exact H2|]. split; [exact H3|]. split; [exact H4|].
    destruct k; cbn. by rewrite <- app_assoc.
  - intros Hr. rewrite Mosh_create_mosh_client_parent by (by destruct k). cbn [res_sys res_out].
    intros Hr'. rewrite Mosh_create_mosh_client_parent by (by destruct k). cbn [res_sys res_out].
    destruct (Hfacts false true) as (H1 & H2 & H3 & H4).
    eexists _, _, _, _, (Child (k_pgid k) (child_ends (k_plan k))),
      (Child (k_pgid k) (child_ends (k_plan k))).
    split; [reflexivity|]. split; [reflexivity|].
    split; [exact H1|]. split; [exact H2|]. split; [exact H3|]. split; [exact H4|].
    destruct k; cbn. by rewrite <- app_assoc.
Qed.

Lemma spawns_in_sequence_are_distinct_witness :
  let k := boot (fair fork_in_parent) in
  let first := run (Exec.create_subprocess (Some "/system/bin/sh") (Some "-") None 0) k in
  let second := run (Exec.create_subprocess (Some "/system/bin/sh") (Some "-") None 0)
                    (res_sys first) in
  ∃ ptm1 pid1 ptm2 pid2,
    res_out first = Returned (ptm1, pid1) ∧ res_out second = Returned (ptm2, pid2) ∧
    ptm1 ≠ ptm2 ∧ pid1 ≠ pid2.
Proof.
  intros k first second.
  pose proof (spawns_in_sequence_are_distinct k (Some "/system/bin/sh") (Some "-") None
                (Some "/system/bin/sh") (Some "-") None 0 0 0 eq_refl) as (He & _).
  destruct (He eq_refl) as (ptm1 & pid1 & ptm2 & pid2 & e1 & e2 & H1 & H2 & H3 & H4 & _).
  exists ptm1, pid1, ptm2, pid2. exact (conj H1 (conj H2 (conj H3 H4))).
Defined.

Lemma dup2_fds_other (fds : gmap Z fdesc) oldfd newfd fd :
  fd ≠ newfd → dup2_fds oldfd newfd fds !! fd = fds !! fd.
Proof.
  intros Hne. unfold dup2_fds. destruct (fds !! oldfd); [|done].
  destruct (decide (newfd < 0)); [done|]. destruct (decide (oldfd = newfd)); [done|].
  by rewrite lookup_insert_ne.
Qed.

Lemma dup2_fds_old (fds : gmap Z fdesc) oldfd newfd d :
  fds !! oldfd = Some d → dup2_fds oldfd newfd fds !! oldfd = Some d.
Proof.
  intros Hd. unfold dup2_fds. rewrite Hd.
  destruct (decide (newfd < 0)); [done|]. destruct (decide (oldfd = newfd)); [done|].
  by rewrite lookup_insert_ne.
Qed.

Lemma attached_other (fds : gmap Z fdesc) pts ptm fd :
  fd ≠ 0 → fd ≠ 1 → fd ≠ 2 → fd ≠ ptm → attached pts ptm fds !! fd = fds !! fd.
Proof.
  intros. unfold attached.
  by rewrite lookup_delete_ne, !dup2_fds_other.
Qed.

Lemma attached_slave (fds : gmap Z fdesc) pts ptm d :
  pts ≠ ptm → fds !! pts = Some d → attached pts ptm fds !! pts = Some d.
Proof.
  intros Hne Hd. unfold attached. rewrite lookup_delete_ne by done.
  by do 3 apply dup2_fds_old.
Qed.

Lemma attached_master (fds : gmap Z fdesc) pts ptm : attached pts ptm fds !! ptm = None.
Proof. unfold attached. apply lookup_delete_eq. Qed.

Lemma slave_is_not_master g u k :
  lowest_free (k_fds (opened g u k)) ≠ lowest_free (k_fds k).
Proof.
  intros Heq. pose proof (lowest_free_fresh (k_fds (opened g u k))) as Hfresh.
  rewrite Heq in Hfresh. unfold opened in Hfresh. destruct k; cbn in *.
  by rewrite lookup_insert_eq in Hfresh.
Qed.

(** What the child is left with when the slave could be opened. *)
Lemma Exec_child_table k cmd arg0 arg1 slot :
  Exec_ready (k_plan k) = true → fork_goes (k_plan k) = fork_in_child →
  file_opens (k_plan k) = true →
  let r := run (Exec.create_subprocess cmd arg0 arg1 slot) k in
  let pts := lowest_free (k_fds (opened true true k)) in
  let table := attached pts (lowest_free (k_fds k))
                 (<[pts := Fdesc (Pts (length (k_ptys k))) false]>
                    (k_fds (opened true true k))) in
  (∀ r', res_out r ≠ Returned r') ∧
  k_pid (res_sys r) = fresh_pid k ∧ k_ctty (res_sys r) = Some (length (k_ptys k)) ∧
  k_fds (res_sys r) =
    (if res_out r is Gone (image_replaced _ _ _)
     then filter (λ e, fd_cloexec e.2 = false) table else table).
Proof.
  intros Hr Hf Ho r pts table. subst r pts table.
  destruct (Exec_create_subprocess_child k cmd arg0 arg1 slot Hr Hf)
    as (Hp & _ & _ & _ & Hrun).
  rewrite Ho in Hrun. destruct Hrun as (Hc & _ & -> & ->).
  split; [|split; [done|split; [done|]]];
    destruct cmd; [destruct (image_loads (k_plan k))| |destruct (image_loads (k_plan k))|];
    done.
Qed.

Lemma Mosh_child_table k ip port pPtm pProcessId :
  Mosh_ready k = true → fork_goes (k_plan k) = fork_in_child →
  file_opens (k_plan k) = true →
  let r := run (MoshClient.create_mosh_client ip port pPtm pProcessId) k in
  let pts := lowest_free (k_fds (opened false true k)) in
  (∀ r', res_out r ≠ Returned r') ∧
  k_pid (res_sys r) = fresh_pid k ∧ k_ctty (res_sys r) = Some (length (k_ptys k)) ∧
  k_fds (res_sys r) =
    attached pts (lowest_free (k_fds k))
      (<[pts := Fdesc (Pts (length (k_ptys k))) false]> (k_fds (opened false true k))).
Proof.
  intros Hr Hf Ho r pts. subst r pts.
  destruct (Mosh_create_mosh_client_child k ip port pPtm pProcessId Hr Hf)
    as (Hp & _ & _ & _ & Hrun).
  rewrite Ho in Hrun. destruct Hrun as (Hc & Hfds & Hrun).
  split; [|done].
  destruct (main_returns (k_plan k)); destruct Hrun as [_ ->]; done.
Qed.

(** X2.  The two sides of one spawn belong together: the process id the
    parent receives is the id of the process that runs the child branch,
    the terminal the child takes as controlling terminal is the slave of the
    master the parent receives, the child does not return from the spawn
    function and does not keep the master. *)
Theorem parent_and_child_are_paired k cmd arg0 arg1 slot ptm0 :
  file_opens (k_plan k) = true →
  let n := length (k_ptys k) in
  let paired (par chi : result (Z * Z)) :=
    ∃ ptm pid,
      res_out par = Returned (ptm, pid) ∧ k_pid (res_sys par) = k_pid k ∧
      master_of (res_sys par) ptm = Some n ∧
      (∀ r, res_out chi ≠ Returned r) ∧
      k_pid (res_sys chi) = pid ∧ k_ctty (res_sys chi) = Some n ∧
      k_fds (res_sys chi) !! ptm = None in
  (Exec_ready (k_plan k) = true →
     paired (run (Exec.create_subprocess cmd arg0 arg1 slot) (on_side fork_in_parent k))
            (run (Exec.create_subprocess cmd arg0 arg1 slot) (on_side fork_in_child k))) ∧
  (Mosh_ready k = true →
     paired (run (MoshClient.create_mosh_client arg0 arg1 ptm0 slot)
               (on_side fork_in_parent k))
            (run (MoshClient.create_mosh_client arg0 arg1 ptm0 slot)
               (on_side fork_in_child k))).
Proof.
  intros Ho n paired. subst n paired. split; intros Hr.
  - exists (lowest_free (k_fds k)), (fresh_pid k).
    rewrite Exec_create_subprocess_parent by (by destruct k).
    destruct (Exec_child_table (on_side fork_in_child k) cmd arg0 arg1 slot)
      as (Hret & Hpid & Hctty & Hfds); [by destruct k..|].
    split; [by destruct k|]. split; [by destruct k|].
    split; [destruct k; unfold master_of; cbn; by rewrite lookup_insert_eq|].
    split; [done|]. split; [by destruct k|]. split; [by destruct k|].
    rewrite Hfds. change (k_fds (on_side fork_in_child k)) with (k_fds k).
    destruct (res_out _) as [| |[]]; try apply attached_master.
    apply map_lookup_filter_None. left. apply attached_master.
  - exists (lowest_free (k_fds k)), (fresh_pid k).
    rewrite Mosh_create_mosh_client_parent by (by destruct k).
    destruct (Mosh_child_table (on_side fork_in_child k) arg0 arg1 ptm0 slot)
      as (Hret & Hpid & Hctty & Hfds); [by destruct k..|].
    split; [by destruct k|]. split; [by destruct k|].
    split; [destruct k; unfold master_of; cbn; by rewrite lookup_insert_eq|].
    split; [done|]. split; [by destruct k|]. split; [by destruct k|].
    rewrite Hfds. apply attached_master.
Qed.

Lemma parent_and_child_are_paired_witness :
  ∃ ptm pid,
    res_out (run (Exec.create_subprocess (Some "/system/bin/sh") (Some "-") None 0)
               (on_side fork_in_parent (boot (fair fork_fails)))) = Returned (ptm, pid) ∧
    k_pid (res_sys (run (Exec.create_subprocess (Some "/system/bin/sh") (Some "-") None 0)
                      (on_side fork_in_child (boot (fair fork_fails))))) = pid.
Proof.
  pose proof (parent_and_child_are_paired (boot (fair fork_fails)) (Some "/system/bin/sh")
                (Some "-") None 0 0 eq_refl) as (He & _).
  destruct (He eq_refl) as (ptm & pid & H1 & _ & _ & _ & H2 & _).
  exists ptm, pid. exact (conj H1 H2).
Defined.

(** X3.  When descriptor 0 is not open in the caller, [open] gives the
    master the number 0.  The child duplicates the slave onto 0 and then
    closes 0 again with [close(ptm)]: it goes on (in [Exec], into the new
    image) without a standard input. *)
Theorem child_without_standard_input k cmd arg0 arg1 slot ptm0 :
  fork_goes (k_plan k) = fork_in_child → file_opens (k_plan k) = true →
  k_fds k !! 0 = None →
  let exec := run (Exec.create_subprocess cmd arg0 arg1 slot) k in
  let mosh := run (MoshClient.create_mosh_client arg0 arg1 ptm0 slot) k in
  (Exec_ready (k_plan k) = true →
     c_dup2 (lowest_free (k_fds (opened true true k))) 0 ∈ res_calls exec ∧
     c_close 0 ∈ res_calls exec ∧ k_fds (res_sys exec) !! 0 = None) ∧
  (Mosh_ready k = true →
     c_dup2 (lowest_free (k_fds (opened false true k))) 0 ∈ res_calls mosh ∧
     c_close 0 ∈ res_calls mosh ∧ k_fds (res_sys mosh) !! 0 = None).
Proof.
  intros Hf Ho H0 exec mosh. subst exec mosh.
  pose proof (lowest_free_zero (k_fds k) H0) as Hptm. split; intros Hr.
  - destruct (Exec_create_subprocess_child k cmd arg0 arg1 slot Hr Hf)
      as (_ & _ & _ & _ & Hrun).
    rewrite Ho, Hptm in Hrun. destruct Hrun as (_ & -> & _ & ->).
    split; [rewrite elem_of_app, !elem_of_cons; naive_solver|].
    split; [rewrite elem_of_app, !elem_of_cons; naive_solver|].
    destruct cmd; [destruct (image_loads (k_plan k))|]; try apply attached_master.
    apply map_lookup_filter_None. left. apply attached_master.
  - destruct (Mosh_create_mosh_client_child k arg0 arg1 ptm0 slot Hr Hf)
      as (_ & _ & _ & _ & Hrun).
    rewrite Ho, Hptm in Hrun. destruct Hrun as (_ & -> & Hrun).
    split; [|split; [|apply attached_master]];
      destruct (main_returns (k_plan k)); destruct Hrun as [-> _];
      rewrite !elem_of_app, !elem_of_cons; naive_solver.
Qed.

Lemma child_without_standard_input_witness :
  let k := with_fds (delete 0 stdio) (boot (fair fork_in_child)) in
  k_fds (res_sys (run (Exec.create_subprocess (Some "/system/bin/sh") (Some "-") None 0) k))
    !! 0 = None.
Proof.
  intros k.
  pose proof (child_without_standard_input k (Some "/system/bin/sh") (Some "-") None 0 0
                eq_refl eq_refl eq_refl) as (He & _).
  apply (He eq_refl).
Defined.

(** X4.  The image [Exec] loads inherits no descriptor that is marked
    close-on-exec.  Besides 0, 1 and 2 it still has the slave on the
    descriptor on which the child opened it, which the child never closes;
    of the other descriptors of the caller it has exactly those that are
    not marked. *)
Theorem image_descriptors k path arg0 arg1 slot :
  Exec_ready (k_plan k) = true → fork_goes (k_plan k) = fork_in_child →
  file_opens (k_plan k) = true → image_loads (k_plan k) = true →
  let r := run (Exec.create_subprocess (Some path) arg0 arg1 slot) k in
  let ptm := lowest_free (k_fds k) in
  let pts := lowest_free (k_fds (opened true true k)) in
  (∀ fd d, k_fds (res_sys r) !! fd = Some d → fd_cloexec d = false) ∧
  k_fds (res_sys r) !! pts = Some (Fdesc (Pts (length (k_ptys k))) false) ∧
  k_fds (res_sys r) !! ptm = None ∧
  (∀ fd d, fd ≠ 0 → fd ≠ 1 → fd ≠ 2 → fd ≠ ptm → fd ≠ pts →
     k_fds (res_sys r) !! fd = Some d ↔ k_fds k !! fd = Some d ∧ fd_cloexec d = false).
Proof.
  intros Hr Hf Ho Hi r ptm pts. subst r ptm pts.
  destruct (Exec_create_subprocess_child k (Some path) arg0 arg1 slot Hr Hf)
    as (_ & _ & _ & _ & Hrun).
  rewrite Ho, Hi in Hrun. destruct Hrun as (_ & _ & _ & ->).
  pose proof (slave_is_not_master true true k) as Hne.
  split; [|split; [|split]].
  - intros fd d Hd. by apply map_lookup_filter_Some in Hd as [_ Hd].
  - apply map_lookup_filter_Some. split; [|done].
    apply attached_slave; [done|]. apply lookup_insert_eq.
  - apply map_lookup_filter_None. left. apply attached_master.
  - intros fd d ? ? ? ? ?. rewrite map_lookup_filter_Some. simpl.
    rewrite attached_other, lookup_insert_ne by done.
    unfold opened. destruct k; cbn in *. by rewrite lookup_insert_ne.
Qed.

Lemma image_descriptors_witness :
  let one_more := <[7 := Fdesc (Other "/data/secret") true]>
                  (<[8 := Fdesc (Other "/data/log") false]> stdio) in
  let k := with_fds one_more (boot (fair fork_in_child)) in
  let r := run (Exec.create_subprocess (Some "/system/bin/sh") (Some "-") None 0) k in
  k_fds (res_sys r) !! 4 = Some (Fdesc (Pts 0) false) ∧ k_fds (res_sys r) !! 3 = None.
Proof.
  intros one_more k r.
  pose proof (image_descriptors k "/system/bin/sh" (Some "-") None 0
                eq_refl eq_refl eq_refl eq_refl) as (_ & Hpts & Hptm & _).
  split; [exact Hpts|exact Hptm].
Defined.

(** X5.  In [MoshClient] no image is loaded, so the close-on-exec mark has
    no effect: apart from 0, 1, 2 and the master it closes, the child keeps
    every descriptor of the caller, marked or not, and the slave on the
    descriptor on which it opened it. *)
Theorem mosh_child_keeps_descriptors k ip port ptm0 slot :
  Mosh_ready k = true → fork_goes (k_plan k) = fork_in_child →
  file_opens (k_plan k) = true →
  let r := run (MoshClient.create_mosh_client ip port ptm0 slot) k in
  let ptm := lowest_free (k_fds k) in
  let pts := lowest_free (k_fds (opened false true k)) in
  k_fds (res_sys r) !! pts = Some (Fdesc (Pts (length (k_ptys k))) false) ∧
  k_fds (res_sys r) !! ptm = None ∧
  (∀ fd, fd ≠ 0 → fd ≠ 1 → fd ≠ 2 → fd ≠ ptm → fd ≠ pts →
     k_fds (res_sys r) !! fd = k_fds k !! fd).
Proof.
  intros Hr Hf Ho r ptm pts. subst r ptm pts.
  destruct (Mosh_child_table k ip port ptm0 slot Hr Hf Ho) as (_ & _ & _ & ->).
  pose proof (slave_is_not_master false true k) as Hne.
  split; [|split].
  - apply attached_slave; [done|]. apply lookup_insert_eq.
  - apply attached_master.
  - intros fd ? ? ? ? ?. rewrite attached_other, lookup_insert_ne by done.
    unfold opened. destruct k; cbn in *. by rewrite lookup_insert_ne.
Qed.

Lemma mosh_child_keeps_descriptors_witness :
  let one_more := <[7 := Fdesc (Other "/data/secret") true]> stdio in
  let k := with_fds one_more (boot (fair fork_in_child)) in
  k_fds (res_sys (run (MoshClient.create_mosh_client (Some "10.0.0.1") (Some "60001") 0 0) k))
    !! 7 = Some (Fdesc (Other "/data/secret") true).
Proof.
  intros one_more k.
  pose proof (mosh_child_keeps_descriptors k (Some "10.0.0.1") (Some "60001") 0 0
                eq_refl eq_refl eq_refl) as (_ & _ & Hkeep).
  rewrite Hkeep; [reflexivity|done..].
Defined.

Lemma lowest_free_ne (fds : gmap Z fdesc) fd : is_Some (fds !! fd) → lowest_free fds ≠ fd.
Proof.
  intros [d Hd] Heq. pose proof (lowest_free_fresh fds) as Hfresh.
  by rewrite Heq, Hd in Hfresh.
Qed.

(** X6.  The master of an earlier spawn, left open in the parent, and the
    child of a later spawn: the image that [Exec] loads does not have it
    (it is marked close-on-exec); the child of [MoshClient], which loads no
    image, still holds it. *)
Theorem earlier_master_in_later_child k cmd arg0 arg1 slot path arg0' arg1' slot' ptm0 :
  is_Some (k_fds k !! 0) → is_Some (k_fds k !! 1) → is_Some (k_fds k !! 2) →
  file_opens (k_plan k) = true →
  let first := run (Exec.create_subprocess cmd arg0 arg1 slot) (on_side fork_in_parent k) in
  let later := run (Exec.create_subprocess (Some path) arg0' arg1' slot')
                   (on_side fork_in_child (res_sys first)) in
  let mfirst := run (MoshClient.create_mosh_client arg0 arg1 ptm0 slot)
                    (on_side fork_in_parent k) in
  let mlater := run (MoshClient.create_mosh_client arg0' arg1' ptm0 slot')
                    (on_side fork_in_child (res_sys mfirst)) in
  let master := Some (Fdesc (Ptmx (length (k_ptys k))) true) in
  (Exec_ready (k_plan k) = true → image_loads (k_plan k) = true →
     ∃ ptm pid, res_out first = Returned (ptm, pid) ∧
                k_fds (res_sys first) !! ptm = master ∧
                k_fds (res_sys later) !! ptm = None) ∧
  (Mosh_ready k = true → Mosh_ready (res_sys mfirst) = true →
     ∃ ptm pid, res_out mfirst = Returned (ptm, pid) ∧
                k_fds (res_sys mfirst) !! ptm = master ∧
                k_fds (res_sys mlater) !! ptm = master).
Proof.
  intros H0 H1 H2 Ho first later mfirst mlater master.
  subst first later mfirst mlater master.
  pose proof (lowest_free_above (k_fds k) H0 H1 H2) as Hptm.
  split.
  - intros Hr Hi. exists (lowest_free (k_fds k)), (fresh_pid k).
    rewrite Exec_create_subprocess_parent by (by destruct k). cbn [res_out res_sys].
    set (k1 := with_procs _ _ _).
    assert (k_fds k1 !! lowest_free (k_fds k)
            = Some (Fdesc (Ptmx (length (k_ptys k))) true)) as Hm.
    { subst k1. destruct k; cbn. apply lookup_insert_eq. }
    assert (Exec_ready (k_plan k1) = true ∧ file_opens (k_plan k1) = true ∧
            image_loads (k_plan k1) = true) as (Hr1 & Ho1 & Hi1) by (by destruct k).
    clearbody k1.
    split; [by destruct k|]. split; [done|].
    destruct (Exec_create_subprocess_child (on_side fork_in_child k1) (Some path)
                arg0' arg1' slot') as (_ & _ & _ & _ & Hrun); [done..|].
    replace (file_opens (k_plan (on_side fork_in_child k1))) with true in Hrun
      by (by rewrite <- Ho1).
    replace (image_loads (k_plan (on_side fork_in_child k1))) with true in Hrun
      by (by rewrite <- Hi1).
    destruct Hrun as (_ & _ & _ & ->).
    apply map_lookup_filter_None. right. intros d Hd.
    change (k_fds (on_side fork_in_child k1)) with (k_fds k1) in Hd.
    assert (lowest_free (k_fds k1) ≠ lowest_free (k_fds k)) as Hne2
      by (apply lowest_free_ne; by rewrite Hm).
    assert (lowest_free (k_fds (opened true true (on_side fork_in_child k1)))
            ≠ lowest_free (k_fds k)) as Hne3.
    { apply lowest_free_ne. unfold opened. cbn.
      rewrite lookup_insert_ne by done. by rewrite Hm. }
    rewrite attached_other, lookup_insert_ne in Hd by (done || lia).
    unfold opened in Hd. cbn in Hd. rewrite lookup_insert_ne, Hm in Hd by done.
    by simplify_eq.
  - intros Hr. rewrite Mosh_create_mosh_client_parent by (by destruct k).
    cbn [res_out res_sys]. set (k1 := with_procs _ _ _). intros Hr'.
    exists (lowest_free (k_fds k)), (fresh_pid k).
    assert (k_fds k1 !! lowest_free (k_fds k)
            = Some (Fdesc (Ptmx (length (k_ptys k))) true)) as Hm.
    { subst k1. destruct k; cbn. apply lookup_insert_eq. }
    assert (file_opens (k_plan k1) = true) as Ho1 by (by destruct k).
    clearbody k1.
    split; [by destruct k|]. split; [done|].
    destruct (Mosh_child_table (on_side fork_in_child k1) arg0' arg1' ptm0 slot')
      as (_ & _ & _ & ->); [done..|].
    change (k_fds (on_side fork_in_child k1)) with (k_fds k1).
    assert (lowest_free (k_fds k1) ≠ lowest_free (k_fds k)) as Hne2
      by (apply lowest_free_ne; by rewrite Hm).
    assert (lowest_free (k_fds (opened false true (on_side fork_in_child k1)))
            ≠ lowest_free (k_fds k)) as Hne3.
    { apply lowest_free_ne. unfold opened. cbn.
      rewrite lookup_insert_ne by done. by rewrite Hm. }
    rewrite attached_other, lookup_insert_ne by (done || lia).
    unfold opened. cbn. by rewrite lookup_insert_ne.
Qed.

Lemma earlier_master_in_later_child_witness :
  let k := boot (fair fork_fails) in
  let mfirst := run (MoshClient.create_mosh_client (Some "10.0.0.1") (Some "60001") 0 0)
                    (on_side fork_in_parent k) in
  let mlater := run (MoshClient.create_mosh_client (Some "10.0.0.2") (Some "60002") 0 0)
                    (on_side fork_in_child (res_sys mfirst)) in
  ∃ ptm pid, res_out mfirst = Returned (ptm, pid) ∧
             k_fds (res_sys mlater) !! ptm = Some (Fdesc (Ptmx 0) true).
Proof.
  intros k mfirst mlater.
  pose proof (earlier_master_in_later_child k None (Some "10.0.0.1") (Some "60001") 0
                "sh" (Some "10.0.0.2") (Some "60002") 0 0) as (_ & Hm);
    [by eexists..|reflexivity|].
  destruct (Hm eq_refl eq_refl) as (ptm & pid & H1 & _ & H2).
  exists ptm, pid. exact (conj H1 H2).
Defined.

(** ** The wrappers when the JVM plays along *)

Ltac jvm_facts H :=
  let Hh := fresh "Hheap" in
  let Hu := fresh "Hutf" in
  let Hc := fresh "Hcap" in
  let Hg := fresh "Hcrit" in
  let Hf := fresh "Hfound" in
  let Hm := fresh "Hmade" in
  destruct H as (Hh & Hu & Hc & Hg & Hf & Hm); cbn in Hh, Hu, Hc, Hg, Hf, Hm.

Lemma run_bind_returns {A B} (m : prog A) (f : A → prog B) k a k1 out k2 :
  (∃ calls, run m k = Result (Returned a) k1 calls) →
  (∃ calls, run (f a) k1 = Result out k2 calls) →
  ∃ calls, run (m ≫= f) k = Result out k2 calls.
Proof.
  intros [c1 E1] [c2 E2]. exists (c1 ++ c2).
  rewrite run_bind, E1. unfold and_then. cbn. by rewrite E2.
Qed.

Lemma Exec_marshal_ok k jstr :
  jvm_works (k_plan k) → k_pending k = None →
  ∃ calls, run (Exec.JNU_GetStringNativeChars jstr) k = Result (Returned jstr) k calls.
Proof.
  intros Hjvm Hpend. open_kernel k. jvm_facts Hjvm. subst.
  destruct jstr as [s|]; [|by eexists].
  unfold Exec.JNU_GetStringNativeChars. crank. rewrite Hfound. crank.
  settle. by eexists.
Qed.

Lemma Mosh_marshal_ok k jstr :
  jvm_works (k_plan k) →
  ∃ calls, run (MoshClient.jniGetStringNativeChars jstr) k = Result (Returned jstr) k calls.
Proof.
  intros Hjvm. open_kernel k. jvm_facts Hjvm. subst.
  destruct jstr as [s|]; [|by eexists].
  unfold MoshClient.jniGetStringNativeChars. crank. settle. by eexists.
Qed.

Lemma Exec_createSubprocess_spawns k cmd arg0 arg1 arr procId :
  jvm_works (k_plan k) → k_pending k = None →
  Exec_ready (k_plan k) = true → fork_goes (k_plan k) = fork_in_parent →
  ∃ calls,
    run (Exec.createSubprocess cmd arg0 arg1 arr procId) k =
      Result (Returned (JFileDescriptor (lowest_free (k_fds k)),
                        delivered_to arr (fresh_pid k)))
             (with_procs (fresh_pid k :: k_pids k)
                (k_children k ++ [(fresh_pid k, Child (k_pgid k) (child_ends (k_plan k)))])
                (opened true true k))
             calls.
Proof.
  intros Hjvm Hpend Hr Hf. unfold Exec.createSubprocess.
  eapply run_bind_returns; [by apply Exec_marshal_ok|].
  eapply run_bind_returns; [by apply Exec_marshal_ok|].
  eapply run_bind_returns; [by apply Exec_marshal_ok|].
  eapply run_bind_returns.
  { eexists. by apply Exec_create_subprocess_parent. }
  open_kernel k. jvm_facts Hjvm. subst. unfold opened.
  destruct arr as [[|a elems]|]; crank; rewrite ?Hfound, ?Hmade; crank;
    rewrite ?Hfound, ?Hmade; crank; settle; by eexists.
Qed.

Lemma Mosh_forkExec_spawns k arg0 arg1 procId ptm0 :
  jvm_works (k_plan k) →
  Mosh_ready k = true → fork_goes (k_plan k) = fork_in_parent →
  ∃ calls,
    run (MoshClient.forkExec arg0 arg1 procId ptm0) k =
      Result (Returned (JPair (JFileDescriptor (lowest_free (k_fds k)))
                              (JLong (fresh_pid k))))
             (with_procs (fresh_pid k :: k_pids k)
                (k_children k ++ [(fresh_pid k, Child (k_pgid k) (child_ends (k_plan k)))])
                (opened false true k))
             calls.
Proof.
  intros Hjvm Hr Hf. unfold MoshClient.forkExec, MoshClient.LOG_I.
  eapply run_bind_returns; [by eexists|].
  eapply run_bind_returns; [by apply Mosh_marshal_ok|].
  eapply run_bind_returns; [by apply Mosh_marshal_ok|].
  eapply run_bind_returns.
  { eexists. by apply Mosh_create_mosh_client_parent. }
  open_kernel k. jvm_facts Hjvm. subst. unfold opened.
  crank; rewrite ?Hfound, ?Hmade; crank; rewrite ?Hfound, ?Hmade; crank;
    rewrite ?Hfound, ?Hmade; crank; rewrite ?Hfound, ?Hmade; crank;
    rewrite ?Hfound, ?Hmade; crank. settle. by eexists.
Qed.

(** ** Resize, further *)

(** X7.  A resize on the handle that a spawn returned reaches the terminal
    of that spawn: the [ioctl] goes to the master just opened and the
    pseudo-terminal allocated by the spawn has the requested size, each
    value cut to 16 bits; no exception is left pending. *)
Theorem resize_reaches_spawned_terminal
    k cmd arg0 arg1 arr procId ptm0 row col xpixel ypixel :
  jvm_works (k_plan k) → k_pending k = None → fork_goes (k_plan k) = fork_in_parent →
  let sz := Winsize (to_ushort row) (to_ushort col) (to_ushort xpixel) (to_ushort ypixel) in
  let ptm := lowest_free (k_fds k) in
  (Exec_ready (k_plan k) = true →
     let spawn := run (Exec.createSubprocess cmd arg0 arg1 arr procId) k in
     ∃ fd arr',
       res_out spawn = Returned (fd, arr') ∧
       let resize := run (Exec.setPtyWindowSize fd row col xpixel ypixel) (res_sys spawn) in
       res_out resize = Returned () ∧
       last (res_calls resize) = Some (c_ioctl ptm TIOCSWINSZ sz) ∧
       k_ptys (res_sys resize) = k_ptys k ++ [Pty true true (Some sz)] ∧
       k_pending (res_sys resize) = None) ∧
  (Mosh_ready k = true →
     let spawn := run (MoshClient.forkExec arg0 arg1 procId ptm0) k in
     ∃ fd pid,
       res_out spawn = Returned (JPair fd pid) ∧
       let resize :=
         run (MoshClient.setPtyWindowSize fd row col xpixel ypixel) (res_sys spawn) in
       res_out resize = Returned () ∧
       last (res_calls resize) = Some (c_ioctl ptm TIOCSWINSZ sz) ∧
       k_ptys (res_sys resize) = k_ptys k ++ [Pty false true (Some sz)] ∧
       k_pending (res_sys resize) = None).
Proof.
  intros Hjvm Hpend Hf sz ptm. subst sz ptm. split; intros Hr.
  - destruct (Exec_createSubprocess_spawns k cmd arg0 arg1 arr procId Hjvm Hpend Hr Hf)
      as (calls & ->).
    eexists _, _. split; [reflexivity|]. cbn [res_sys].
    unfold Exec.setPtyWindowSize, Exec.jniGetFDFromFileDescriptor.
    open_kernel k. jvm_facts Hjvm. subst. unfold opened. crank.
    rewrite Hfound. crank. done.
  - destruct (Mosh_forkExec_spawns k arg0 arg1 procId ptm0 Hjvm Hr Hf) as (calls & ->).
    eexists _, _. split; [reflexivity|]. cbn [res_sys].
    unfold MoshClient.setPtyWindowSize, MoshClient.jniGetFDFromFileDescriptor.
    open_kernel k. jvm_facts Hjvm. cbn in Hr. subst. unfold opened. crank.
    rewrite Hfound. crank. done.
Qed.

Lemma fair_jvm_works side : jvm_works (fair side).
Proof. by repeat split. Qed.

Lemma resize_reaches_spawned_terminal_witness :
  let k := boot (fair fork_in_parent) in
  let spawn := run (Exec.createSubprocess (Some "/system/bin/sh") (Some "-") None
                      (Some [0]) 0) k in
  ∃ fd arr',
    res_out spawn = Returned (fd, arr') ∧
    k_ptys (res_sys (run (Exec.setPtyWindowSize fd 24 80 0 0) (res_sys spawn)))
      = [Pty true true (Some (Winsize 24 80 0 0))].
Proof.
  intros k spawn.
  pose proof (resize_reaches_spawned_terminal k (Some "/system/bin/sh") (Some "-") None
                (Some [0]) 0 0 24 80 0 0 (fair_jvm_works _) eq_refl eq_refl) as (He & _).
  destruct (He eq_refl) as (fd & arr' & H1 & _ & _ & H2 & _).
  exists fd, arr'. exact (conj H1 H2).
Defined.

(** ** waitFor, further *)

Lemma WEXITSTATUS_range s : 0 ≤ Exec.WEXITSTATUS s ≤ 255.
Proof.
  unfold Exec.WEXITSTATUS. rewrite Z.shiftr_land.
  change (Z.shiftr 65280 8) with (Z.ones 8). rewrite Z.land_ones by lia.
  pose proof (Z.mod_pos_bound (Z.shiftr s 8) (2 ^ 8)). lia.
Qed.

(** X9.  Whatever the process id, the state and the content of the
    uninitialised status word, [waitFor] makes the one call
    [waitpid(procId, &status, 0)], and a value it returns lies between 0
    and 255.  It returns unless the caller has children the call is about
    and none of them has terminated: then it does not return. *)
Theorem waitFor_result_in_range k procId status :
  let exec := run (Exec.waitFor procId status) k in
  run (MoshClient.waitFor procId status) k = exec ∧
  res_calls exec = [c_waitpid procId 0] ∧
  (∀ v, res_out exec = Returned v → 0 ≤ v ≤ 255) ∧
  (res_out exec = Gone never_returned ↔
     is_Some (reported k procId) ∧ ready k procId 0 = None) ∧
  (res_out exec ≠ Gone never_returned → ∃ v, res_out exec = Returned v).
Proof.
  intros exec. subst exec. split; [reflexivity|].
  rewrite waitFor_run.
  assert (∀ s, 0 ≤ (if Exec.WIFEXITED s then Exec.WEXITSTATUS s else 0) ≤ 255) as Hrange.
  { intros s. destruct (Exec.WIFEXITED s); [apply WEXITSTATUS_range|lia]. }
  destruct (reported k procId) as [r|];
    [destruct (ready k procId 0) as [[i [p ch]]|]|]; cbn [res_out res_calls].
  - split; [done|]. split; [by intros v [= <-]|].
    split; [split; [done|by intros [_ ?]]|]. intros _. by eexists.
  - split; [done|]. split; [done|]. split; [done|]. by intros [].
  - split; [done|]. split; [by intros v [= <-]|].
    split; [split; [done|by intros [[] _]]|]. intros _. by eexists.
Qed.

Lemma reported_after_reaping k pid i ch :
  0 < pid → NoDup (k_children k).*1 → reported k pid = Some (i, (pid, ch)) →
  reported (with_procs (k_pids k) (delete i (k_children k)) k) pid = None.
Proof.
  intros Hpid Hnd Hrep. unfold reported, with_procs in *. cbn [k_children].
  apply list_find_Some in Hrep as (Hi & _ & _).
  apply list_find_None, Forall_forall. intros [p c] Hin Hw.
  unfold waited in Hw. cbn in Hw. destruct (decide (0 < pid)); [|lia].
  apply bool_decide_eq_true in Hw. subst p.
  apply list_elem_of_lookup in Hin as [j Hj].
  assert (∃ j', j' ≠ i ∧ k_children k !! j' = Some (pid, c)) as (j' & Hne & Hj').
  { destruct (decide (j < i)%nat).
    - exists j. split; [lia|]. by rewrite list_lookup_delete_lt in Hj.
    - exists (S j). split; [lia|]. by rewrite list_lookup_delete_ge in Hj by lia. }
  apply Hne. eapply NoDup_lookup; [exact Hnd| |].
  - by rewrite list_lookup_fmap, Hj'.
  - by rewrite list_lookup_fmap, Hi.
Qed.

(** X10.  [waitFor] consumes the child it reports: after a wait for a
    child that exited or was killed, the child is no longer among the
    children of the caller, and a second [waitFor] for the same process id
    has nothing to report; what it returns is decoded from the uninitialised
    status word alone. *)
Theorem second_waitFor_finds_no_child k procId status status' i ch :
  0 < procId → NoDup (k_children k).*1 →
  reported k procId = Some (i, (procId, ch)) →
  (∀ sig, ch_end ch ≠ Stopped sig) →
  let first := run (Exec.waitFor procId status) k in
  let second := run (Exec.waitFor procId status') (res_sys first) in
  k_children (res_sys first) = delete i (k_children k) ∧
  reported (res_sys first) procId = None ∧
  second = Result (Returned (if Exec.WIFEXITED status' then Exec.WEXITSTATUS status' else 0))
                  (res_sys first) [c_waitpid procId 0] ∧
  run (MoshClient.waitFor procId status) k = first ∧
  run (MoshClient.waitFor procId status') (res_sys first) = second.
Proof.
  intros Hpid Hnd Hrep Hend first second. subst first second.
  change (MoshClient.waitFor procId status) with (Exec.waitFor procId status).
  change (MoshClient.waitFor procId status') with (Exec.waitFor procId status').
  assert (ready k procId 0 = Some (i, (procId, ch))) as Hready.
  { apply ready_of_reported; [done|]. cbn.
    destruct (ch_end ch) as [n|sig core|sig]; [done|done|by destruct (Hend sig)]. }
  rewrite (waitFor_run k), Hrep, Hready. cbn [res_sys].
  pose proof (reported_after_reaping k procId i ch Hpid Hnd Hrep) as Hgone.
  destruct (ch_end ch) as [n|sig core|sig] eqn:E; [| |by destruct (Hend sig)];
    rewrite waitFor_run, Hgone; by destruct k.
Qed.

Lemma second_waitFor_finds_no_child_witness :
  let spawned := res_sys (run (Exec.create_subprocess (Some "/system/bin/sh") (Some "-c")
                                 (Some "exit 3") 0) (boot (ending (Exits 3)))) in
  let first := run (Exec.waitFor 101 0) spawned in
  res_out first = Returned 3 ∧
  res_out (run (Exec.waitFor 101 1792) (res_sys first)) = Returned 7.
Proof.
  intros spawned first.
  pose proof (second_waitFor_finds_no_child spawned 101 0 1792 0%nat (Child 100 (Exits 3)))
    as (_ & _ & Hsecond & _); [lia|by repeat constructor; set_solver|reflexivity|done|].
  split; [reflexivity|]. fold first in Hsecond. by rewrite Hsecond.
Defined.

(** ** The helpers that carry strings and exceptions *)

(** X11.  [JNU_GetStringNativeChars] of [Exec] gives back the characters of
    the string exactly when the local references, the class
    [java.lang.String], the bytes and the memory can all be had and no
    exception is pending; in every other case, and for a null string, it
    gives NULL.  It always returns, and changes nothing but the pending
    exception, which it leaves alone when it succeeds. *)
Theorem JNU_GetStringNativeChars_result k jstr :
  let p := k_plan k in
  let ok := local_capacity p && class_found p "java/lang/String" && utf_given p &&
            heap_gives p && bool_decide (k_pending k = None) in
  ∃ e calls,
    run (Exec.JNU_GetStringNativeChars jstr) k =
      Result (Returned (if ok then jstr else None)) (with_pending e k) calls ∧
    (jstr = None → calls = [] ∧ e = k_pending k) ∧
    (ok = true → e = k_pending k).
Proof.
  intros p ok. subst p ok. open_kernel k.
  destruct jstr as [s|].
  2: { exists pending, []. split; [by repeat case_match|done]. }
  unfold Exec.JNU_GetStringNativeChars.
  destruct p_capacity; crank;
    [|settle; cbn; eexists _, _; (split; [reflexivity|]); done].
  destruct (p_class "java/lang/String") eqn:Hs; crank.
  2: { destruct p_utf; crank; settle; cbn;
         eexists _, _; (split; [reflexivity|]); done. }
  destruct p_utf; crank;
    [|settle; cbn; eexists _, _; (split; [reflexivity|]); done].
  destruct pending as [exc|]; crank;
    [rewrite andb_false_r; settle; cbn;
     eexists _, _; (split; [reflexivity|]); done|].
  destruct p_heap; crank;
    [settle; cbn; eexists _, _; (split; [reflexivity|]); done|].
  unfold Exec.JNU_ThrowByName.
  destruct (p_class "java/lang/OutOfMemoryError") eqn:Ho; crank;
    settle; cbn; eexists _, _; (split; [reflexivity|]); done.
Qed.

(** X12.  [jniGetStringNativeChars] of [MoshClient] gives back the
    characters exactly when [GetStringUTFChars] and the allocation both
    succeed, and NULL otherwise.  The characters obtained from the JVM are
    released exactly when they were obtained.  When [GetStringUTFChars]
    fails the pending exception is cleared, whatever it was; when the
    allocation fails an exception is left pending; on success the pending
    exception is untouched. *)
Theorem jniGetStringNativeChars_result k chars :
  let p := k_plan k in
  let r := run (MoshClient.jniGetStringNativeChars (Some chars)) k in
  res_out r = Returned (if utf_given p && heap_gives p then Some chars else None) ∧
  (j_ReleaseStringUTFChars ∈ res_calls r ↔ utf_given p = true) ∧
  (∃ e, res_sys r = with_pending e k ∧
        if utf_given p
        then if heap_gives p then e = k_pending k else is_Some e
        else e = None) ∧
  run (MoshClient.jniGetStringNativeChars None) k = Result (Returned None) k [].
Proof.
  intros p r. subst p r. open_kernel k.
  unfold MoshClient.jniGetStringNativeChars, MoshClient.jniThrowByName.
  destruct p_utf, p_heap, (p_class "java/lang/OutOfMemoryError") eqn:Ho;
    crank; rewrite ?Ho; crank; settle; cbn;
    (split; [done|]); (split; [|split; [eexists; split; [reflexivity|done]|done]]);
    try (split; [done|]; intros _; rewrite !elem_of_cons; tauto);
    (split; [|done]); intros Hin;
    repeat (apply elem_of_cons in Hin as [Hin|Hin]; [discriminate Hin|]);
    by apply elem_of_nil in Hin.
Qed.

(** X13.  Throwing by name always leaves an exception pending: the one
    named when its class is found, and otherwise the one the failed class
    lookup raised; the local reference is deleted in both cases.  The two
    files have the same function. *)
Theorem throw_by_name_leaves_exception k name msg :
  let r := run (MoshClient.jniThrowByName name msg) k in
  res_out r = Returned () ∧
  res_sys r = with_pending
                (Some (if class_found (k_plan k) name then name
                       else "java/lang/NoClassDefFoundError")) k ∧
  last (res_calls r) = Some j_DeleteLocalRef ∧
  run (Exec.JNU_ThrowByName name msg) k = r.
Proof.
  intros r. subst r. open_kernel k. unfold MoshClient.jniThrowByName.
  destruct (p_class name) eqn:Hc; crank; rewrite ?Hc; crank; settle; cbn;
    repeat split; unfold Exec.JNU_ThrowByName; crank; rewrite ?Hc; crank; done.
Qed.

(** ** The wrappers when the JVM fails them *)

Lemma Exec_createSubprocess_frame k cmd arg0 arg1 arr procId ptm pid s :
  (∀ e c0 c1 c2, ∃ calls,
     run (Exec.create_subprocess c0 c1 c2 procId) (with_pending e k) =
       Result (Returned (ptm, pid)) (with_pending e s) calls) →
  ∃ e calls,
    run (Exec.createSubprocess cmd arg0 arg1 arr procId) k =
      Result (Returned (if object_made (k_plan s) "java/io/FileDescriptor"
                        then JFileDescriptor ptm else JNull,
                        if critical_given (k_plan s) then delivered_to arr pid else arr))
             (with_pending e s) calls.
Proof.
  intros Hcore. unfold Exec.createSubprocess.
  destruct (Exec_marshal k cmd) as (c0 & e0 & l0 & E0).
  destruct (Exec_marshal (with_pending e0 k) arg0) as (c1 & e1 & l1 & E1).
  destruct (Exec_marshal (with_pending e1 (with_pending e0 k)) arg1) as (c2 & e2 & l2 & E2).
  destruct (Hcore e2 c0 c1 c2) as (l3 & E3).
  destruct (Exec_createSubprocess_tail s e2 ptm pid arr) as (e & l4 & E4).
  exists e, (l0 ++ l1 ++ l2 ++ l3 ++ l4).
  rewrite run_bind, E0. unfold and_then. cbn [res_out res_sys res_calls].
  rewrite run_bind, E1. unfold and_then. cbn [res_out res_sys res_calls].
  rewrite run_bind, E2. unfold and_then. cbn [res_out res_sys res_calls].
  rewrite run_bind.
  change (with_pending e2 (with_pending e1 (with_pending e0 k)))
    with (with_pending e2 k).
  rewrite E3. unfold and_then. cbn [res_out res_sys res_calls].
  by rewrite E4.
Qed.

Lemma Mosh_forkExec_frame k arg0 arg1 procId ptm0 ptm pid s :
  (∀ e ip port, ∃ calls,
     run (MoshClient.create_mosh_client ip port ptm0 procId) (with_pending e k) =
       Result (Returned (ptm, pid)) (with_pending e s) calls) →
  let p := k_plan s in
  let built :=
    class_found p "java/io/FileDescriptor" && object_made p "java/io/FileDescriptor" &&
    object_made p "java/lang/Long" &&
    class_found p "android/util/Pair" && object_made p "android/util/Pair" in
  ∃ e calls,
    run (MoshClient.forkExec arg0 arg1 procId ptm0) k =
      Result (Returned (if built then JPair (JFileDescriptor ptm) (JLong pid) else JNull))
             (with_pending e s) calls ∧
    (built = false → is_Some e).
Proof.
  intros Hcore p built. subst p built.
  unfold MoshClient.forkExec, MoshClient.LOG_I.
  destruct (Mosh_marshal k arg0) as (c0 & e0 & l0 & E0).
  destruct (Mosh_marshal (with_pending e0 k) arg1) as (c1 & e1 & l1 & E1).
  destruct (Hcore e1 c0 c1) as (l2 & E2).
  destruct (Mosh_forkExec_tail s e1 ptm pid) as (e & l3 & E3 & He).
  exists e, ([c_log "[ MoshClient.forkExec ]"] ++ l0 ++ l1 ++ l2 ++ l3).
  split; [|exact He].
  rewrite run_bind.
  change (run (perform (c_log "[ MoshClient.forkExec ]")) k)
    with (Result (Returned ()) k [c_log "[ MoshClient.forkExec ]"]).
  unfold and_then. cbn [res_out res_sys res_calls].
  rewrite run_bind, E0. unfold and_then. cbn [res_out res_sys res_calls].
  rewrite run_bind, E1. unfold and_then. cbn [res_out res_sys res_calls].
  rewrite run_bind.
  change (with_pending e1 (with_pending e0 k)) with (with_pending e1 k).
  rewrite E2. unfold and_then. cbn [res_out res_sys res_calls].
  by rewrite E3.
Qed.

(** X14.  After a successful spawn [createSubprocess] returns whatever the
    JVM does: the child is running and the master is open in the caller in
    every case, but the handle comes back as null when no
    [FileDescriptor] object can be made, and the process id reaches the
    array only if the array can be pinned, in its first element and in no
    other; a null or an empty array is left as it is. *)
Theorem createSubprocess_after_spawn k cmd arg0 arg1 arr procId :
  Exec_ready (k_plan k) = true → fork_goes (k_plan k) = fork_in_parent →
  let p := k_plan k in
  let ptm := lowest_free (k_fds k) in
  let pid := fresh_pid k in
  ∃ e calls,
    run (Exec.createSubprocess cmd arg0 arg1 arr procId) k =
      Result (Returned (if object_made p "java/io/FileDescriptor"
                        then JFileDescriptor ptm else JNull,
                        if critical_given p then delivered_to arr pid else arr))
             (with_pending e
                (with_procs (pid :: k_pids k)
                   (k_children k ++ [(pid, Child (k_pgid k) (child_ends p))])
                   (opened true true k)))
             calls.
Proof.
  intros Hr Hf p ptm pid. subst p ptm pid.
  apply (Exec_createSubprocess_frame k cmd arg0 arg1 arr procId _ _
           (with_procs (fresh_pid k :: k_pids k)
              (k_children k ++ [(fresh_pid k, Child (k_pgid k) (child_ends (k_plan k)))])
              (opened true true k))).
  intros e c0 c1 c2. eexists.
  by rewrite Exec_create_subprocess_parent by (by destruct k).
Qed.

Lemma createSubprocess_after_spawn_witness :
  let p := Plan true true true true fork_in_parent true true (Some 0) (Exits 0)
             true true (fun _ => true) (fun _ => false) true true true in
  ∃ e calls,
    run (Exec.createSubprocess (Some "/system/bin/sh") (Some "-") None
           (Some [0; 7]) 0) (boot p) =
      Result (Returned (JNull, Some [101; 7]))
             (with_pending e
                (with_procs [101; 1; 100] [(101, Child 100 (Exits 0))]
                   (opened true true (boot p))))
             calls.
Proof.
  intros p.
  exact (createSubprocess_after_spawn (boot p) (Some "/system/bin/sh") (Some "-") None
           (Some [0; 7]) 0 eq_refl eq_refl).
Defined.

(** X15.  After a successful spawn [forkExec] returns the pair of the
    handle and the process id only if the JVM finds both classes and makes
    all three objects; otherwise it returns null with an exception
    pending.  Either way the child is running and the master stays open in
    the caller. *)
Theorem forkExec_after_spawn k arg0 arg1 procId ptm0 :
  Mosh_ready k = true → fork_goes (k_plan k) = fork_in_parent →
  let p := k_plan k in
  let ptm := lowest_free (k_fds k) in
  let pid := fresh_pid k in
  let built :=
    class_found p "java/io/FileDescriptor" && object_made p "java/io/FileDescriptor" &&
    object_made p "java/lang/Long" &&
    class_found p "android/util/Pair" && object_made p "android/util/Pair" in
  ∃ e calls,
    run (MoshClient.forkExec arg0 arg1 procId ptm0) k =
      Result (Returned (if built then JPair (JFileDescriptor ptm) (JLong pid) else JNull))
             (with_pending e
                (with_procs (pid :: k_pids k)
                   (k_children k ++ [(pid, Child (k_pgid k) (child_ends p))])
                   (opened false true k)))
             calls ∧
    (built = false → is_Some e).
Proof.
  intros Hr Hf p ptm pid. subst p ptm pid.
  apply (Mosh_forkExec_frame k arg0 arg1 procId ptm0 _ _
           (with_procs (fresh_pid k :: k_pids k)
              (k_children k ++ [(fresh_pid k, Child (k_pgid k) (child_ends (k_plan k)))])
              (opened false true k))).
  intros e c0 c1. eexists.
  by rewrite Mosh_create_mosh_client_parent by (by destruct k).
Qed.

Lemma forkExec_after_spawn_witness :
  let p := Plan true true true true fork_in_parent true true (Some 0) (Exits 0)
             true true (fun _ => true)
             (fun cls => if decide (cls = "java/lang/Long") then false else true)
             true true true in
  ∃ e calls,
    run (MoshClient.forkExec (Some "10.0.0.1") (Some "60001") 0 0) (boot p) =
      Result (Returned JNull)
             (with_pending e
                (with_procs [101; 1; 100] [(101, Child 100 (Exits 0))]
                   (opened false true (boot p))))
             calls ∧
    is_Some e.
Proof.
  intros p.
  destruct (forkExec_after_spawn (boot p) (Some "10.0.0.1") (Some "60001") 0 0
              eq_refl eq_refl) as (e & calls & E & He).
  exists e, calls. split; [exact E|]. by apply He.
Defined.

(** ** measure, further *)

Lemma width_of_bit prop c eastAsian :
  width_of prop c eastAsian = 0 ∨ width_of prop c eastAsian = 1.
Proof. unfold width_of. repeat case_decide; destruct eastAsian; auto. Qed.

Lemma array_after_length stores attributes :
  length (array_after attributes stores) = length attributes.
Proof.
  revert attributes. unfold array_after.
  induction stores as [|[i v] stores IH]; intros attributes; [done|].
  simpl. rewrite IH. unfold store. simpl.
  destruct (decide (0 ≤ i)); [|done]. by rewrite length_insert.
Qed.

Lemma array_after_lookup stores attributes idx v :
  ascending stores.*1 → (idx, v) ∈ stores →
  0 ≤ idx → (Z.to_nat idx < length attributes)%nat →
  array_after attributes stores !! Z.to_nat idx = Some v.
Proof.
  revert attributes. induction stores as [|[i w] stores IH];
    intros attributes Hsort Hin Hidx Hlen; [by apply elem_of_nil in Hin|].
  simpl in Hsort. destruct Hsort as [Hhd Hsort].
  apply elem_of_cons in Hin as [[= <- <-]|Hin].
  - change (array_after attributes ((idx, v) :: stores))
      with (array_after (store attributes (idx, v)) stores).
    rewrite array_after_untouched; [|done|].
    + unfold store. simpl. destruct (decide (0 ≤ idx)); [|lia].
      by apply list_lookup_insert_eq.
    + rewrite Forall_fmap in Hhd. eapply Forall_impl; [exact Hhd|]. done.
  - change (array_after attributes ((i, w) :: stores))
      with (array_after (store attributes (i, w)) stores).
    apply IH; try done. unfold store. simpl.
    destruct (decide (0 ≤ i)); [|done]. by rewrite length_insert.
Qed.

Section measure_shape.

Variable U16_NEXT : (Z → Z) → Z → Z → Z * Z.
Variable u_getIntPropertyValue : Z → Z → Z.
Hypothesis U16_NEXT_advances :
  ∀ s i length, i < length → i < (U16_NEXT s i length).1 ≤ length.

Lemma measure_loop_shape (fuel : nat) s i end_ eastAsian stores :
  measure_loop U16_NEXT u_getIntPropertyValue fuel s i end_ eastAsian = Some stores →
  ascending stores.*1 ∧
  Forall (λ iv, i < iv.1 ≤ end_ ∧ (iv.2 = 0 ∨ iv.2 = 1)) stores ∧
  Z.of_nat (length stores) ≤ Z.max 0 (end_ - i).
Proof.
  revert i stores. induction fuel as [|fuel IH]; intros i stores; simpl.
  - destruct (decide (i < end_)); [done|]. intros [= <-].
    split; [done|]. split; [constructor|]. simpl. lia.
  - destruct (decide (i < end_)) as [Hi|Hi].
    2: { intros [= <-]. split; [done|]. split; [constructor|]. simpl. lia. }
    pose proof (U16_NEXT_advances s i end_ Hi) as Hadv.
    destruct (U16_NEXT s i end_) as [next c]. simpl in Hadv.
    destruct (measure_loop U16_NEXT u_getIntPropertyValue fuel s next end_ eastAsian)
      as [rest|] eqn:Hrest; [|done].
    intros [= <-]. destruct (IH next rest Hrest) as (Hsort & Hall & Hlen).
    split; [|split].
    + simpl. split; [|done]. apply Forall_fmap.
      eapply Forall_impl; [exact Hall|]. simpl. intros; lia.
    + constructor; [simpl; split; [lia|apply width_of_bit]|].
      eapply Forall_impl; [exact Hall|]. simpl. intros ? [? ?]. split; [lia|done].
    + simpl length. lia.
Qed.

End measure_shape.

Section measure_units.

Variable U16_NEXT : (Z → Z) → Z → Z → Z * Z.
Variable u_getIntPropertyValue : Z → Z → Z.

Lemma measure_loop_units (fuel : nat) s i end_ eastAsian :
  (∀ j, i ≤ j < end_ → U16_NEXT s j end_ = (j + 1, s j)) →
  end_ - i ≤ Z.of_nat fuel →
  measure_loop U16_NEXT u_getIntPropertyValue fuel s i end_ eastAsian =
    Some ((λ j, (j + 1, width_of u_getIntPropertyValue (s j) eastAsian))
            <$> seqZ i (end_ - i)).
Proof.
  revert i. induction fuel as [|fuel IH]; intros i Hunit Hfuel; simpl.
  - destruct (decide (i < end_)); [lia|]. by rewrite seqZ_nil by lia.
  - destruct (decide (i < end_)) as [Hi|Hi]; [|by rewrite seqZ_nil by lia].
    rewrite Hunit by lia. rewrite IH; [|intros; apply Hunit; lia|lia].
    rewrite (seqZ_cons i) by lia. simpl.
    by replace (Z.pred (end_ - i)) with (end_ - (i + 1)) by lia.
Qed.

End measure_units.

(** X16.  When the JVM does not give the source buffer, [measure] returns
    [U_ILLEGAL_ARGUMENT_ERROR] and stores nothing.  The jump to [exit]
    skips the initialisation of the pointer [uAttributes], which is tested
    all the same: when its slot happens to be non-null the attribute array
    is released although it was never obtained. *)
Theorem measure_without_buffer
    (U16_NEXT : (Z → Z) → Z → Z → Z * Z) (u_getIntPropertyValue : Z → Z → Z)
    k buffer start len eastAsian uAttributes :
  critical_given (k_plan k) = false →
  run (measure U16_NEXT u_getIntPropertyValue buffer start len eastAsian uAttributes) k =
    Result (Returned (U_ILLEGAL_ARGUMENT_ERROR, Some [])) k
           ([j_GetPrimitiveArrayCritical; c_log "Could not obtain source buffer"] ++
            if uAttributes then [j_ReleasePrimitiveArrayCritical] else []).
Proof.
  intros Hcrit. unfold measure. open_kernel k. subst. by destruct uAttributes.
Qed.

Lemma measure_without_buffer_witness :
  let p := Plan true true true true fork_in_parent true true (Some 0) (Exits 0)
             true true (fun _ => true) (fun _ => true) false true true in
  run (measure icu_U16_NEXT sample_property sample_buffer 0 4 false true) (boot p) =
    Result (Returned (U_ILLEGAL_ARGUMENT_ERROR, Some [])) (boot p)
           [j_GetPrimitiveArrayCritical; c_log "Could not obtain source buffer";
            j_ReleasePrimitiveArrayCritical].
Proof.
  intros p.
  exact (measure_without_buffer icu_U16_NEXT sample_property (boot p) sample_buffer
           0 4 false true eq_refl).
Defined.

(** X17.  With both arrays pinned, [measure] returns [U_ZERO_ERROR] for
    every region, releases both arrays and leaves the state as it was.  Its
    stores go to strictly ascending indices in (start, start+len], each
    value is 0 or 1, there are at most [len] of them and none for an empty
    region.  So no store overwrites another: each one that lands inside the
    attribute array is there at the end, and the array keeps its length. *)
Theorem measure_stores_ascend
    (U16_NEXT : (Z → Z) → Z → Z → Z * Z) (u_getIntPropertyValue : Z → Z → Z)
    k buffer start len eastAsian uAttributes :
  (∀ s i length, i < length → i < (U16_NEXT s i length).1 ≤ length) →
  critical_given (k_plan k) = true →
  -2147483648 ≤ start + len ≤ 2147483647 →
  ∃ stores,
    run (measure U16_NEXT u_getIntPropertyValue buffer start len eastAsian uAttributes) k =
      Result (Returned (U_ZERO_ERROR, Some stores)) k
             [j_GetPrimitiveArrayCritical; j_GetPrimitiveArrayCritical;
              j_ReleasePrimitiveArrayCritical; j_ReleasePrimitiveArrayCritical] ∧
    ascending stores.*1 ∧
    Forall (λ iv, start < iv.1 ≤ start + len ∧ (iv.2 = 0 ∨ iv.2 = 1)) stores ∧
    Z.of_nat (length stores) ≤ Z.max 0 len ∧
    (len ≤ 0 → stores = []) ∧
    ∀ attributes,
      length (array_after attributes stores) = length attributes ∧
      ∀ idx v, (idx, v) ∈ stores → 0 ≤ idx → (Z.to_nat idx < length attributes)%nat →
               array_after attributes stores !! Z.to_nat idx = Some v.
Proof.
  intros Hadv Hcrit Hrange.
  destruct (measure_loop_stores U16_NEXT u_getIntPropertyValue Hadv (Z.to_nat len)
              (chars_of buffer) start (start + len) eastAsian)
    as (stores & Hloop & _); [lia|].
  destruct (measure_loop_shape U16_NEXT u_getIntPropertyValue Hadv _ _ _ _ _ _ Hloop)
    as (Hsort & Hall & Hlen).
  exists stores. split; [|split; [done|split; [done|split; [|split]]]].
  - unfold measure. rewrite to_int_id by lia.
    replace (start + len - start) with len by lia. rewrite Hloop.
    open_kernel k. subst. done.
  - lia.
  - intros Hempty. destruct stores; [done|]. simpl in Hlen. lia.
  - intros attributes. split; [apply array_after_length|].
    intros idx v. by apply array_after_lookup.
Qed.

Lemma measure_stores_ascend_witness :
  ∃ stores,
    run (measure icu_U16_NEXT sample_property sample_buffer 0 4 true false)
        (boot (fair fork_in_parent)) =
      Result (Returned (U_ZERO_ERROR, Some stores)) (boot (fair fork_in_parent))
             [j_GetPrimitiveArrayCritical; j_GetPrimitiveArrayCritical;
              j_ReleasePrimitiveArrayCritical; j_ReleasePrimitiveArrayCritical] ∧
    ascending stores.*1 ∧ Z.of_nat (length stores) ≤ 4.
Proof.
  destruct (measure_stores_ascend icu_U16_NEXT sample_property (boot (fair fork_in_parent))
              sample_buffer 0 4 true false icu_U16_NEXT_advances eq_refl)
    as (stores & Hrun & Hsort & _ & Hlen & _); [lia|].
  exists stores. split; [exact Hrun|]. split; [exact Hsort|]. lia.
Defined.

(** X18.  Over a region in which every UTF-16 unit is a code point of its
    own (no surrogate pair is decoded), [measure] stores the width of the
    character at [j] in the attribute at [j+1], for every [j] of the
    region: in an array long enough, the attribute at [j+1] ends up as the
    width of [buffer[j]]. *)
Theorem measure_shifts_widths
    (U16_NEXT : (Z → Z) → Z → Z → Z * Z) (u_getIntPropertyValue : Z → Z → Z)
    k buffer start len eastAsian uAttributes :
  critical_given (k_plan k) = true →
  0 ≤ start → 0 ≤ len → start + len ≤ 2147483647 →
  (∀ j, start ≤ j < start + len →
        U16_NEXT (chars_of buffer) j (start + len) = (j + 1, chars_of buffer j)) →
  let width j := width_of u_getIntPropertyValue (chars_of buffer j) eastAsian in
  let stores := (λ j, (j + 1, width j)) <$> seqZ start len in
  res_out (run (measure U16_NEXT u_getIntPropertyValue buffer start len eastAsian
                  uAttributes) k)
    = Returned (U_ZERO_ERROR, Some stores) ∧
  ∀ attributes j,
    start ≤ j < start + len → (Z.to_nat (j + 1) < length attributes)%nat →
    array_after attributes stores !! Z.to_nat (j + 1) = Some (width j).
Proof.
  intros Hcrit Hstart Hlen0 Hhi Hunit width stores.
  pose proof (measure_loop_units U16_NEXT u_getIntPropertyValue (Z.to_nat len)
                (chars_of buffer) start (start + len) eastAsian Hunit) as Hloop.
  replace (start + len - start) with len in Hloop by lia.
  fold width in Hloop. fold stores in Hloop.
  split.
  - unfold measure. rewrite to_int_id by lia.
    replace (start + len - start) with len by lia. rewrite Hloop by lia.
    open_kernel k. subst. done.
  - intros attributes j Hj Hlen.
    assert (ascending stores.*1) as Hsort.
    { clear -Hlen0. subst stores. generalize start as i.
      assert (∀ n i, ascending ((λ j, (j + 1, width j)) <$> seqZ i (Z.of_nat n)).*1) as H.
      { induction n as [|n IH]; intros i; [done|].
        rewrite seqZ_cons by lia. simpl. split.
        - rewrite Forall_fmap, Forall_fmap. apply Forall_forall. intros x Hx.
          apply elem_of_seqZ in Hx. simpl. lia.
        - replace (Z.pred (Z.of_nat (S n))) with (Z.of_nat n) by lia. apply IH. }
      intros i. specialize (H (Z.to_nat len) i). by rewrite Z2Nat.id in H. }
    apply array_after_lookup; [done| |lia|done].
    subst stores. apply list_elem_of_fmap. exists j. split; [done|].
    apply elem_of_seqZ. lia.
Qed.

Lemma measure_shifts_widths_witness :
  res_out (run (measure icu_U16_NEXT sample_property [65; 20013; 66] 0 3 false false)
             (boot (fair fork_in_parent)))
    = Returned (U_ZERO_ERROR, Some [(1, 0); (2, 1); (3, 0)]) ∧
  array_after [7; 7; 7; 7] [(1, 0); (2, 1); (3, 0)] !! 2%nat = Some 1.
Proof.
  assert (∀ j, 0 ≤ j < 0 + 3 →
            icu_U16_NEXT (chars_of [65; 20013; 66]) j (0 + 3) =
              (j + 1, chars_of [65; 20013; 66] j)) as Hunit.
  { intros j Hj. assert (j = 0 ∨ j = 1 ∨ j = 2) as [->|[->| ->]] by lia; reflexivity. }
  destruct (measure_shifts_widths icu_U16_NEXT sample_property (boot (fair fork_in_parent))
              [65; 20013; 66] 0 3 false false eq_refl) as [Hrun Harr];
    [lia|lia|lia|exact Hunit|].
  split; [exact Hrun|]. apply (Harr [7; 7; 7; 7] 1); [lia|simpl; lia].
Defined.

(** ** The environment and signals, further *)

(** X19.  [setenv] with a name that does not reach the native side (a null
    string, or one the JVM or the heap cannot convert) calls
    [setenv(NULL, ...)], returns -1 and leaves the environment as it was.
    With a valid name and a null value it calls [setenv(name, NULL, 1)],
    and the process does not survive the call. *)
Theorem setenv_null_arguments k name value :
  let p := k_plan k in
  let r := run (MoshClient.setenv name value) k in
  (name = None ∨ utf_given p && heap_gives p = false →
     res_out r = Returned (-1) ∧ k_environ (res_sys r) = k_environ k ∧
     ∃ v, last (res_calls r) = Some (c_setenv None v 1)) ∧
  (∀ n, name = Some n → value = None → valid_name n = true →
        utf_given p && heap_gives p = true →
        res_out r = Gone crashed ∧ k_environ (res_sys r) = k_environ k).
Proof.
  intros p r. subst p r. open_kernel k.
  unfold MoshClient.setenv, MoshClient.jniGetStringNativeChars, MoshClient.jniThrowByName.
  split.
  - intros Hname.
    destruct name as [n|], value as [v|], p_utf, p_heap,
      (p_class "java/lang/OutOfMemoryError") eqn:Ho;
      try (by destruct Hname);
      crank; do 3 (rewrite ?Ho; crank); settle; by eauto.
  - intros n -> -> Hvalid Hok. apply andb_true_iff in Hok as [-> ->].
    crank. rewrite Hvalid. done.
Qed.

Lemma setenv_null_arguments_witness :
  let r := run (MoshClient.setenv (Some "TERM") None) (boot (fair fork_in_parent)) in
  res_out r = Gone crashed ∧ k_environ (res_sys r) = ∅.
Proof.
  intros r.
  destruct (setenv_null_arguments (boot (fair fork_in_parent)) (Some "TERM") None)
    as [_ Hcrash].
  exact (Hcrash "TERM" eq_refl eq_refl eq_refl eq_refl).
Defined.

Lemma reported_spawned k pid ch :
  0 < pid → (∀ pc, pc ∈ k_children k → pc.1 ≠ pid) →
  reported (with_procs (pid :: k_pids k) (k_children k ++ [(pid, ch)]) k) pid =
    Some (length (k_children k), (pid, ch)).
Proof.
  intros Hpid Hnew. unfold reported, with_procs. cbn [k_children].
  apply list_find_Some. split; [|split].
  - by rewrite lookup_app_r, Nat.sub_diag by lia.
  - unfold waited. cbn. destruct (decide (0 < pid)); [|lia]. by apply bool_decide_eq_true.
  - intros j [p c] Hj Hlt Hw. rewrite lookup_app_l in Hj by done.
    unfold waited in Hw. cbn in Hw. destruct (decide (0 < pid)); [|lia].
    apply bool_decide_eq_true in Hw. apply (Hnew (p, c)); [|done].
    by eapply list_elem_of_lookup_2.
Qed.

(** X20.  The life of a [MoshClient] child, seen from the caller.  After a
    spawn, [kill] with the process id delivered makes the one call
    [kill(pid, signal)]: it returns 0 for a signal number from 0 to 64 and
    -1 for any other, and it reaps nothing: the child is still the one
    [waitpid] has for that id.  For a child that terminates, a [waitFor]
    after it returns the status of the termination, decoded, and the
    children of the caller are again those it had before the spawn. *)
Theorem spawn_kill_waitFor k ip port ptm0 procId sig status :
  Mosh_ready k = true → fork_goes (k_plan k) = fork_in_parent →
  (∀ pc, pc ∈ k_children k → pc.1 ∈ k_pids k) →
  let pid := fresh_pid k in
  let s := wstatus (child_ends (k_plan k)) in
  let spawned := res_sys (run (MoshClient.create_mosh_client ip port ptm0 procId) k) in
  let killed := run (MoshClient.kill pid sig) spawned in
  let waited := run (MoshClient.waitFor pid status) (res_sys killed) in
  killed = Result (Returned (if bool_decide (0 ≤ sig ≤ 64) then 0 else -1)) spawned
                  [c_kill pid sig] ∧
  reported spawned pid =
    Some (length (k_children k), (pid, Child (k_pgid k) (child_ends (k_plan k)))) ∧
  ((∀ g, child_ends (k_plan k) ≠ Stopped g) →
     res_out waited = Returned (if Exec.WIFEXITED s then Exec.WEXITSTATUS s else 0) ∧
     k_children (res_sys waited) = k_children k).
Proof.
  intros Hr Hf Hown pid s spawned killed waited. subst pid s spawned killed waited.
  rewrite Mosh_create_mosh_client_parent by done. cbn [res_sys].
  pose proof (fresh_pid_bounds k) as (Hpid & Hself & _ & _ & Hfresh).
  assert (∀ pc, pc ∈ k_children k → pc.1 ≠ fresh_pid k) as Hnew.
  { intros pc Hpc. specialize (Hfresh _ (Hown _ Hpc)). lia. }
  set (born := with_procs (fresh_pid k :: k_pids k)
                 (k_children k ++ [(fresh_pid k, Child (k_pgid k) (child_ends (k_plan k)))])
                 (opened false true k)).
  assert (k_pid born = k_pid k ∧ k_pids born = fresh_pid k :: k_pids k ∧
          k_children born =
            k_children k ++ [(fresh_pid k, Child (k_pgid k) (child_ends (k_plan k)))])
    as (Hbpid & Hbpids & Hbch) by (by destruct k).
  assert (reported born (fresh_pid k) =
          Some (length (k_children k),
                (fresh_pid k, Child (k_pgid k) (child_ends (k_plan k))))) as Hrep.
  { rewrite <- (reported_spawned k (fresh_pid k)
                  (Child (k_pgid k) (child_ends (k_plan k))) Hpid Hnew).
    by destruct k. }
  assert (addressed born (fresh_pid k) = [fresh_pid k]) as Haddr.
  { unfold addressed. destruct (decide (0 < fresh_pid k)); [|lia].
    rewrite bool_decide_eq_true_2; [done|]. right. rewrite Hbpids. by left. }
  assert (run (MoshClient.kill (fresh_pid k) sig) born =
          Result (Returned (if bool_decide (0 ≤ sig ≤ 64) then 0 else -1)) born
                 [c_kill (fresh_pid k) sig]) as ->.
  { assert (sys (c_kill (fresh_pid k) sig) born =
            (Answer (if bool_decide (0 ≤ sig ≤ 64) then 0 else -1), born)) as Hsys.
    { cbn [sys]. unfold valid_signal.
      destruct (bool_decide (0 ≤ sig ≤ 64)); [|done]. rewrite Haddr.
      rewrite (bool_decide_eq_false_2 ([fresh_pid k] = [])) by done.
      rewrite (bool_decide_eq_false_2 (k_pid born ∈ [fresh_pid k])); [done|].
      rewrite Hbpid. intros Hin%list_elem_of_singleton. lia. }
    unfold MoshClient.kill, perform. cbn [run]. by rewrite Hsys. }
  clearbody born. split; [done|]. split; [done|]. cbn [res_sys].
  intros Hend.
  change (MoshClient.waitFor (fresh_pid k) status) with (Exec.waitFor (fresh_pid k) status).
  assert (ready born (fresh_pid k) 0 =
          Some (length (k_children k),
                (fresh_pid k, Child (k_pgid k) (child_ends (k_plan k))))) as Hready.
  { apply ready_of_reported; [done|]. cbn.
    destruct (child_ends (k_plan k)) as [n|g c|g]; [done|done|by destruct (Hend g)]. }
  rewrite waitFor_run, Hrep, Hready. cbn [ch_end res_out res_sys]. split; [done|].
  destruct (child_ends (k_plan k)) as [n|g c|g] eqn:E; [| |by destruct (Hend g)].
  all: destruct born; cbn in *; subst; by rewrite delete_middle, app_nil_r.
Qed.

Lemma spawn_kill_waitFor_witness :
  let k := boot (ending (Killed 9 false)) in
  let spawned := res_sys (run (MoshClient.create_mosh_client (Some "10.0.0.1")
                                 (Some "60001") 0 0) k) in
  let killed := run (MoshClient.kill 101 9) spawned in
  let waited := run (MoshClient.waitFor 101 0) (res_sys killed) in
  res_out killed = Returned 0 ∧ res_out waited = Returned 0 ∧
  k_children (res_sys waited) = [].
Proof.
  intros k spawned killed waited.
  destruct (spawn_kill_waitFor k (Some "10.0.0.1") (Some "60001") 0 0 9 0
              eq_refl eq_refl) as (Hk & _ & Hw).
  { intros pc Hpc. by apply elem_of_nil in Hpc. }
  split; [exact (f_equal res_out Hk)|].
  apply Hw. intros g. discriminate.
Defined.
